(** * Subdomain manager bot: the handlers of [main.py] and their properties

    The development embeds the handlers of [src/main.py] as functions of a
    small state-and-exception monad over a [world]:

    - the SQLite connection [conn]/[c], as the three tables of the schema
      (lists of rows, primary keys enforced by the INSERT statements) in two
      copies: [live], what statements on the shared connection see, and
      [durable], the database file as of the last [conn.commit()].  Python's
      [sqlite3] opens a transaction implicitly before INSERT/UPDATE/DELETE
      and only [commit()] makes it durable;
    - the FSM storage of the chat framework, a dictionary from the user
      (conversation) to a state and a data dictionary;
    - the DNS provider behind [cf], with the calls the handlers make;
    - the messages sent, and the provider calls made, as an output trace.

    Assumptions, stated once.  Every handler body runs without interleaving
    (between the availability check and the INSERT of [create_subdomain]
    there is no [await]).  Sending a chat message never raises.  User
    identities delivered by the chat transport fit an SQLite INTEGER; the one
    integer that is parsed from free text ([approve_user]) is range-checked
    as [sqlite3] does.

    Texts.  A Python [str] is the [string] of its UTF-8 encoding (the
    literals of the messages are written that way).  [py_split] and
    [py_contains], with their one-character ASCII separator, and [py_strip]
    and [py_split_ws], which know the blanks outside ASCII, are
    [str.split(sep)], [in], [str.strip()] and [str.split()] on every text.
    [py_lower] and [py_int] are [str.lower()] and [int()] as they act on
    ASCII text: outside ASCII Python also folds the case of other letters
    and reads other decimal digits.  A theorem that uses a property of what
    [py_lower] computes, or that [py_int] rejects a text, carries the
    hypothesis [is_ascii]; a text that [py_int] accepts is ASCII and is read
    as [int()] reads it.

    Wiring.  [main.py] registers [auth_middleware] on the update observer
    (line 51), so the dispatcher calls it with the [Update] object, and it
    calls [zones.get()] on the imported module in [select_domain] (line 84).
    Both are embedded as written: see [feed_update] and
    [cloudflare_zones_get]. *)

From Stdlib Require Import Ascii.
From stdpp Require Import base option list strings gmap pretty.

Local Open Scope Z_scope.
Local Open Scope string_scope.
Local Open Scope list_scope.

(** ** Python string operations *)

Definition nl : string := String (ascii_of_nat 10) "".

(** The blanks of [str.strip()] and [str.split()] in the ASCII range:
    TAB, LF, VT, FF, CR, FS, GS, RS, US and space. *)
Definition py_isspace (ch : ascii) : bool :=
  let n := nat_of_ascii ch in
  ((9 <=? n) && (n <=? 13) || (28 <=? n) && (n <=? 31) || (n =? 32))%nat.

Definition byte_is (n : nat) (ch : ascii) : bool := (nat_of_ascii ch =? n)%nat.

Definition byte_in (lo hi : nat) (ch : ascii) : bool :=
  let n := nat_of_ascii ch in ((lo <=? n) && (n <=? hi))%nat.

(** What follows the blank that [s] starts with, when it starts with one.
    Beyond ASCII the blanks of [strip()] and [split()] are U+0085, U+00A0,
    U+1680, U+2000 to U+200A, U+2028, U+2029, U+202F, U+205F and U+3000,
    here in their UTF-8 encoding. *)
Definition blank_at (s : string) : option string :=
  match s with
  | "" => None
  | String c1 r1 =>
      if py_isspace c1 then Some r1
      else
        match r1 with
        | "" => None
        | String c2 r2 =>
            if byte_is 194 c1 && (byte_is 133 c2 || byte_is 160 c2) then Some r2
            else
              match r2 with
              | "" => None
              | String c3 r3 =>
                  if byte_is 225 c1 && byte_is 154 c2 && byte_is 128 c3
                     || byte_is 226 c1 && byte_is 128 c2
                        && (byte_in 128 138 c3 || byte_in 168 169 c3 || byte_is 175 c3)
                     || byte_is 226 c1 && byte_is 129 c2 && byte_is 159 c3
                     || byte_is 227 c1 && byte_is 128 c2 && byte_is 128 c3
                  then Some r3 else None
              end
        end
  end.

(** The text is made of blanks only; [n] bounds its length. *)
Fixpoint blanks_only (n : nat) (s : string) : bool :=
  match s, n with
  | "", _ => true
  | _, O => false
  | _, S n => match blank_at s with
              | Some r => blanks_only n r
              | None => false
              end
  end.

(** [s.lstrip()]; [n] bounds the length of [s]. *)
Fixpoint py_lstrip_go (n : nat) (s : string) : string :=
  match n with
  | O => s
  | S n => match blank_at s with
           | Some r => py_lstrip_go n r
           | None => s
           end
  end.

Definition py_lstrip (s : string) : string := py_lstrip_go (String.length s) s.

(** [s.rstrip()] *)
Fixpoint py_rstrip (s : string) : string :=
  match s with
  | "" => ""
  | String ch r =>
      if blanks_only (String.length s) s then "" else String ch (py_rstrip r)
  end.

(** [s.strip()] *)
Definition py_strip (s : string) : string := py_rstrip (py_lstrip s).

(** Leading, then trailing, characters of a class removed. *)
Fixpoint lstrip (space : ascii → bool) (s : string) : string :=
  match s with
  | String ch r => if space ch then lstrip space r else s
  | "" => ""
  end.

Fixpoint rstrip (space : ascii → bool) (s : string) : string :=
  match s with
  | String ch r =>
      match rstrip space r with
      | "" => if space ch then "" else String ch ""
      | r' => String ch r'
      end
  | "" => ""
  end.

(** Every character of the text is in the ASCII range. *)
Fixpoint is_ascii (s : string) : bool :=
  match s with
  | String ch r => (nat_of_ascii ch <? 128)%nat && is_ascii r
  | "" => true
  end.

(** [s.lower()] on ASCII text: the letters A to Z.  (Python also folds the
    case of letters outside ASCII.) *)
Definition lower_ascii (ch : ascii) : ascii :=
  let n := nat_of_ascii ch in
  if ((65 <=? n) && (n <=? 90))%nat then ascii_of_nat (n + 32) else ch.

Fixpoint py_lower (s : string) : string :=
  match s with
  | String ch r => String (lower_ascii ch) (py_lower r)
  | "" => ""
  end.

(** [s.split(sep)] for a one-character separator: every occurrence splits,
    empty fields are kept. *)
Fixpoint py_split (sep : ascii) (s : string) : list string :=
  match s with
  | "" => [""]
  | String ch r =>
      if Ascii.eqb ch sep then "" :: py_split sep r
      else match py_split sep r with
           | f :: fs => String ch f :: fs
           | [] => [String ch ""]
           end
  end.

(** [ch in s] *)
Fixpoint py_contains (ch : ascii) (s : string) : bool :=
  match s with
  | "" => false
  | String c r => Ascii.eqb c ch || py_contains ch r
  end.

(** [s.split()]: the fields are the maximal runs without a blank.  [cur]
    is the field being read, backwards; [n] bounds the length of [s]. *)
Definition field_of (cur : string) : list string :=
  match cur with "" => [] | _ => [String.rev cur] end.

Fixpoint py_split_ws_go (n : nat) (cur : string) (s : string) : list string :=
  match n with
  | O => field_of cur
  | S n =>
      match blank_at s with
      | Some r => field_of cur ++ py_split_ws_go n "" r
      | None =>
          match s with
          | "" => field_of cur
          | String ch r => py_split_ws_go n (String ch cur) r
          end
      end
  end.

Definition py_split_ws (s : string) : list string :=
  py_split_ws_go (S (String.length s)) "" s.

Definition digit_of (ch : ascii) : option Z :=
  let n := nat_of_ascii ch in
  if ((48 <=? n) && (n <=? 57))%nat then Some (Z.of_nat (n - 48)) else None.

(** Decimal digits, with single underscores allowed between digits. *)
Fixpoint py_int_digits (acc : Z) (after_digit : bool) (s : string) : option Z :=
  match s with
  | "" => if after_digit then Some acc else None
  | String ch r =>
      match digit_of ch with
      | Some d => py_int_digits (10 * acc + d) true r
      | None =>
          if Ascii.eqb ch "_" && after_digit then py_int_digits acc false r
          else None
      end
  end.

(** The blanks that [int()] skips around a literal: TAB, LF, VT, FF, CR and
    space.  FS, GS, RS and US are blanks for [strip()] and [split()] but not
    here: [int] of a text with one of them raises ValueError. *)
Definition int_isspace (ch : ascii) : bool :=
  let n := nat_of_ascii ch in
  ((9 <=? n) && (n <=? 13) || (n =? 32))%nat.

(** [int(s)] on ASCII text; [None] stands for the [ValueError].  (Python
    also reads the decimal digits of other scripts, and skips the blanks
    outside ASCII around a literal.) *)
Definition py_int (s : string) : option Z :=
  match rstrip int_isspace (lstrip int_isspace s) with
  | String "+" r => py_int_digits 0 false r
  | String "-" r => Z.opp <$> py_int_digits 0 false r
  | r => py_int_digits 0 false r
  end.

(** [str(n)] for an integer. *)
Definition py_str_int (n : Z) : string := pretty n.

(** ** Exceptions *)

Inductive exn :=
| AttributeError (msg : string)
| IntegrityError (msg : string)
| OverflowError (msg : string)
| KeyError (key : string)
| ValueError (msg : string)
| IndexError (msg : string)
| StopIteration
| ProviderError (msg : string).

(** [str(e)] *)
Definition exn_str (e : exn) : string :=
  match e with
  | AttributeError msg | IntegrityError msg | OverflowError msg | ValueError msg
  | IndexError msg | ProviderError msg => msg
  | KeyError key => "'" +:+ key +:+ "'"
  | StopIteration => ""
  end.

Inductive res (A : Type) :=
| Ok (a : A)
| Raise (e : exn).
Arguments Ok {A} a.
Arguments Raise {A} e.

(** ** The database *)

Record user_row := UserRow { u_user_id : Z; u_status : string }.
Record subdomain_row :=
  SubdomainRow { s_subdomain : string; s_domain : string; s_user_id : Z }.
Record log_row :=
  LogRow { l_id : Z; l_user_id : Z; l_activity : string; l_timestamp : Z }.

Record db := Db {
  users : list user_row;
  subdomains : list subdomain_row;
  logs : list log_row;
  logs_seq : Z   (* sqlite_sequence of the AUTOINCREMENT column *)
}.

Definition user_is (uid : Z) (r : user_row) : bool :=
  bool_decide (u_user_id r = uid).

Definition key_is (sub dom : string) (r : subdomain_row) : bool :=
  bool_decide (s_subdomain r = sub) && bool_decide (s_domain r = dom).

Definition owned_by (uid : Z) (r : subdomain_row) : bool :=
  bool_decide (s_user_id r = uid).

Definition claim_is (sub dom : string) (uid : Z) (r : subdomain_row) : bool :=
  key_is sub dom r && owned_by uid r.

(** The primary key of a [subdomains] row, and what the PRIMARY KEY
    constraint of the schema demands of the table. *)
Definition row_key (r : subdomain_row) : string * string :=
  (s_subdomain r, s_domain r).

Definition keys_unique (l : list subdomain_row) : Prop := NoDup (row_key <$> l).

(** What the PRIMARY KEY of [users] demands of the table. *)
Definition user_ids_unique (d : db) : Prop := NoDup (u_user_id <$> users d).

(** SELECT status FROM users WHERE user_id=? ; fetchone() *)
Definition select_status (uid : Z) (d : db) : option string :=
  u_status <$> find (user_is uid) (users d).

(** INSERT INTO users (user_id) VALUES (?) : status takes its DEFAULT. *)
Definition insert_user (uid : Z) (d : db) : res db :=
  match find (user_is uid) (users d) with
  | Some _ => Raise (IntegrityError "UNIQUE constraint failed: users.user_id")
  | None => Ok (Db (users d ++ [UserRow uid "pending"])
                   (subdomains d) (logs d) (logs_seq d))
  end.

Definition approve_row (uid : Z) (r : user_row) : user_row :=
  if user_is uid r then UserRow (u_user_id r) "approved" else r.

(** UPDATE users SET status="approved" WHERE user_id=? *)
Definition update_approved (uid : Z) (d : db) : db :=
  Db (approve_row uid <$> users d) (subdomains d) (logs d) (logs_seq d).

(** SELECT * FROM subdomains WHERE subdomain=? AND domain=? ; fetchone() *)
Definition select_subdomain (sub dom : string) (d : db) : option subdomain_row :=
  find (key_is sub dom) (subdomains d).

(** INSERT INTO subdomains VALUES (?, ?, ?) under PRIMARY KEY (subdomain, domain) *)
Definition insert_subdomain (sub dom : string) (uid : Z) (d : db) : res db :=
  match find (key_is sub dom) (subdomains d) with
  | Some _ =>
      Raise (IntegrityError
               "UNIQUE constraint failed: subdomains.subdomain, subdomains.domain")
  | None => Ok (Db (users d) (subdomains d ++ [SubdomainRow sub dom uid])
                   (logs d) (logs_seq d))
  end.

(** SELECT subdomain, domain FROM subdomains WHERE user_id=? ; fetchall() *)
Definition select_owned (uid : Z) (d : db) : list (string * string) :=
  (λ r, (s_subdomain r, s_domain r)) <$> filter (λ r, owned_by uid r = true) (subdomains d).

(** DELETE FROM subdomains WHERE subdomain=? AND domain=? AND user_id=? ;
    the second component is [c.rowcount]. *)
Definition delete_claim (sub dom : string) (uid : Z) (d : db) : db * nat :=
  (Db (users d) (filter (λ r, claim_is sub dom uid r = false) (subdomains d))
      (logs d) (logs_seq d),
   length (filter (λ r, claim_is sub dom uid r = true) (subdomains d))).

(** INSERT INTO logs (user_id, activity, timestamp) VALUES (?, ?, ?) *)
Definition insert_log (uid : Z) (activity : string) (ts : Z) (d : db) : db :=
  Db (users d) (subdomains d)
     (logs d ++ [LogRow (logs_seq d + 1) uid activity ts]) (logs_seq d + 1).

(** ** Conversation state (the FSM storage of the chat framework) *)

Module SubdomainForm.
Inductive t := select_domain | enter_subdomain | confirm_delete.
End SubdomainForm.

Record session := Session {
  fsm_state : option SubdomainForm.t;
  fsm_data : gmap string string
}.

(** What [state.clear()] leaves: no state, empty data. *)
Definition cleared : session := Session None ∅.

(** A session that waits for the subdomain name has the zone and the domain
    that [create_subdomain] reads from it. *)
Definition session_ok (s : session) : Prop :=
  fsm_state s = Some SubdomainForm.enter_subdomain →
  is_Some (fsm_data s !! "domain") ∧ is_Some (fsm_data s !! "zone_id").

(** ** The DNS provider *)

Record zone := Zone { z_id : string; z_name : string }.

Record dns_record := DnsRecord {
  r_id : Z;
  r_zone : string;
  r_type : string;
  r_name : string;
  r_content : string;
  r_ttl : Z
}.

Record provider := Provider {
  zones : list zone;
  records : list dns_record;
  next_record_id : Z
}.

Inductive cf_call :=
| ZonesGet
| RecordsPost (zone_id type name content : string) (ttl : Z)
| RecordsGet (zone_id name : string)
| RecordsDelete (zone_id : string) (record_id : Z).

(** ** Everything a handler can observe or change *)

Record button := Button { b_text : string; b_callback_data : string }.

Inductive output :=
| SendMessage (chat_id : Z) (text : string)        (* bot.send_message *)
| Answer (to : Z) (text : string)                  (* message.answer *)
| AnswerMarkup (to : Z) (text : string) (keyboard : list button)
| CallbackAnswer (to : Z) (text : string)          (* callback.answer *)
| Cf (call : cf_call).                             (* a call on the provider *)

Record world := World {
  live : db;
  durable : db;
  storage : gmap Z session;
  cf : provider;
  faults : list (option string);
  clock : Z;
  out : list output
}.

Definition with_live (d : db) (w : world) : world :=
  World d (durable w) (storage w) (cf w) (faults w) (clock w) (out w).
Definition with_durable (d : db) (w : world) : world :=
  World (live w) d (storage w) (cf w) (faults w) (clock w) (out w).
Definition with_storage (s : gmap Z session) (w : world) : world :=
  World (live w) (durable w) s (cf w) (faults w) (clock w) (out w).
Definition with_cf (p : provider) (w : world) : world :=
  World (live w) (durable w) (storage w) p (faults w) (clock w) (out w).
Definition with_faults (fl : list (option string)) (w : world) : world :=
  World (live w) (durable w) (storage w) (cf w) fl (clock w) (out w).
Definition with_out (o : list output) (w : world) : world :=
  World (live w) (durable w) (storage w) (cf w) (faults w) (clock w) o.

(** ** The monad of handlers: state, and exceptions that keep the state *)

Definition M (A : Type) : Type := world → res A * world.

Global Instance M_ret : MRet M := λ A a w, (Ok a, w).
Global Instance M_bind : MBind M := λ A B f m w,
  match m w with
  | (Ok a, w') => f a w'
  | (Raise e, w') => (Raise e, w')
  end.

Definition raise {A} (e : exn) : M A := λ w, (Raise e, w).

(** try: body / except Exception as e: handler e *)
Definition try_except {A} (body : M A) (handler : exn → M A) : M A := λ w,
  match body w with
  | (Ok a, w') => (Ok a, w')
  | (Raise e, w') => handler e w'
  end.

Definition get_world : M world := λ w, (Ok w, w).
Definition modify (f : world → world) : M unit := λ w, (Ok (), f w).
Definition emit (o : output) : M unit := modify (λ w, with_out (out w ++ [o]) w).

Definition of_option {A} (o : option A) (e : exn) : M A :=
  match o with Some a => mret a | None => raise e end.

(** *** Statements on the shared cursor *)

Definition sql_select_status (uid : Z) : M (option string) :=
  w ← get_world; mret (select_status uid (live w)).

Definition sql_insert_user (uid : Z) : M unit :=
  w ← get_world;
  match insert_user uid (live w) with
  | Ok d => modify (with_live d)
  | Raise e => raise e
  end.

Definition int64 (n : Z) : Prop := - 2 ^ 63 ≤ n < 2 ^ 63.

Definition sql_update_approved (uid : Z) : M unit :=
  if decide (int64 uid)
  then modify (λ w, with_live (update_approved uid (live w)) w)
  else raise (OverflowError "Python int too large to convert to SQLite INTEGER").

Definition sql_select_subdomain (sub dom : string) : M (option subdomain_row) :=
  w ← get_world; mret (select_subdomain sub dom (live w)).

Definition sql_insert_subdomain (sub dom : string) (uid : Z) : M unit :=
  w ← get_world;
  match insert_subdomain sub dom uid (live w) with
  | Ok d => modify (with_live d)
  | Raise e => raise e
  end.

Definition sql_select_owned (uid : Z) : M (list (string * string)) :=
  w ← get_world; mret (select_owned uid (live w)).

Definition sql_delete_claim (sub dom : string) (uid : Z) : M nat :=
  w ← get_world;
  let '(d, rowcount) := delete_claim sub dom uid (live w) in
  modify (with_live d);; mret rowcount.

Definition sql_insert_log (uid : Z) (activity : string) : M unit :=
  modify (λ w, with_live (insert_log uid activity (clock w) (live w)) w).

(** conn.commit() *)
Definition commit : M unit := modify (λ w, with_durable (live w) w).

(** *** The FSM context of one conversation *)

Definition session_of (uid : Z) (w : world) : session :=
  default cleared (storage w !! uid).

Definition set_session (uid : Z) (s : session) : M unit :=
  modify (λ w, with_storage (<[uid := s]> (storage w)) w).

Definition state_get_data (uid : Z) : M (gmap string string) :=
  w ← get_world; mret (fsm_data (session_of uid w)).

Definition state_set_state (uid : Z) (st : SubdomainForm.t) : M unit :=
  w ← get_world;
  set_session uid (Session (Some st) (fsm_data (session_of uid w))).

Definition state_update_data (uid : Z) (kvs : list (string * string)) : M unit :=
  w ← get_world;
  let s := session_of uid w in
  set_session uid
    (Session (fsm_state s) (foldl (λ m kv, <[kv.1 := kv.2]> m) (fsm_data s) kvs)).

Definition state_clear (uid : Z) : M unit := set_session uid cleared.

(** data[key] *)
Definition dict_get (data : gmap string string) (key : string) : M string :=
  of_option (data !! key) (KeyError key).

(** *** Calls on the provider

    The client object [cf] is bound nowhere in [main.py] (the module imports
    [cloudflare] and never assigns [cf]), so the calls on it are modelled
    from the contract the spec gives for the provider: [ListZones() ->
    [{id, name}]], [CreateRecord(zone_id, {type, name, content, ttl}) ->
    record | error], [FindRecords(zone_id, name) -> [record]] and
    [DeleteRecord(zone_id, record_id) -> ok | error]. *)

(** Modelled from the spec: the start of any call on the absent client [cf].
    The call is recorded in the trace; it then fails with the error that the
    schedule [faults] holds for it (any exception the call can raise, the
    unbound name included) or goes on. *)
Definition cf_call_begin (call : cf_call) : M unit :=
  emit (Cf call);;
  w ← get_world;
  match faults w with
  | Some msg :: fl => modify (with_faults fl);; raise (ProviderError msg)
  | None :: fl => modify (with_faults fl)
  | [] => mret ()
  end.

(** The next [n] calls on the provider succeed. *)
Definition calls_succeed (n : nat) (fl : list (option string)) : Prop :=
  Forall (λ f, f = None) (take n fl).

(** Modelled from the spec: [cf.zones.get()] of the absent client, the
    spec's [ListZones() -> [{id, name}]]. *)
Definition zones_get : M (list zone) :=
  cf_call_begin ZonesGet;;
  w ← get_world; mret (zones (cf w)).

(** Modelled from the spec: [cf.zones.dns_records.post(zone_id, data=...)] of
    the absent client, the spec's [CreateRecord -> record | error]; on
    success the provider holds one record more. *)
Definition dns_records_post (zone_id type name content : string) (ttl : Z) : M unit :=
  cf_call_begin (RecordsPost zone_id type name content ttl);;
  modify (λ w,
    let p := cf w in
    with_cf (Provider (zones p)
               (records p ++ [DnsRecord (next_record_id p) zone_id type name content ttl])
               (next_record_id p + 1)) w).

Definition record_matches (zone_id name : string) (r : dns_record) : bool :=
  bool_decide (r_zone r = zone_id) && bool_decide (r_name r = name).

(** Modelled from the spec: [cf.zones.dns_records.get(zone_id,
    params={'name': ...})] of the absent client, the spec's
    [FindRecords(zone_id, name) -> [record]], a look-up by exact name. *)
Definition dns_records_get (zone_id name : string) : M (list dns_record) :=
  cf_call_begin (RecordsGet zone_id name);;
  w ← get_world;
  mret (filter (λ r, record_matches zone_id name r = true) (records (cf w))).

Definition record_is (zone_id : string) (rid : Z) (r : dns_record) : bool :=
  bool_decide (r_zone r = zone_id) && bool_decide (r_id r = rid).

(** Modelled from the spec: [cf.zones.dns_records.delete(zone_id, id)] of
    the absent client, the spec's [DeleteRecord -> ok | error]. *)
Definition dns_records_delete (zone_id : string) (rid : Z) : M unit :=
  cf_call_begin (RecordsDelete zone_id rid);;
  modify (λ w,
    let p := cf w in
    with_cf (Provider (zones p)
               (filter (λ r, record_is zone_id rid r = false) (records p))
               (next_record_id p)) w).

(** [cloudflare.zones.get()] (line 84): an attribute look-up on the module
    that line 9 imports, not a call on the client [cf] of the other handlers.
    The package exports its client classes and has no module-level [zones]:
    the look-up raises AttributeError, and no call is made. *)
Definition cloudflare_zones_get : M (list zone) :=
  raise (AttributeError "module 'cloudflare' has no attribute 'zones'").

(** next(f(z) for z in zs if p(z)) ; inside a coroutine the StopIteration
    surfaces as a RuntimeError, an exception either way. *)
Definition py_next {A} (l : list A) : M A := of_option (head l) StopIteration.

(** ** Updates delivered by the chat transport *)

(** A message: its sender and its text.  [message.text] is [None] for a
    message without text (a photo, a sticker, a command in a caption). *)
Record Message := Msg { m_from_user : Z; m_text : option string }.
Record CallbackQuery := Callback { q_from_user : Z; q_data : string }.

(** The objects the handlers are written for. *)
Inductive event :=
| OnMessage (message : Message)
| OnCallback (callback : CallbackQuery).

Definition from_user (ev : event) : Z :=
  match ev with
  | OnMessage m => m_from_user m
  | OnCallback q => q_from_user q
  end.

(** [event.answer(text)] on a message sends a chat message, on a callback
    query it answers the query. *)
Definition answer_of (ev : event) (text : string) : output :=
  match ev with
  | OnMessage m => Answer (m_from_user m) text
  | OnCallback q => CallbackAnswer (q_from_user q) text
  end.

(** The update as the transport delivers it.  It carries the message or the
    callback query in a field; it has itself neither [from_user] nor
    [answer]. *)
Record Update := Upd { update_id : Z; u_event : event }.

(** What [auth_middleware] uses of the object it is called with:
    [event.from_user.id] and [event.answer(text)].  Python looks an
    attribute up when the line runs, and raises AttributeError when the
    object has none of that name. *)
Class TelegramObject (E : Type) := {
  from_user_id : E → M Z;
  answer : E → string → M unit
}.

Global Instance event_object : TelegramObject event := {|
  from_user_id ev := mret (from_user ev);
  answer ev text := emit (answer_of ev text)
|}.

Global Instance update_object : TelegramObject Update := {|
  from_user_id _ := raise (AttributeError "'Update' object has no attribute 'from_user'");
  answer _ _ := raise (AttributeError "'Update' object has no attribute 'answer'")
|}.

(** ** The handlers of main.py *)

Definition TARGET : string := "your-target-server.com".
Definition TTL : Z := 300.

Definition full_name (sub dom : string) : string := sub +:+ "." +:+ dom.

(** The row that [log_activity] inserts: the next AUTOINCREMENT id, and
    [datetime.now()] read from the clock. *)
Definition log_entry (w : world) (uid : Z) (activity : string) : log_row :=
  LogRow (logs_seq (live w) + 1) uid activity (clock w).

(** for domain in domains: keyboard.button(text=domain['name'],
    callback_data=f"domain_{domain['id']}") *)
Definition domain_keyboard (domains : list zone) : list button :=
  (λ domain, Button (z_name domain) ("domain_" +:+ z_id domain)) <$> domains.

(** for sub, domain in subs: keyboard.button(text=f"{sub}.{domain}",
    callback_data=f"delete_{sub}_{domain}") *)
Definition delete_keyboard (subs : list (string * string)) : list button :=
  (λ sd : string * string,
     Button (full_name sd.1 sd.2) ("delete_" +:+ sd.1 +:+ "_" +:+ sd.2)) <$> subs.

Section Handlers.

(** [ADMIN_IDS], read from the environment when the module is loaded. *)
Variable ADMIN_IDS : list Z.

(** async def log_activity(user_id, action) *)
Definition log_activity (user_id : Z) (action : string) : M unit :=
  sql_insert_log user_id action;;
  commit.

(** async def auth_middleware(handler, event, data) ; the result is
    [None] when the handler was not called. *)
Definition auth_middleware {E A} `{!TelegramObject E}
    (handler : E → M A) (ev : E) : M (option A) :=
  user_id ← from_user_id ev;
  result ← sql_select_status user_id;
  match result with
  | None =>
      sql_insert_user user_id;;
      commit;;
      admin ← of_option (ADMIN_IDS !! 0%nat) (IndexError "list index out of range");
      emit (SendMessage admin
              ("New user request:" +:+ nl +:+ "User ID: " +:+ py_str_int user_id));;
      answer ev "⏳ Your account is pending approval. Admins have been notified.";;
      mret None
  | Some status =>
      if bool_decide (status ≠ "approved")
      then answer ev "🔒 Your account is not approved yet.";;
           mret None
      else a ← handler ev; mret (Some a)
  end.

(** async def start(message) *)
Definition start (message : Message) : M unit :=
  emit (Answer (m_from_user message)
          ("🌐 Welcome to Free Subdomain Manager!" +:+ nl +:+
           "Available Commands:" +:+ nl +:+
           "/new - Claim a new subdomain" +:+ nl +:+
           "/delete - Remove your subdomain" +:+ nl +:+
           "/list - View your subdomains")).

(** async def select_domain(message, state) *)
Definition select_domain (message : Message) : M unit :=
  domains ← cloudflare_zones_get;
  let keyboard := domain_keyboard domains in
  emit (AnswerMarkup (m_from_user message) "Select your domain:" keyboard);;
  state_set_state (m_from_user message) SubdomainForm.select_domain.

(** async def enter_subdomain(callback, state) *)
Definition enter_subdomain (callback : CallbackQuery) : M unit :=
  zone_id ← of_option (py_split "_" (q_data callback) !! 1%nat)
                      (IndexError "list index out of range");
  zs ← zones_get;
  domain ← py_next (z_name <$> filter (λ z, z_id z = zone_id) zs);
  state_update_data (q_from_user callback)
    [("zone_id", zone_id); ("domain", domain)];;
  emit (Answer (q_from_user callback)
          "Enter your desired subdomain name (e.g., 'blog'):");;
  state_set_state (q_from_user callback) SubdomainForm.enter_subdomain.

(** async def create_subdomain(message, state) *)
Definition create_subdomain (message : Message) : M unit :=
  let user_id := m_from_user message in
  text ← of_option (m_text message)
                   (AttributeError "'NoneType' object has no attribute 'strip'");
  let subdomain := py_lower (py_strip text) in
  data ← state_get_data user_id;
  domain ← dict_get data "domain";
  let full_domain := full_name subdomain domain in
  taken ← sql_select_subdomain subdomain domain;
  match taken with
  | Some _ => emit (Answer user_id "❌ This subdomain is already taken!")
  | None =>
      try_except
        (zone_id ← dict_get data "zone_id";
         dns_records_post zone_id "CNAME" full_domain TARGET TTL;;
         sql_insert_subdomain subdomain domain user_id;;
         commit;;
         emit (Answer user_id
                 ("✅ Success! Your subdomain is ready:" +:+ nl +:+ full_domain));;
         log_activity user_id ("Created " +:+ full_domain))
        (λ e, emit (Answer user_id ("❌ Error: " +:+ exn_str e)));;
      state_clear user_id
  end.

(** async def delete_subdomain(message, state) *)
Definition delete_subdomain (message : Message) : M unit :=
  let user_id := m_from_user message in
  subs ← sql_select_owned user_id;
  match subs with
  | [] => emit (Answer user_id "ℹ️ You don't have any active subdomains")
  | _ =>
      let keyboard := delete_keyboard subs in
      emit (AnswerMarkup user_id "Select subdomain to delete:" keyboard);;
      state_set_state user_id SubdomainForm.confirm_delete
  end.

(** _, sub, domain = callback.data.split('_') *)
Definition unpack3 (fields : list string) : M (string * string) :=
  match fields with
  | [_; sub; domain] => mret (sub, domain)
  | _ :: _ :: _ :: _ :: _ =>
      raise (ValueError "too many values to unpack (expected 3)")
  | _ =>
      raise (ValueError ("not enough values to unpack (expected 3, got " +:+
                         py_str_int (Z.of_nat (length fields)) +:+ ")"))
  end.

(** async def confirm_delete(callback, state) *)
Definition confirm_delete (callback : CallbackQuery) : M unit :=
  '(sub, domain) ← unpack3 (py_split "_" (q_data callback));
  let user_id := q_from_user callback in
  rowcount ← sql_delete_claim sub domain user_id;
  if bool_decide (rowcount = 0%nat)
  then emit (CallbackAnswer user_id "🚫 Subdomain not found!")
  else
    zs ← zones_get;
    zone_id ← py_next (z_id <$> filter (λ z, z_name z = domain) zs);
    found ← dns_records_get zone_id (full_name sub domain);
    match found with
    | r :: _ => dns_records_delete zone_id (r_id r)
    | [] => mret ()
    end;;
    commit;;
    emit (Answer user_id ("🗑️ Successfully deleted: " +:+ full_name sub domain));;
    log_activity user_id ("Deleted " +:+ full_name sub domain).

(** async def approve_user(message) *)
Definition approve_user (message : Message) : M unit :=
  if bool_decide (m_from_user message ∈ ADMIN_IDS)
  then
    try_except
      (text ← of_option (m_text message)
                        (AttributeError "'NoneType' object has no attribute 'split'");
       token ← of_option (py_split_ws text !! 1%nat)
                         (IndexError "list index out of range");
       user_id ← of_option (py_int token)
                           (ValueError "invalid literal for int() with base 10");
       sql_update_approved user_id;;
       commit;;
       emit (Answer (m_from_user message)
               ("✅ User " +:+ py_str_int user_id +:+ " approved"));;
       emit (SendMessage user_id "🎉 Your account has been approved!"))
      (λ _, emit (Answer (m_from_user message)
                    "Invalid format. Use /approve USER_ID"))
  else mret ().

(** ** The dispatcher

    Which handler the framework's filters select for a message or a callback
    query is not modelled: a [call] names the handler and carries its
    argument, so that the steps below cover every routing. *)

Inductive call :=
| CallStart (message : Message)
| CallNew (message : Message)
| CallDomain (callback : CallbackQuery)
| CallName (message : Message)
| CallDelete (message : Message)
| CallConfirm (callback : CallbackQuery)
| CallApprove (message : Message).

Definition call_event (c : call) : event :=
  match c with
  | CallStart m | CallNew m | CallName m | CallDelete m | CallApprove m => OnMessage m
  | CallDomain q | CallConfirm q => OnCallback q
  end.

Definition dispatch (c : call) : M unit :=
  match c with
  | CallStart m => start m
  | CallNew m => select_domain m
  | CallDomain q => enter_subdomain q
  | CallName m => create_subdomain m
  | CallDelete m => delete_subdomain m
  | CallConfirm q => confirm_delete q
  | CallApprove m => approve_user m
  end.

(** [dp.feed_update], as [main.py] wires it: [@dp.update.outer_middleware()]
    (line 51) puts [auth_middleware] around the update observer, so it is
    called with the [Update] itself; [c] is the call the router would make
    behind it. *)
Definition feed_update (u : Update) (c : call) : M (option unit) :=
  auth_middleware (λ _, dispatch c) u.

(** The gate called with the message or the callback query itself, the
    object its body is written for (what a registration on [dp.message] and
    [dp.callback_query] gives), followed by the routed handler. *)
Definition process (c : call) : M (option unit) :=
  auth_middleware (λ _, dispatch c) (call_event c).

(** The process stops and starts again: the open transaction is lost,
    and so is the in-memory FSM storage. *)
Definition restart (w : world) : world :=
  with_storage ∅ (with_live (durable w) w).

(** One step of the system: an update is fed to the dispatcher as wired, or
    the gate and a handler run on a message or callback query, or the
    environment moves (the provider's state, the pending faults, the clock),
    or the process restarts.  The second kind of step is not one the wiring
    of [main.py] makes; the invariants below are proved with it, and so hold
    for the code as it is and for the gate registered on the two observers
    its body fits. *)
Inductive step : world → world → Prop :=
| step_feed u c w : step w (feed_update u c w).2
| step_update c w : step w (process c w).2
| step_env p fl t w :
    step w (World (live w) (durable w) (storage w) p fl t (out w))
| step_restart w : step w (restart w).

Definition reachable_from (w0 : world) : world → Prop := rtc step w0.

End Handlers.

(** ** Configuration read when the module is loaded *)

(** ADMIN_IDS = [int(id) for id in os.getenv('ADMIN_IDS').split(',')] ;
    [None] stands for the exception that stops the module from loading:
    AttributeError when the variable is unset, ValueError when a field is
    not an integer literal.  [int] is the reading of one literal. *)
Definition load_ids (int : string → option Z) (env : option string) : option (list Z) :=
  match env with
  | None => None
  | Some s => mapM int (py_split "," s)
  end.

Definition load_admin_ids : option string → option (list Z) := load_ids py_int.

(** ** A deployment used in the examples

    One admin, two approved users, one pending user; user 8 holds
    [blog.example.com]; user 7 has selected the zone and is asked for a name. *)

Definition ADMINS : list Z := [1].

Definition db0 : db :=
  Db [UserRow 1 "approved"; UserRow 7 "approved"; UserRow 8 "approved";
      UserRow 9 "pending"]
     [SubdomainRow "blog" "example.com" 8] [] 0.

Definition provider0 : provider :=
  Provider [Zone "z1" "example.com"]
           [DnsRecord 1 "z1" "CNAME" "blog.example.com" TARGET TTL] 2.

Definition naming : session :=
  Session (Some SubdomainForm.enter_subdomain)
          (<["domain" := "example.com"]> (<["zone_id" := "z1"]> ∅)).

Definition world0 : world :=
  World db0 db0 (<[7 := naming]> ∅) provider0 [] 1000 [].

(** The same deployment after user 7 has claimed [my_site.example.com]. *)
Definition db1 : db :=
  Db (users db0)
     [SubdomainRow "blog" "example.com" 8; SubdomainRow "my_site" "example.com" 7]
     [LogRow 1 7 "Created my_site.example.com" 1000] 1.

Definition provider1 : provider :=
  Provider [Zone "z1" "example.com"]
           [DnsRecord 1 "z1" "CNAME" "blog.example.com" TARGET TTL;
            DnsRecord 2 "z1" "CNAME" "my_site.example.com" TARGET TTL] 3.

Definition world1 : world :=
  World db1 db1 (<[7 := cleared]> ∅) provider1 [] 1000 [].

(** A provider whose zone identifiers contain an underscore, with the
    users and claims of [db0]. *)
Definition provider2 : provider :=
  Provider [Zone "z" "other.org"; Zone "z_1" "example.com"] [] 1.

Definition world2 : world :=
  World db0 db0 ∅ provider2 [] 1000 [].

(** * Properties *)

(** ** Running the monad *)

Lemma run_bind {A B} (m : M A) (f : A → M B) (w : world) :
  (m ≫= f) w = match m w with
               | (Ok a, w') => f a w'
               | (Raise e, w') => (Raise e, w')
               end.
Proof. reflexivity. Qed.

Arguments String.append : simpl never.
Arguments pretty : simpl never.

(** Symbolic execution: unfold the monad and the primitive operations, then
    reduce what the known parts of the world decide. *)
Ltac run :=
  cbv beta iota delta
    [mbind M_bind mret M_ret get_world modify emit raise of_option try_except
     sql_select_status sql_insert_user sql_update_approved sql_select_subdomain
     sql_insert_subdomain sql_select_owned sql_delete_claim sql_insert_log
     commit set_session state_get_data state_set_state state_update_data
     state_clear dict_get cf_call_begin zones_get dns_records_post
     dns_records_get dns_records_delete cloudflare_zones_get py_next log_activity
     from_user_id answer event_object update_object
     with_live with_durable with_storage with_cf with_faults with_out];
  simpl.

(** ** Facts on the tables *)

Lemma find_elem_of {A} (f : A → bool) (l : list A) (x : A) :
  x ∈ l → f x = true → is_Some (find f l).
Proof.
  intros Hin Hf. destruct (find f l) eqn:E; [eauto|].
  apply list_elem_of_In in Hin.
  rewrite (find_none f l E x Hin) in Hf. discriminate.
Qed.

Lemma find_none_filter {A} (f : A → bool) (l : list A) :
  find f l = None → filter (λ x, f x = true) l = [].
Proof.
  induction l as [|a l IH]; simpl; [done|].
  destruct (f a) eqn:E; [done|]. intros H.
  rewrite filter_cons_False by congruence. auto.
Qed.

Lemma key_is_spec (sub dom : string) (r : subdomain_row) :
  key_is sub dom r = true ↔ s_subdomain r = sub ∧ s_domain r = dom.
Proof.
  unfold key_is. rewrite andb_true_iff, !bool_decide_eq_true. done.
Qed.

Lemma claim_is_spec (sub dom : string) (uid : Z) (r : subdomain_row) :
  claim_is sub dom uid r = true ↔ r = SubdomainRow sub dom uid.
Proof.
  unfold claim_is, owned_by. rewrite andb_true_iff, key_is_spec, bool_decide_eq_true.
  destruct r as [s d u]; simpl. split.
  - intros [[-> ->] ->]. done.
  - intros [= -> -> ->]. done.
Qed.

Lemma find_none_intro {A} (f : A → bool) (l : list A) :
  (∀ x, x ∈ l → f x = false) → find f l = None.
Proof.
  intros H. destruct (find f l) eqn:E; [|done].
  apply find_some in E as [Hin Hf]. apply list_elem_of_In in Hin.
  rewrite (H _ Hin) in Hf. discriminate.
Qed.

Lemma select_subdomain_free (sub dom : string) (d : db) :
  (∀ r, r ∈ subdomains d → ¬ (s_subdomain r = sub ∧ s_domain r = dom)) →
  select_subdomain sub dom d = None.
Proof.
  intros H. apply find_none_intro. intros r Hr.
  destruct (key_is sub dom r) eqn:E; [|done].
  apply key_is_spec in E. destruct (H r Hr E).
Qed.

(** ** create_subdomain *)

Section Claim.

Variable message : Message.
Variable text : string.
Hypothesis Htext : m_text message = Some text.
Variable w : world.

Let user_id := m_from_user message.
Let subdomain := py_lower (py_strip text).

Lemma create_subdomain_taken_run (dom : string) (r : subdomain_row) :
  fsm_data (session_of user_id w) !! "domain" = Some dom →
  r ∈ subdomains (live w) →
  s_subdomain r = subdomain →
  s_domain r = dom →
  create_subdomain message w =
    (Ok (),
     World (live w) (durable w) (storage w) (cf w) (faults w) (clock w)
       (out w ++ [Answer user_id "❌ This subdomain is already taken!"])).
Proof.
  intros Hdom Hin Hs Hd.
  assert (is_Some (select_subdomain subdomain dom (live w))) as [r' Hr'].
  { apply (find_elem_of _ _ r); [done|]. by apply key_is_spec. }
  unfold create_subdomain. rewrite Htext. run. fold user_id subdomain.
  rewrite Hdom. simpl. rewrite Hr'. reflexivity.
Qed.

(** The provider refuses the record: only the call and the error message
    are added to the trace, the fault is consumed, the session is cleared. *)
Lemma create_subdomain_refused_run (dom zid msg : string) (fl : list (option string)) :
  fsm_data (session_of user_id w) !! "domain" = Some dom →
  fsm_data (session_of user_id w) !! "zone_id" = Some zid →
  select_subdomain subdomain dom (live w) = None →
  faults w = Some msg :: fl →
  create_subdomain message w =
    (Ok (),
     World (live w) (durable w) (<[user_id := cleared]> (storage w)) (cf w) fl (clock w)
       (out w ++ [Cf (RecordsPost zid "CNAME" (full_name subdomain dom) TARGET TTL)]
              ++ [Answer user_id ("❌ Error: " +:+ msg)])).
Proof.
  intros Hdom Hzid Hfree Hfl.
  unfold create_subdomain. rewrite Htext. run. fold user_id subdomain.
  rewrite Hdom. simpl. rewrite Hfree, Hzid. simpl. rewrite Hfl. simpl.
  rewrite <- app_assoc. reflexivity.
Qed.

(** The provider accepts the record. *)
Lemma create_subdomain_created_run (dom zid : string) :
  fsm_data (session_of user_id w) !! "domain" = Some dom →
  fsm_data (session_of user_id w) !! "zone_id" = Some zid →
  select_subdomain subdomain dom (live w) = None →
  hd None (faults w) = None →
  let full_domain := full_name subdomain dom in
  let d1 := Db (users (live w))
               (subdomains (live w) ++ [SubdomainRow subdomain dom user_id])
               (logs (live w)) (logs_seq (live w)) in
  let d2 := insert_log user_id ("Created " +:+ full_domain) (clock w) d1 in
  create_subdomain message w =
    (Ok (),
     World d2 d2 (<[user_id := cleared]> (storage w))
       (Provider (zones (cf w))
          (records (cf w) ++
             [DnsRecord (next_record_id (cf w)) zid "CNAME" full_domain TARGET TTL])
          (next_record_id (cf w) + 1))
       (tail (faults w)) (clock w)
       (out w ++ [Cf (RecordsPost zid "CNAME" full_domain TARGET TTL)]
              ++ [Answer user_id
                    ("✅ Success! Your subdomain is ready:" +:+ nl +:+ full_domain)])).
Proof.
  intros Hdom Hzid Hfree Hfl.
  unfold create_subdomain. rewrite Htext. run. fold user_id subdomain.
  rewrite Hdom. simpl. rewrite Hfree, Hzid. simpl.
  unfold insert_subdomain.
  unfold select_subdomain in Hfree.
  destruct (faults w) as [|[msg|] fl] eqn:Efl; [| discriminate |]; simpl;
    rewrite Hfree; simpl; rewrite <- app_assoc, ?Efl; reflexivity.
Qed.

End Claim.

(** C5: a claim attempt for a pair that already has a row, whoever owns it,
    is answered "already taken"; no call on the provider is made (the trace
    grows by the answer alone, the provider and the pending faults are
    untouched) and the registry, open transaction and file alike, is
    unchanged. *)
Theorem create_subdomain_taken (message : Message) (w : world)
    (text dom : string) (r : subdomain_row) :
  m_text message = Some text →
  fsm_data (session_of (m_from_user message) w) !! "domain" = Some dom →
  r ∈ subdomains (live w) →
  s_subdomain r = py_lower (py_strip text) →
  s_domain r = dom →
  let w' := (create_subdomain message w).2 in
  (create_subdomain message w).1 = Ok () ∧
  out w' = out w ++ [Answer (m_from_user message) "❌ This subdomain is already taken!"] ∧
  (∀ call, Cf call ∉ drop (length (out w)) (out w')) ∧
  cf w' = cf w ∧ faults w' = faults w ∧
  live w' = live w ∧ durable w' = durable w.
Proof.
  intros Htext Hdom Hin Hs Hd.
  rewrite (create_subdomain_taken_run message text Htext w dom r Hdom Hin Hs Hd). simpl.
  repeat split; try reflexivity.
  intros call. rewrite drop_app_length. intros Hc.
  apply list_elem_of_singleton in Hc. discriminate.
Qed.

Lemma create_subdomain_taken_witness :
  let w' := (create_subdomain (Msg 7 (Some " Blog ")) world0).2 in
  out w' = [Answer 7 "❌ This subdomain is already taken!"] ∧ live w' = db0.
Proof.
  destruct (create_subdomain_taken (Msg 7 (Some " Blog ")) world0 " Blog " "example.com"
              (SubdomainRow "blog" "example.com" 8))
    as (_ & Hout & _ & _ & _ & Hlive & _).
  - reflexivity.
  - reflexivity.
  - apply list_elem_of_here.
  - reflexivity.
  - reflexivity.
  - split; [exact Hout | exact Hlive].
Defined.

(** C4: when the record-creation call fails, whatever the error, the error
    text is sent to the user, and the registry is left as it was: no claim
    row, no log row, nothing committed. *)
Theorem create_subdomain_dns_error (message : Message) (w : world)
    (text dom zid msg : string) (fl : list (option string)) :
  m_text message = Some text →
  fsm_data (session_of (m_from_user message) w) !! "domain" = Some dom →
  fsm_data (session_of (m_from_user message) w) !! "zone_id" = Some zid →
  (∀ r, r ∈ subdomains (live w) →
        ¬ (s_subdomain r = py_lower (py_strip text) ∧ s_domain r = dom)) →
  faults w = Some msg :: fl →
  let w' := (create_subdomain message w).2 in
  (create_subdomain message w).1 = Ok () ∧
  Answer (m_from_user message) ("❌ Error: " +:+ msg) ∈ drop (length (out w)) (out w') ∧
  subdomains (live w') = subdomains (live w) ∧
  logs (live w') = logs (live w) ∧
  live w' = live w ∧ durable w' = durable w ∧
  records (cf w') = records (cf w).
Proof.
  intros Htext Hdom Hzid Hfree Hfl.
  apply select_subdomain_free in Hfree.
  rewrite (create_subdomain_refused_run message text Htext w dom zid msg fl
             Hdom Hzid Hfree Hfl).
  simpl. repeat split; try reflexivity.
  rewrite drop_app_length. apply list_elem_of_further, list_elem_of_here.
Qed.

Lemma create_subdomain_dns_error_witness :
  let w := with_faults [Some "zone locked"] world0 in
  let w' := (create_subdomain (Msg 7 (Some "shop")) w).2 in
  Answer 7 ("❌ Error: " +:+ "zone locked") ∈ out w' ∧ live w' = db0 ∧ durable w' = db0.
Proof.
  destruct (create_subdomain_dns_error (Msg 7 (Some "shop"))
              (with_faults [Some "zone locked"] world0)
              "shop" "example.com" "z1" "zone locked" [])
    as (_ & Hans & _ & _ & Hlive & Hdur & _).
  - reflexivity.
  - reflexivity.
  - reflexivity.
  - intros r Hr [Hs _]. apply list_elem_of_singleton in Hr. subst r. discriminate.
  - reflexivity.
  - split; [exact Hans | split; [exact Hlive | exact Hdur]].
Defined.

(** Where the handler does clear the session: the name is free, and the
    provider accepts or refuses the record. *)
Lemma create_subdomain_clears_when_free (message : Message) (w : world)
    (text dom zid : string) :
  m_text message = Some text →
  fsm_data (session_of (m_from_user message) w) !! "domain" = Some dom →
  fsm_data (session_of (m_from_user message) w) !! "zone_id" = Some zid →
  select_subdomain (py_lower (py_strip text)) dom (live w) = None →
  session_of (m_from_user message) (create_subdomain message w).2 = cleared.
Proof.
  intros Htext Hdom Hzid Hfree.
  destruct (faults w) as [|[msg|] fl] eqn:Efl.
  - rewrite (create_subdomain_created_run message text Htext w dom zid Hdom Hzid Hfree)
      by (rewrite Efl; reflexivity).
    unfold session_of. simpl. by rewrite lookup_insert_eq.
  - rewrite (create_subdomain_refused_run message text Htext w dom zid msg fl
               Hdom Hzid Hfree Efl).
    unfold session_of. simpl. by rewrite lookup_insert_eq.
  - rewrite (create_subdomain_created_run message text Htext w dom zid Hdom Hzid Hfree)
      by (rewrite Efl; reflexivity).
    unfold session_of. simpl. by rewrite lookup_insert_eq.
Qed.

(** C6, at the input where it fails: user 7 is asked for a name and enters
    one that user 8 holds.  The handler returns after the "already taken"
    answer, before [state.clear()]: the session still is in state
    [enter_subdomain] with the zone and the domain selected. *)
Theorem create_subdomain_taken_keeps_session :
  let w' := (create_subdomain (Msg 7 (Some "blog")) world0).2 in
  out w' = [Answer 7 "❌ This subdomain is already taken!"] ∧
  session_of 7 w' = naming ∧
  session_of 7 w' ≠ cleared.
Proof.
  pose proof (create_subdomain_taken_run (Msg 7 (Some "blog")) "blog" eq_refl world0
                "example.com" (SubdomainRow "blog" "example.com" 8)) as H.
  simpl in H. rewrite H.
  - simpl. split; [reflexivity|]. split; [reflexivity|]. discriminate.
  - reflexivity.
  - apply list_elem_of_here.
  - reflexivity.
  - reflexivity.
Qed.

(** ** auth_middleware *)

Lemma select_status_unknown (uid : Z) (d : db) :
  (∀ u, u ∈ users d → u_user_id u ≠ uid) → find (user_is uid) (users d) = None.
Proof.
  intros H. apply find_none_intro. intros u Hu.
  apply bool_decide_eq_false. auto.
Qed.

Lemma filter_user_unknown (uid : Z) (l : list user_row) :
  (∀ u, u ∈ l → u_user_id u ≠ uid) → filter (λ u, u_user_id u = uid) l = [].
Proof.
  intros H. induction l as [|a l IH]; [done|].
  rewrite filter_cons_False by (apply H; left).
  apply IH. intros u Hu. apply H. by right.
Qed.

(** *** Called with a message or a callback query *)

Lemma select_status_new (uid : Z) (d : db) subs lgs seq :
  select_status uid d = None →
  select_status uid (Db (users d ++ [UserRow uid "pending"]) subs lgs seq)
    = Some "pending".
Proof.
  unfold select_status. simpl. intros H. apply fmap_None in H.
  induction (users d) as [|a l IH]; simpl in *.
  - unfold user_is. simpl. by rewrite bool_decide_eq_true_2.
  - destruct (user_is uid a); [done | auto].
Qed.

Lemma auth_middleware_unknown_run {A} (ADMIN_IDS : list Z) (handler : event → M A)
    (ev : event) (w : world) (admin : Z) :
  ADMIN_IDS !! 0%nat = Some admin →
  select_status (from_user ev) (live w) = None →
  let d := Db (users (live w) ++ [UserRow (from_user ev) "pending"])
              (subdomains (live w)) (logs (live w)) (logs_seq (live w)) in
  auth_middleware ADMIN_IDS handler ev w =
    (Ok None,
     World d d (storage w) (cf w) (faults w) (clock w)
       (out w ++
          [SendMessage admin
             ("New user request:" +:+ nl +:+ "User ID: " +:+ py_str_int (from_user ev));
           answer_of ev
             "⏳ Your account is pending approval. Admins have been notified."])).
Proof.
  intros Hadmin Hst. pose proof Hst as Hfind.
  unfold select_status in Hfind. apply fmap_None in Hfind.
  unfold auth_middleware. run. rewrite Hst. unfold insert_user. simpl.
  rewrite Hfind. simpl. rewrite Hadmin. simpl. rewrite <- app_assoc. reflexivity.
Qed.

Lemma auth_middleware_refused_run {A} (ADMIN_IDS : list Z) (handler : event → M A)
    (ev : event) (w : world) (status : string) :
  select_status (from_user ev) (live w) = Some status →
  status ≠ "approved" →
  auth_middleware ADMIN_IDS handler ev w =
    (Ok None,
     World (live w) (durable w) (storage w) (cf w) (faults w) (clock w)
       (out w ++ [answer_of ev "🔒 Your account is not approved yet."])).
Proof.
  intros Hst Hne. unfold auth_middleware. run. rewrite Hst.
  by rewrite bool_decide_eq_true_2.
Qed.

Lemma auth_middleware_approved {A} (ADMIN_IDS : list Z) (handler : event → M A)
    (ev : event) (w : world) :
  select_status (from_user ev) (live w) = Some "approved" →
  auth_middleware ADMIN_IDS handler ev w =
    match handler ev w with
    | (Ok a, w') => (Ok (Some a), w')
    | (Raise e, w') => (Raise e, w')
    end.
Proof.
  intros Hst. unfold auth_middleware. run. rewrite Hst. simpl.
  destruct (handler ev w) as [[a|e] w']; reflexivity.
Qed.

Lemma process_approved (ADMIN_IDS : list Z) (c : call) (w : world) :
  select_status (from_user (call_event c)) (live w) = Some "approved" →
  (process ADMIN_IDS c w).2 = (dispatch ADMIN_IDS c w).2.
Proof.
  intros Hst. unfold process. rewrite auth_middleware_approved by done.
  by destruct (dispatch ADMIN_IDS c w) as [[a|e] w'].
Qed.

(** The body of the gate is right for the objects it is written for.
    Called with a message or a callback query: an unknown identity gets
    exactly one [users] row, with status pending, committed; the first admin
    is notified, the user is told to wait, and the handler is not run.  A
    known identity whose status is not approved is told so and the handler is
    not run.  For an approved identity the handler runs on the same object,
    and its outcome is the outcome of the gate. *)
Lemma auth_middleware_on_event {A} (ADMIN_IDS : list Z) (handler : event → M A)
    (ev : event) (w : world) (admin : Z) :
  ADMIN_IDS !! 0%nat = Some admin →
  let uid := from_user ev in
  let r := auth_middleware ADMIN_IDS handler ev w in
  ((∀ u, u ∈ users (live w) → u_user_id u ≠ uid) →
     let d := Db (users (live w) ++ [UserRow uid "pending"])
                 (subdomains (live w)) (logs (live w)) (logs_seq (live w)) in
     r = (Ok None,
          World d d (storage w) (cf w) (faults w) (clock w)
            (out w ++
               [SendMessage admin
                  ("New user request:" +:+ nl +:+ "User ID: " +:+ py_str_int uid);
                answer_of ev
                  "⏳ Your account is pending approval. Admins have been notified."])) ∧
     length (filter (λ u, u_user_id u = uid) (users (live r.2))) = 1%nat) ∧
  (∀ status, select_status uid (live w) = Some status → status ≠ "approved" →
     r = (Ok None,
          World (live w) (durable w) (storage w) (cf w) (faults w) (clock w)
            (out w ++ [answer_of ev "🔒 Your account is not approved yet."]))) ∧
  (select_status uid (live w) = Some "approved" →
     r = match handler ev w with
         | (Ok a, w') => (Ok (Some a), w')
         | (Raise e, w') => (Raise e, w')
         end).
Proof.
  intros Hadmin uid r. subst r uid. split; [|split].
  - intros Hnew. pose proof (select_status_unknown _ (live w) Hnew) as Hfind.
    rewrite (auth_middleware_unknown_run ADMIN_IDS handler ev w admin Hadmin)
      by (unfold select_status; by rewrite Hfind).
    split; [reflexivity|]. simpl.
    rewrite filter_app, (filter_user_unknown _ _ Hnew). simpl.
    rewrite filter_cons_True by reflexivity. reflexivity.
  - intros status Hst Hne.
    exact (auth_middleware_refused_run ADMIN_IDS handler ev w status Hst Hne).
  - apply auth_middleware_approved.
Qed.

(** *** Called with the update *)

(** C3, at the input where it fails: the gate as [main.py] registers it.
    [@dp.update.outer_middleware()] makes the dispatcher call it with the
    [Update]; the first line of its body, [event.from_user.id], raises
    AttributeError, whoever sent the update and whatever the handler.  No
    row is inserted, no admin is notified, nobody is answered, and the update
    of an approved user is not forwarded: in the example deployment, user 5
    (unknown) gets no row, user 9 (pending) gets no reply, and the [/start]
    of user 7 (approved) does not reach its handler. *)
Theorem auth_middleware_on_update {A} (ADMIN_IDS : list Z) (handler : Update → M A)
    (u : Update) (c : call) (w : world) :
  let e := AttributeError "'Update' object has no attribute 'from_user'" in
  let fed := λ uid, feed_update ADMINS (Upd 1 (OnMessage (Msg uid (Some "/start"))))
                      (CallStart (Msg uid (Some "/start"))) world0 in
  auth_middleware ADMIN_IDS handler u w = (Raise e, w) ∧
  feed_update ADMIN_IDS u c w = (Raise e, w) ∧
  (select_status 5 (live world0) = None ∧ fed 5 = (Raise e, world0)) ∧
  (select_status 9 (live world0) = Some "pending" ∧ fed 9 = (Raise e, world0)) ∧
  (select_status 7 (live world0) = Some "approved" ∧ fed 7 = (Raise e, world0) ∧
   (start (Msg 7 (Some "/start")) world0).2 ≠ world0).
Proof.
  repeat split; try reflexivity. discriminate.
Qed.

(** ** approve_user *)

Lemma approve_row_idemp (uid : Z) (r : user_row) :
  approve_row uid (approve_row uid r) = approve_row uid r.
Proof.
  unfold approve_row. destruct (user_is uid r) eqn:E; [|by rewrite E].
  unfold user_is in *. simpl. by rewrite E.
Qed.

Lemma approve_row_other (uid : Z) (l : list user_row) :
  (∀ u, u ∈ l → u_user_id u ≠ uid) → approve_row uid <$> l = l.
Proof.
  intros H. induction l as [|a l IH]; [done|]. simpl. f_equal.
  - unfold approve_row, user_is. rewrite bool_decide_eq_false_2; [done|].
    apply H. left.
  - apply IH. intros u Hu. apply H. by right.
Qed.

Lemma select_status_approved (uid : Z) (d : db) :
  select_status uid d ≠ None →
  select_status uid (update_approved uid d) = Some "approved".
Proof.
  unfold select_status, update_approved. simpl.
  induction (users d) as [|a l IH]; simpl; [done|].
  destruct (user_is uid a) eqn:E.
  - intros _. unfold approve_row. rewrite E.
    replace (user_is uid (UserRow (u_user_id a) "approved")) with true; done.
  - unfold approve_row at 1. rewrite E, E. exact IH.
Qed.

Lemma approve_user_run (ADMIN_IDS : list Z) (message : Message) (w : world)
    (text token : string) (uid : Z) :
  m_from_user message ∈ ADMIN_IDS →
  m_text message = Some text →
  py_split_ws text !! 1%nat = Some token →
  py_int token = Some uid →
  int64 uid →
  approve_user ADMIN_IDS message w =
    (Ok (),
     World (update_approved uid (live w)) (update_approved uid (live w))
       (storage w) (cf w) (faults w) (clock w)
       (out w ++ [Answer (m_from_user message)
                    ("✅ User " +:+ py_str_int uid +:+ " approved");
                  SendMessage uid "🎉 Your account has been approved!"])).
Proof.
  intros Hadm Htext Htok Hint Hrange. unfold approve_user.
  rewrite bool_decide_eq_true_2 by done. rewrite Htext. run.
  rewrite Htok. simpl. rewrite Hint. simpl.
  destruct (decide (int64 uid)) as [_|Hn]; [|done]. simpl.
  rewrite <- app_assoc. reflexivity.
Qed.

(** C7, as the code has it: for an admin and a well-formed user id,
    [/approve] sets the status of the existing row of that id to approved and
    commits; when the id has no row the table is left as it is, no row is
    created, though the same success messages are sent.  A second invocation
    succeeds as well and changes nothing: the table has as many rows as
    before the first one. *)
Theorem approve_user_updates (ADMIN_IDS : list Z) (message : Message) (w : world)
    (text token : string) (uid : Z) :
  m_from_user message ∈ ADMIN_IDS →
  m_text message = Some text →
  py_split_ws text !! 1%nat = Some token →
  py_int token = Some uid →
  int64 uid →
  let w1 := (approve_user ADMIN_IDS message w).2 in
  let w2 := (approve_user ADMIN_IDS message w1).2 in
  (approve_user ADMIN_IDS message w).1 = Ok () ∧
  (approve_user ADMIN_IDS message w1).1 = Ok () ∧
  users (live w1) = approve_row uid <$> users (live w) ∧
  (select_status uid (live w) ≠ None → select_status uid (live w1) = Some "approved") ∧
  ((∀ u, u ∈ users (live w) → u_user_id u ≠ uid) → users (live w1) = users (live w)) ∧
  durable w1 = live w1 ∧
  users (live w2) = users (live w1) ∧
  length (users (live w2)) = length (users (live w)) ∧
  Answer (m_from_user message) ("✅ User " +:+ py_str_int uid +:+ " approved")
    ∈ drop (length (out w)) (out w1).
Proof.
  intros Hadm Htext Htok Hint Hrange w1 w2. subst w2 w1.
  rewrite !(approve_user_run ADMIN_IDS message _ text token uid Hadm Htext Htok Hint Hrange).
  simpl. repeat split.
  - apply select_status_approved.
  - apply approve_row_other.
  - rewrite <- list_fmap_compose. apply list_fmap_ext.
    intros _ r _. apply approve_row_idemp.
  - by rewrite !length_fmap.
  - rewrite drop_app_length. apply list_elem_of_here.
Qed.

Lemma approve_user_updates_witness :
  let w1 := (approve_user ADMINS (Msg 1 (Some "/approve 9")) world0).2 in
  select_status 9 (live world0) = Some "pending" ∧
  select_status 9 (live w1) = Some "approved" ∧
  length (users (live (approve_user ADMINS (Msg 1 (Some "/approve 9")) w1).2)) = 4%nat.
Proof.
  destruct (approve_user_updates ADMINS (Msg 1 (Some "/approve 9")) world0
              "/approve 9" "9" 9)
    as (_ & _ & _ & Hst & _ & _ & _ & Hlen & _).
  - apply list_elem_of_here.
  - reflexivity.
  - reflexivity.
  - reflexivity.
  - unfold int64. lia.
  - split; [reflexivity|]. split; [apply Hst; discriminate | exact Hlen].
Defined.

(** C7 as stated fails: approving an identity that has no row (42 here)
    creates none.  The status of 42 is still undefined afterwards and the
    table has no row for it, although the admin is told "User 42 approved". *)
Lemma approve_user_creates_no_row :
  let r := approve_user ADMINS (Msg 1 (Some "/approve 42")) world0 in
  r.1 = Ok () ∧
  select_status 42 (live world0) = None ∧
  select_status 42 (live r.2) = None ∧
  filter (λ u, u_user_id u = 42) (users (live r.2)) = [] ∧
  users (live r.2) = users (live world0) ∧
  out r.2 = [Answer 1 ("✅ User " +:+ "42" +:+ " approved");
             SendMessage 42 "🎉 Your account has been approved!"].
Proof. vm_compute. repeat split; reflexivity. Qed.

(** ** Splitting on a separator *)

Lemma py_split_nonempty (sep : ascii) (s : string) : py_split sep s ≠ [].
Proof.
  destruct s as [|ch r]; simpl; [done|].
  destruct (Ascii.eqb ch sep); [done|]. by destruct (py_split sep r).
Qed.

Lemma py_split_free (sep : ascii) (s : string) :
  py_contains sep s = false → py_split sep s = [s].
Proof.
  induction s as [|ch r IH]; simpl; [done|].
  destruct (Ascii.eqb ch sep); simpl; [done|].
  intros H. by rewrite (IH H).
Qed.

(** No field of a split contains the separator. *)
Lemma py_split_fields (sep : ascii) (s f : string) :
  f ∈ py_split sep s → py_contains sep f = false.
Proof.
  revert f. induction s as [|ch r IH]; simpl; intros f Hf.
  - apply list_elem_of_singleton in Hf. by subst.
  - destruct (Ascii.eqb ch sep) eqn:E.
    + apply elem_of_cons in Hf as [->|Hf]; [done | by apply IH].
    + destruct (py_split sep r) as [|g gs] eqn:Er.
      * apply list_elem_of_singleton in Hf. subst. simpl. rewrite E. done.
      * apply elem_of_cons in Hf as [->|Hf].
        -- simpl. rewrite E. apply IH. left.
        -- apply IH. by right.
Qed.

(** A separator inside the string gives one field more. *)
Lemma py_split_app (sep : ascii) (s1 s2 : string) :
  py_split sep (s1 +:+ String sep s2) = py_split sep s1 ++ py_split sep s2.
Proof.
  induction s1 as [|ch r IH].
  - change ("" +:+ String sep s2) with (String sep s2). simpl.
    by rewrite Ascii.eqb_refl.
  - change (String ch r +:+ String sep s2) with (String ch (r +:+ String sep s2)).
    simpl. rewrite IH. destruct (Ascii.eqb ch sep); [done|].
    pose proof (py_split_nonempty sep r). by destruct (py_split sep r).
Qed.

Lemma py_split_two (sep : ascii) (s : string) :
  py_contains sep s = true → (2 ≤ length (py_split sep s))%nat.
Proof.
  induction s as [|ch r IH]; simpl; [done|].
  pose proof (py_split_nonempty sep r) as Hne.
  destruct (Ascii.eqb ch sep); simpl.
  - intros _. destruct (py_split sep r); [done | simpl; lia].
  - intros H. specialize (IH H). destruct (py_split sep r); simpl in *; lia.
Qed.

(** The callback data of the delete keyboard, split again. *)
Lemma delete_data_split (sub dom : string) :
  py_split "_" ("delete_" +:+ sub +:+ "_" +:+ dom)
  = "delete" :: py_split "_" sub ++ py_split "_" dom.
Proof.
  change ("delete_" +:+ sub +:+ "_" +:+ dom)
    with ("delete" +:+ String "_" (sub +:+ String "_" dom)).
  rewrite py_split_app, py_split_app. reflexivity.
Qed.

(** ** Postconditions of handlers *)

Definition wp {A} (m : M A) (Q : res A → world → Prop) (w : world) : Prop :=
  Q (m w).1 (m w).2.

Lemma wp_ret {A} (a : A) Q w : Q (Ok a) w → wp (mret a) Q w.
Proof. done. Qed.

Lemma wp_raise {A} (e : exn) (Q : res A → world → Prop) w :
  Q (Raise e) w → wp (raise e) Q w.
Proof. done. Qed.

Lemma wp_bind {A B} (m : M A) (f : A → M B) Q w :
  wp m (λ r w', match r with
                | Ok a => wp (f a) Q w'
                | Raise e => Q (Raise e) w'
                end) w →
  wp (m ≫= f) Q w.
Proof.
  unfold wp. rewrite run_bind. by destruct (m w) as [[a|e] w'].
Qed.

Lemma wp_try {A} (body : M A) (handler : exn → M A) Q w :
  wp body (λ r w', match r with
                   | Ok a => Q (Ok a) w'
                   | Raise e => wp (handler e) Q w'
                   end) w →
  wp (try_except body handler) Q w.
Proof.
  unfold wp, try_except. by destruct (body w) as [[a|e] w'].
Qed.

Lemma wp_get_world Q w : Q (Ok w) w → wp get_world Q w.
Proof. done. Qed.

Lemma wp_modify (g : world → world) Q w : Q (Ok ()) (g w) → wp (modify g) Q w.
Proof. done. Qed.

Arguments wp : simpl never.

(** The provider call, by the head of the fault schedule. *)
Lemma wp_cf_call_begin (call : cf_call) Q w :
  match faults w with
  | Some msg :: fl =>
      Q (Raise (ProviderError msg))
        (World (live w) (durable w) (storage w) (cf w) fl (clock w) (out w ++ [Cf call]))
  | _ =>
      Q (Ok ())
        (World (live w) (durable w) (storage w) (cf w) (tail (faults w)) (clock w)
           (out w ++ [Cf call]))
  end →
  wp (cf_call_begin call) Q w.
Proof.
  unfold wp, cf_call_begin. run.
  destruct (faults w) as [|[msg|] fl] eqn:E; simpl; rewrite ?E; done.
Qed.

(** ** Invariants of the [subdomains] table

    A property [I] of the table, as the connection sees it and as the file
    has it, that survives the three ways the handlers change it (an INSERT
    under the primary key, the DELETE of [confirm_delete], whose [sub] is a
    field of a split on the underscore, and a commit) and a restart, holds
    in every state the system reaches. *)

Section Invariant.

Variable ADMIN_IDS : list Z.
Variable I : list subdomain_row → list subdomain_row → Prop.

Hypothesis I_insert : ∀ l d sub dom uid,
  I l d → find (key_is sub dom) l = None → I (l ++ [SubdomainRow sub dom uid]) d.
Hypothesis I_delete : ∀ l d sub dom uid,
  I l d → py_contains "_" sub = false →
  I (filter (λ r, claim_is sub dom uid r = false) l) d.
Hypothesis I_commit : ∀ l d, I l d → I l l.
Hypothesis I_restart : ∀ l d, I l d → I d d.

Definition holds (w : world) : Prop :=
  I (subdomains (live w)) (subdomains (durable w)).

Definition preserves {A} (m : M A) : Prop := ∀ w, holds w → holds (m w).2.

Lemma preserves_ret {A} (a : A) : preserves (mret a).
Proof. intros w H. exact H. Qed.

Lemma preserves_raise {A} (e : exn) : preserves (@raise A e).
Proof. intros w H. exact H. Qed.

Lemma preserves_bind {A B} (m : M A) (f : A → M B) :
  preserves m → (∀ a, preserves (f a)) → preserves (m ≫= f).
Proof.
  intros Hm Hf w H. rewrite run_bind. specialize (Hm w H).
  destruct (m w) as [[a|e] w']; simpl in *; [by apply Hf | done].
Qed.

Lemma preserves_try {A} (body : M A) (handler : exn → M A) :
  preserves body → (∀ e, preserves (handler e)) → preserves (try_except body handler).
Proof.
  intros Hb Hh w H. unfold try_except. specialize (Hb w H).
  destruct (body w) as [[a|e] w']; simpl in *; [done | by apply Hh].
Qed.

Lemma preserves_of_option {A} (o : option A) (e : exn) : preserves (of_option o e).
Proof. destruct o; [apply preserves_ret | apply preserves_raise]. Qed.

(** What leaves both copies of the table alone. *)
Lemma preserves_frame (g : world → world) :
  (∀ w, subdomains (live (g w)) = subdomains (live w)) →
  (∀ w, subdomains (durable (g w)) = subdomains (durable w)) →
  preserves (modify g).
Proof. intros Hl Hd w H. unfold holds, modify. simpl. by rewrite Hl, Hd. Qed.

Lemma preserves_emit (o : output) : preserves (emit o).
Proof. by apply preserves_frame. Qed.

Lemma preserves_commit : preserves commit.
Proof. intros w H. unfold holds, commit, modify. simpl. by eapply I_commit. Qed.

Lemma preserves_log_activity (uid : Z) (action : string) :
  preserves (log_activity uid action).
Proof.
  apply preserves_bind; [|intros _; apply preserves_commit].
  by apply preserves_frame.
Qed.

Lemma preserves_select_status (uid : Z) : preserves (sql_select_status uid).
Proof. intros w H. exact H. Qed.

Lemma preserves_insert_user (uid : Z) : preserves (sql_insert_user uid).
Proof.
  intros w H. unfold sql_insert_user. run. unfold insert_user.
  destruct (find (user_is uid) (users (live w))); exact H.
Qed.

Lemma preserves_update_approved (uid : Z) : preserves (sql_update_approved uid).
Proof.
  unfold sql_update_approved.
  destruct (decide (int64 uid)); [by apply preserves_frame | apply preserves_raise].
Qed.

Lemma preserves_select_subdomain (sub dom : string) :
  preserves (sql_select_subdomain sub dom).
Proof. intros w H. exact H. Qed.

Lemma preserves_select_owned (uid : Z) : preserves (sql_select_owned uid).
Proof. intros w H. exact H. Qed.

Lemma preserves_insert_subdomain (sub dom : string) (uid : Z) :
  preserves (sql_insert_subdomain sub dom uid).
Proof.
  intros w H. unfold sql_insert_subdomain. run. unfold insert_subdomain.
  destruct (find (key_is sub dom) (subdomains (live w))) eqn:E; [exact H|].
  unfold holds. simpl. by apply I_insert.
Qed.

Lemma preserves_delete_claim (sub dom : string) (uid : Z) :
  py_contains "_" sub = false → preserves (sql_delete_claim sub dom uid).
Proof.
  intros Hsub w H. unfold sql_delete_claim. run. unfold holds. simpl.
  by apply I_delete.
Qed.

Lemma preserves_state_get_data (uid : Z) : preserves (state_get_data uid).
Proof. intros w H. exact H. Qed.

Lemma preserves_set_session (uid : Z) (s : session) : preserves (set_session uid s).
Proof. by apply preserves_frame. Qed.

Lemma preserves_state_set_state (uid : Z) st : preserves (state_set_state uid st).
Proof. intros w H. exact H. Qed.

Lemma preserves_state_update_data (uid : Z) kvs : preserves (state_update_data uid kvs).
Proof. intros w H. exact H. Qed.

Lemma preserves_cf_call_begin (call : cf_call) : preserves (cf_call_begin call).
Proof.
  intros w H. apply (wp_cf_call_begin call (λ _ w', holds w')).
  by destruct (faults w) as [|[msg|] fl].
Qed.

Lemma preserves_zones_get : preserves zones_get.
Proof.
  apply preserves_bind; [apply preserves_cf_call_begin|].
  intros _ w H. exact H.
Qed.

Lemma preserves_dns_records_post zid ty name content ttl :
  preserves (dns_records_post zid ty name content ttl).
Proof.
  apply preserves_bind; [apply preserves_cf_call_begin|].
  intros _. by apply preserves_frame.
Qed.

Lemma preserves_dns_records_get zid name : preserves (dns_records_get zid name).
Proof.
  apply preserves_bind; [apply preserves_cf_call_begin|].
  intros _ w H. exact H.
Qed.

Lemma preserves_dns_records_delete zid rid : preserves (dns_records_delete zid rid).
Proof.
  apply preserves_bind; [apply preserves_cf_call_begin|].
  intros _. by apply preserves_frame.
Qed.

Lemma preserves_unpack3 {B} (s : string) (f : string * string → M B) :
  (∀ sub dom, py_contains "_" sub = false → preserves (f (sub, dom))) →
  preserves (unpack3 (py_split "_" s) ≫= f).
Proof.
  intros Hf. pose proof (py_split_fields "_" s) as Hfields.
  destruct (py_split "_" s) as [|x [|sub [|dom [|y l]]]];
    try (intros w H; exact H).
  intros w H. apply (Hf sub dom); [|exact H].
  apply Hfields. apply list_elem_of_further, list_elem_of_here.
Qed.

Create HintDb preserve.

Hint Resolve preserves_ret preserves_raise preserves_of_option preserves_emit
  preserves_commit preserves_log_activity preserves_select_status
  preserves_insert_user preserves_update_approved preserves_select_subdomain
  preserves_select_owned preserves_insert_subdomain preserves_state_get_data
  preserves_set_session preserves_state_set_state preserves_state_update_data
  preserves_zones_get preserves_dns_records_post preserves_dns_records_get
  preserves_dns_records_delete : preserve.

Ltac preserve :=
  repeat first
    [ solve [auto with preserve]
    | apply preserves_bind; [|intros ?]
    | apply preserves_try; [|intros ?]
    | progress cbv zeta
    | match goal with
      | |- preserves (match ?x with _ => _ end) => destruct x
      end ].

Lemma preserves_start m : preserves (start m).
Proof. apply preserves_emit. Qed.

Lemma preserves_select_domain m : preserves (select_domain m).
Proof. unfold select_domain, cloudflare_zones_get. preserve. Qed.

Lemma preserves_enter_subdomain q : preserves (enter_subdomain q).
Proof. unfold enter_subdomain, py_next, dict_get. preserve. Qed.

Lemma preserves_create_subdomain m : preserves (create_subdomain m).
Proof. unfold create_subdomain, dict_get, state_clear. preserve. Qed.

Lemma preserves_delete_subdomain m : preserves (delete_subdomain m).
Proof. unfold delete_subdomain. preserve. Qed.

Lemma preserves_confirm_delete q : preserves (confirm_delete q).
Proof.
  unfold confirm_delete. apply preserves_unpack3. intros sub dom Hsub.
  apply preserves_bind; [by apply preserves_delete_claim|]. intros rowcount.
  unfold py_next. preserve.
Qed.

Lemma preserves_approve_user m : preserves (approve_user ADMIN_IDS m).
Proof. unfold approve_user. preserve. Qed.

Lemma preserves_dispatch c : preserves (dispatch ADMIN_IDS c).
Proof.
  destruct c; simpl;
    auto using preserves_start, preserves_select_domain, preserves_enter_subdomain,
      preserves_create_subdomain, preserves_delete_subdomain,
      preserves_confirm_delete, preserves_approve_user.
Qed.

Lemma preserves_from_user_id (ev : event) : preserves (from_user_id ev).
Proof. apply preserves_ret. Qed.

Lemma preserves_answer (ev : event) (text : string) : preserves (answer ev text).
Proof. apply preserves_emit. Qed.

Hint Resolve preserves_from_user_id preserves_answer : preserve.

Lemma preserves_auth_middleware {A} (handler : event → M A) (ev : event) :
  preserves (handler ev) → preserves (auth_middleware ADMIN_IDS handler ev).
Proof. intros Hh. unfold auth_middleware. preserve. Qed.

Lemma preserves_process c : preserves (process ADMIN_IDS c).
Proof. apply preserves_auth_middleware, preserves_dispatch. Qed.

Lemma preserves_feed_update u c : preserves (feed_update ADMIN_IDS u c).
Proof. intros w H. exact H. Qed.

Lemma holds_step (w w' : world) : step ADMIN_IDS w w' → holds w → holds w'.
Proof.
  intros Hstep H. destruct Hstep as [u c w|c w|p fl t w|w].
  - by apply preserves_feed_update.
  - by apply preserves_process.
  - exact H.
  - unfold holds, restart. simpl. by eapply I_restart.
Qed.

Lemma holds_reachable (w0 w : world) :
  holds w0 → reachable_from ADMIN_IDS w0 w → holds w.
Proof.
  intros H Hreach. induction Hreach as [|w0 w1 w Hstep _ IH]; [done|].
  apply IH. by eapply holds_step.
Qed.

End Invariant.

(** ** Uniqueness of claims *)

Lemma key_is_row_key (sub dom : string) (r : subdomain_row) :
  key_is sub dom r = true ↔ row_key r = (sub, dom).
Proof.
  rewrite key_is_spec. unfold row_key. split.
  - by intros [-> ->].
  - by intros [= -> ->].
Qed.

Lemma find_key_none (sub dom : string) (l : list subdomain_row) :
  find (key_is sub dom) l = None → (sub, dom) ∉ row_key <$> l.
Proof.
  intros Hfind Hin. apply list_elem_of_fmap in Hin as (r & Hkey & Hr).
  apply list_elem_of_In in Hr.
  pose proof (find_none _ _ Hfind r Hr) as Hf.
  assert (key_is sub dom r = true) by (by apply key_is_row_key).
  congruence.
Qed.

Lemma keys_unique_insert (sub dom : string) (uid : Z) (l : list subdomain_row) :
  keys_unique l → find (key_is sub dom) l = None →
  keys_unique (l ++ [SubdomainRow sub dom uid]).
Proof.
  intros Hl Hfind. unfold keys_unique. rewrite fmap_app. apply NoDup_app.
  split; [exact Hl|]. split.
  - intros k Hk Hk'. apply list_elem_of_singleton in Hk'. subst k.
    by apply (find_key_none sub dom l).
  - apply NoDup_singleton.
Qed.

Lemma keys_unique_filter (P : subdomain_row → Prop) `{!∀ r, Decision (P r)}
    (l : list subdomain_row) :
  keys_unique l → keys_unique (filter P l).
Proof.
  intros Hl. unfold keys_unique. eapply sublist_NoDup; [exact Hl|].
  apply fmap_sublist, sublist_filter.
Qed.

Lemma keys_unique_at_most_one (sub dom : string) (l : list subdomain_row) :
  keys_unique l → (length (filter (λ r, key_is sub dom r = true) l) ≤ 1)%nat.
Proof.
  unfold keys_unique. induction l as [|a l IH]; simpl; [lia|].
  intros Hnd. apply NoDup_cons in Hnd as [Ha Hl].
  destruct (key_is sub dom a) eqn:E.
  - rewrite filter_cons_True by done. simpl.
    assert (filter (λ r, key_is sub dom r = true) l = []) as ->; [|simpl; lia].
    apply find_none_filter, find_none_intro. intros r Hr.
    destruct (key_is sub dom r) eqn:Er; [|done]. destruct Ha.
    apply key_is_row_key in E, Er. apply list_elem_of_fmap. exists r.
    split; [congruence | done].
  - rewrite filter_cons_False by congruence. auto.
Qed.

(** C1: at most one claim per (subdomain, domain).  From any database that
    meets the primary key of the schema, every state the system reaches has
    at most one row for a pair, in the connection's view and in the
    database file; there the INSERT of a pair that has a row raises
    IntegrityError instead of adding one; and after any two claim attempts
    the table still has at most one row for a pair. *)
Theorem claim_key_unique (ADMIN_IDS : list Z) (w0 w : world) :
  keys_unique (subdomains (live w0)) →
  keys_unique (subdomains (durable w0)) →
  reachable_from ADMIN_IDS w0 w →
  (∀ sub dom,
     (length (filter (λ r, key_is sub dom r = true) (subdomains (live w))) ≤ 1)%nat ∧
     (length (filter (λ r, key_is sub dom r = true) (subdomains (durable w))) ≤ 1)%nat) ∧
  (∀ sub dom uid r, r ∈ subdomains (live w) → key_is sub dom r = true →
     ∃ msg, insert_subdomain sub dom uid (live w) = Raise (IntegrityError msg)) ∧
  (∀ m1 m2 sub dom,
     let w2 := (process ADMIN_IDS (CallName m2)
                  (process ADMIN_IDS (CallName m1) w).2).2 in
     (length (filter (λ r, key_is sub dom r = true) (subdomains (live w2))) ≤ 1)%nat).
Proof.
  intros Hl Hd Hreach.
  set (I := λ l d : list subdomain_row, keys_unique l ∧ keys_unique d).
  assert (∀ w1, reachable_from ADMIN_IDS w0 w1 →
                keys_unique (subdomains (live w1)) ∧
                keys_unique (subdomains (durable w1))) as Hinv.
  { intros w1 H1.
    refine (holds_reachable ADMIN_IDS I _ _ _ _ w0 w1 (conj Hl Hd) H1); unfold I.
    - intros l d sub dom uid [H H'] Hfind. split; [|done].
      by apply keys_unique_insert.
    - intros l d sub dom uid [H H'] _. split; [|done].
      by apply keys_unique_filter.
    - intros l d [H _]. by split.
    - intros l d [_ H]. by split. }
  split; [|split].
  - intros sub dom. destruct (Hinv w Hreach).
    split; by apply keys_unique_at_most_one.
  - intros sub dom uid r Hr Hkey. unfold insert_subdomain.
    destruct (find_elem_of (key_is sub dom) _ r Hr Hkey) as [r' ->]. eauto.
  - intros m1 m2 sub dom w2. apply keys_unique_at_most_one.
    apply Hinv. unfold reachable_from.
    eapply rtc_r; [eapply rtc_r; [exact Hreach|]|].
    + apply (step_update ADMIN_IDS (CallName m1)).
    + apply (step_update ADMIN_IDS (CallName m2)).
Qed.

Lemma claim_key_unique_witness :
  let w := (process ADMINS (CallName (Msg 7 (Some "shop"))) world0).2 in
  SubdomainRow "shop" "example.com" 7 ∈ subdomains (live w) ∧
  (length (filter (λ r, key_is "shop" "example.com" r = true)
             (subdomains (live w))) ≤ 1)%nat ∧
  (∃ msg, insert_subdomain "shop" "example.com" 8 (live w)
            = Raise (IntegrityError msg)).
Proof.
  assert (keys_unique (subdomains db0)) as H0 by apply NoDup_singleton.
  destruct (claim_key_unique ADMINS world0
              (process ADMINS (CallName (Msg 7 (Some "shop"))) world0).2 H0 H0)
    as (Hone & Hins & _).
  - apply rtc_once, (step_update ADMINS (CallName (Msg 7 (Some "shop")))).
  - assert (SubdomainRow "shop" "example.com" 7
              ∈ subdomains (live (process ADMINS (CallName (Msg 7 (Some "shop"))) world0).2))
      as Hin by (apply list_elem_of_further, list_elem_of_here).
    split; [exact Hin|]. split.
    + apply Hone.
    + apply (Hins "shop" "example.com" 8 _ Hin). reflexivity.
Defined.

(** ** confirm_delete *)

Ltac wp_all :=
  repeat (simpl; first
    [ apply wp_cf_call_begin
    | apply wp_bind | apply wp_try | apply wp_ret | apply wp_raise
    | apply wp_get_world | apply wp_modify
    | match goal with
      | |- wp (match ?x with _ => _ end) _ _ => destruct x eqn:?
      | |- match ?x with _ => _ end => destruct x eqn:?
      end ]).

(** The outcomes of the handler once the callback data has unpacked into
    three fields: nothing matched; or the row is deleted and a later step
    raised; or every step went through. *)
Lemma wp_confirm_delete (callback : CallbackQuery) (w : world) (x sub dom : string) :
  py_split "_" (q_data callback) = [x; sub; dom] →
  let uid := q_from_user callback in
  let d1 := (delete_claim sub dom uid (live w)).1 in
  let n := (delete_claim sub dom uid (live w)).2 in
  wp (confirm_delete callback)
     (λ r w',
        if bool_decide (n = 0%nat)
        then r = Ok () ∧
             w' = World d1 (durable w) (storage w) (cf w) (faults w) (clock w)
                    (out w ++ [CallbackAnswer uid "🚫 Subdomain not found!"])
        else match r with
             | Raise e =>
                 live w' = d1 ∧ durable w' = durable w ∧
                 records (cf w') = records (cf w)
             | Ok _ =>
                 live w' = insert_log uid ("Deleted " +:+ full_name sub dom) (clock w) d1 ∧
                 durable w' = live w' ∧
                 last (out w') =
                   Some (Answer uid ("🗑️ Successfully deleted: " +:+ full_name sub dom))
             end) w.
Proof.
  intros Hsplit uid d1 n. subst d1 n. unfold confirm_delete. rewrite Hsplit. simpl.
  apply wp_bind, wp_ret. fold uid. apply wp_bind.
  unfold sql_delete_claim. apply wp_bind, wp_get_world. simpl.
  apply wp_bind, wp_modify, wp_ret. simpl.
  destruct (bool_decide (_ = 0%nat)) eqn:En.
  - unfold emit. apply wp_modify. simpl. split; reflexivity.
  - unfold py_next, of_option.
    wp_all; try (repeat split; try reflexivity; apply last_snoc).
    all: repeat split; reflexivity.
Qed.

Lemma filter_claim_none (sub dom : string) (uid : Z) (l : list subdomain_row) :
  SubdomainRow sub dom uid ∉ l →
  filter (λ r, claim_is sub dom uid r = true) l = [] ∧
  filter (λ r, claim_is sub dom uid r = false) l = l.
Proof.
  induction l as [|a l IH]; [done|]. intros Hnot.
  apply not_elem_of_cons in Hnot as [Hne Hnot]. destruct (IH Hnot) as [IH1 IH2].
  assert (claim_is sub dom uid a = false) as E.
  { destruct (claim_is sub dom uid a) eqn:E; [|done].
    apply claim_is_spec in E. congruence. }
  rewrite filter_cons_False by congruence.
  rewrite filter_cons_True by done. by rewrite IH2.
Qed.

Lemma filter_claim_some (sub dom : string) (uid : Z) (l : list subdomain_row) :
  SubdomainRow sub dom uid ∈ l →
  filter (λ r, claim_is sub dom uid r = true) l ≠ [].
Proof.
  intros Hin Hnil.
  assert (SubdomainRow sub dom uid ∈ filter (λ r, claim_is sub dom uid r = true) l) as H.
  { apply list_elem_of_filter. split; [by apply claim_is_spec | done]. }
  rewrite Hnil in H. by apply elem_of_nil in H.
Qed.

Lemma filter_claim_rest (sub dom : string) (uid : Z) (l : list subdomain_row) r :
  r ∈ filter (λ r, claim_is sub dom uid r = false) l ↔
  (r ∈ l ∧ r ≠ SubdomainRow sub dom uid).
Proof.
  rewrite list_elem_of_filter. split.
  - intros [Hc Hr]. split; [done|]. intros ->.
    assert (claim_is sub dom uid (SubdomainRow sub dom uid) = true)
      by (by apply claim_is_spec). congruence.
  - intros [Hr Hne]. split; [|done].
    destruct (claim_is sub dom uid r) eqn:E; [|done].
    apply claim_is_spec in E. done.
Qed.

(** The DELETE is filtered by owner: whatever the callback data and
    whoever sends it, a row leaves the table only if the data unpacks to its
    subdomain and domain and the sender is its owner; a selection of a claim
    of someone else deletes nothing and is answered "not found"; the owner's
    selection removes the one matching row. *)
Lemma confirm_delete_owner_only (callback : CallbackQuery) (w : world)
    (x sub dom : string) :
  py_split "_" (q_data callback) = [x; sub; dom] →
  let uid := q_from_user callback in
  let w' := (confirm_delete callback w).2 in
  (∀ r, r ∈ subdomains (live w') ↔
        (r ∈ subdomains (live w) ∧ r ≠ SubdomainRow sub dom uid)) ∧
  (SubdomainRow sub dom uid ∉ subdomains (live w) →
     (confirm_delete callback w).1 = Ok () ∧
     subdomains (live w') = subdomains (live w) ∧
     out w' = out w ++ [CallbackAnswer uid "🚫 Subdomain not found!"]).
Proof.
  intros Hsplit uid w'. subst w'.
  pose proof (wp_confirm_delete callback w x sub dom Hsplit) as H.
  unfold wp in H. simpl in H. fold uid in H.
  set (res := confirm_delete callback w) in *.
  split.
  - intros r. rewrite <- filter_claim_rest.
    destruct (bool_decide _) in H.
    + destruct H as [_ ->]. done.
    + destruct (res.1); [destruct H as (-> & _)|destruct H as (-> & _)]; done.
  - intros Hnot. destruct (filter_claim_none sub dom uid _ Hnot) as [Hnil Hsame].
    rewrite Hnil in H. simpl in H. destruct H as [-> ->]. simpl.
    by rewrite Hsame.
Qed.

Lemma keys_unique_same_key (l : list subdomain_row) (r1 r2 : subdomain_row) :
  keys_unique l → r1 ∈ l → r2 ∈ l → row_key r1 = row_key r2 → r1 = r2.
Proof.
  unfold keys_unique. induction l as [|a l IH]; simpl; intros Hnd H1 H2 Hk.
  - by apply elem_of_nil in H1.
  - apply NoDup_cons in Hnd as [Ha Hl].
    apply elem_of_cons in H1 as [->|H1]; apply elem_of_cons in H2 as [->|H2]; auto.
    + destruct Ha. rewrite Hk. by apply list_elem_of_fmap_2.
    + destruct Ha. rewrite <- Hk. by apply list_elem_of_fmap_2.
Qed.

(** C9, as the code has it: the DELETE runs before the provider is called
    but is committed only after the provider calls.  When one of them
    raises, the connection already shows the name as free and the provider
    still has its records, but nothing has been committed: the database file
    still holds the claim, and a restart brings it back.  When no step
    raises, the commit makes the deletion durable. *)
Theorem confirm_delete_dns_failure (callback : CallbackQuery) (w : world)
    (x sub dom : string) :
  py_split "_" (q_data callback) = [x; sub; dom] →
  SubdomainRow sub dom (q_from_user callback) ∈ subdomains (live w) →
  keys_unique (subdomains (live w)) →
  let row := SubdomainRow sub dom (q_from_user callback) in
  let w' := (confirm_delete callback w).2 in
  (∀ e, (confirm_delete callback w).1 = Raise e →
     select_subdomain sub dom (live w') = None ∧
     (row ∉ subdomains (live w')) ∧
     records (cf w') = records (cf w) ∧
     durable w' = durable w ∧
     live (restart w') = durable w) ∧
  ((confirm_delete callback w).1 = Ok () →
     (row ∉ subdomains (live w')) ∧ durable w' = live w').
Proof.
  intros Hsplit Hrow Huniq row w'. subst w'.
  pose proof (wp_confirm_delete callback w x sub dom Hsplit) as H.
  pose proof (confirm_delete_owner_only callback w x sub dom Hsplit) as [Hrest _].
  unfold wp in H. simpl in H, Hrest.
  rewrite bool_decide_eq_false_2 in H.
  2:{ intros Hlen. apply nil_length_inv in Hlen.
      by apply (filter_claim_some sub dom (q_from_user callback)) in Hrow. }
  assert (row ∉ subdomains (live (confirm_delete callback w).2)) as Hgone.
  { intros Hin. apply Hrest in Hin as [_ Hne]. done. }
  split.
  - intros e He. rewrite He in H. destruct H as (Hlive & Hdur & Hrec).
    split; [|by repeat split].
    apply select_subdomain_free. intros r Hr [Hs Hd].
    apply Hrest in Hr as [Hr Hne]. apply Hne.
    apply (keys_unique_same_key _ r row Huniq Hr Hrow).
    unfold row_key. by rewrite Hs, Hd.
  - intros Hok. rewrite Hok in H. destruct H as (_ & Hdur & _). done.
Qed.

Lemma confirm_delete_dns_failure_witness :
  let w := with_faults [None; None; Some "provider timeout"] world0 in
  let w' := (confirm_delete (Callback 8 "delete_blog_example.com") w).2 in
  select_subdomain "blog" "example.com" (live w') = None ∧
  records (cf w') = records provider0 ∧
  durable w' = db0.
Proof.
  destruct (confirm_delete_dns_failure (Callback 8 "delete_blog_example.com")
              (with_faults [None; None; Some "provider timeout"] world0)
              "delete" "blog" "example.com") as [H _].
  - reflexivity.
  - apply list_elem_of_here.
  - apply NoDup_singleton.
  - destruct (H (ProviderError "provider timeout")) as (Hsel & _ & Hrec & Hdur & _).
    + reflexivity.
    + split; [exact Hsel | split; [exact Hrec | exact Hdur]].
Defined.

(** C9 as stated fails: user 8 releases [blog.example.com] and the
    provider's delete call fails.  The deletion has not taken durable
    effect: the database file still holds the claim, so after a restart the
    registry shows the name as taken again. *)
Lemma confirm_delete_not_durable :
  let w := with_faults [None; None; Some "provider timeout"] world0 in
  let r := confirm_delete (Callback 8 "delete_blog_example.com") w in
  r.1 = Raise (ProviderError "provider timeout") ∧
  subdomains (live r.2) = [] ∧
  subdomains (durable r.2) = [SubdomainRow "blog" "example.com" 8] ∧
  select_subdomain "blog" "example.com" (live (restart r.2))
    = Some (SubdomainRow "blog" "example.com" 8) ∧
  records (cf r.2) = [DnsRecord 1 "z1" "CNAME" "blog.example.com" TARGET TTL].
Proof. vm_compute. repeat split; reflexivity. Qed.

(** C8, at the input where it fails: user 7 owns [my_site.example.com].
    The keyboard of [/delete] offers it with the callback data
    [delete_my_site_example.com]; selecting it splits into four fields, the
    unpacking raises ValueError before the DELETE, and the owner's row stays. *)
Theorem confirm_delete_underscore_owner :
  let w1 := (delete_subdomain (Msg 7 (Some "/delete")) world1).2 in
  out w1 = [AnswerMarkup 7 "Select subdomain to delete:"
              [Button "my_site.example.com" "delete_my_site_example.com"]] ∧
  py_split "_" "delete_my_site_example.com" = ["delete"; "my"; "site"; "example.com"] ∧
  confirm_delete (Callback 7 "delete_my_site_example.com") w1
    = (Raise (ValueError "too many values to unpack (expected 3)"), w1) ∧
  SubdomainRow "my_site" "example.com" 7 ∈ subdomains (live w1).
Proof.
  repeat split; try reflexivity.
  apply list_elem_of_further, list_elem_of_here.
Qed.

(** ** Claims whose subdomain contains an underscore *)

Lemma delete_subdomain_keyboard (uid : Z) (text : option string) (w : world)
    (sub dom : string) :
  SubdomainRow sub dom uid ∈ subdomains (live w) →
  ∃ keyboard,
    out (delete_subdomain (Msg uid text) w).2
      = out w ++ [AnswerMarkup uid "Select subdomain to delete:" keyboard] ∧
    Button (full_name sub dom) ("delete_" +:+ sub +:+ "_" +:+ dom) ∈ keyboard.
Proof.
  intros Hrow.
  assert ((sub, dom) ∈ select_owned uid (live w)) as Hsel.
  { unfold select_owned. apply list_elem_of_fmap.
    exists (SubdomainRow sub dom uid). split; [done|].
    apply list_elem_of_filter. split; [|done].
    unfold owned_by. simpl. by apply bool_decide_eq_true. }
  unfold delete_subdomain. run.
  destruct (select_owned uid (live w)) as [|sd subs] eqn:E.
  { by apply elem_of_nil in Hsel. }
  simpl. eexists. split; [reflexivity|].
  apply (list_elem_of_fmap_2
           (λ sd : string * string,
              Button (full_name sd.1 sd.2) ("delete_" +:+ sd.1 +:+ "_" +:+ sd.2))
           (sd :: subs) (sub, dom)) in Hsel.
  exact Hsel.
Qed.

Lemma confirm_delete_underscore (who : Z) (sub dom : string) (w : world) :
  py_contains "_" sub = true →
  confirm_delete (Callback who ("delete_" +:+ sub +:+ "_" +:+ dom)) w
    = (Raise (ValueError "too many values to unpack (expected 3)"), w).
Proof.
  intros Hsub. unfold confirm_delete. simpl q_data. rewrite delete_data_split.
  pose proof (py_split_two "_" sub Hsub) as Htwo.
  pose proof (py_split_nonempty "_" dom) as Hne.
  destruct (py_split "_" sub) as [|a [|b l]]; simpl in Htwo; try lia.
  destruct (py_split "_" dom) as [|d ds]; [done|].
  destruct l; reflexivity.
Qed.

(** C10: the name of a claim is not validated, and a claim with an
    underscore cannot be released.  Whatever text normalizes to a subdomain
    with an underscore is accepted when the pair is free and the provider
    takes the record: the row is inserted and committed.  From then on, in
    every state the system reaches, the row is still there; [/delete] offers
    it under the callback data [delete_{sub}_{domain}]; selecting that data
    raises ValueError, which no handler catches, and leaves the state
    untouched; and no callback data at all makes [confirm_delete] remove
    the row. *)
Theorem underscore_claim_never_released (ADMIN_IDS : list Z) (message : Message)
    (w : world) (text dom zid : string) :
  let uid := m_from_user message in
  let sub := py_lower (py_strip text) in
  let row := SubdomainRow sub dom uid in
  m_text message = Some text →
  py_contains "_" sub = true →
  fsm_data (session_of uid w) !! "domain" = Some dom →
  fsm_data (session_of uid w) !! "zone_id" = Some zid →
  (∀ r, r ∈ subdomains (live w) → ¬ (s_subdomain r = sub ∧ s_domain r = dom)) →
  hd None (faults w) = None →
  let w1 := (create_subdomain message w).2 in
  row ∈ subdomains (live w1) ∧ row ∈ subdomains (durable w1) ∧
  ∀ w2, reachable_from ADMIN_IDS w1 w2 →
    row ∈ subdomains (live w2) ∧ row ∈ subdomains (durable w2) ∧
    (∀ text, ∃ keyboard,
       out (delete_subdomain (Msg uid text) w2).2
         = out w2 ++ [AnswerMarkup uid "Select subdomain to delete:" keyboard] ∧
       Button (full_name sub dom) ("delete_" +:+ sub +:+ "_" +:+ dom) ∈ keyboard) ∧
    (∀ who, confirm_delete (Callback who ("delete_" +:+ sub +:+ "_" +:+ dom)) w2
              = (Raise (ValueError "too many values to unpack (expected 3)"), w2)) ∧
    (∀ callback, row ∈ subdomains (live (confirm_delete callback w2).2)).
Proof.
  intros uid sub row Htext Hsub Hdom Hzid Hfree Hfl w1.
  apply select_subdomain_free in Hfree.
  set (I := λ l d : list subdomain_row, row ∈ l ∧ row ∈ d).
  assert (∀ l d s' d' u', I l d → py_contains "_" s' = false →
            I (filter (λ r, claim_is s' d' u' r = false) l) d) as I_delete.
  { intros l d s' d' u' [Hl Hd] Hs'. split; [|done].
    apply filter_claim_rest. split; [done|]. intros [= Heq _ _]. congruence. }
  assert (∀ l d s' d' u', I l d → find (key_is s' d') l = None →
            I (l ++ [SubdomainRow s' d' u']) d) as I_insert.
  { intros l d s' d' u' [Hl Hd] _. split; [|done]. apply elem_of_app. by left. }
  assert (∀ l d, I l d → I l l) as I_commit by (by intros l d [? _]).
  assert (∀ l d, I l d → I d d) as I_restart by (by intros l d [_ ?]).
  assert (row ∈ subdomains (live w1) ∧ row ∈ subdomains (durable w1)) as H1.
  { subst w1.
    rewrite (create_subdomain_created_run message text Htext w dom zid Hdom Hzid Hfree Hfl).
    simpl. split; apply elem_of_app; right; apply list_elem_of_here. }
  split; [apply H1|]. split; [apply H1|].
  intros w2 Hreach.
  pose proof (holds_reachable ADMIN_IDS I I_insert I_delete I_commit I_restart
                w1 w2 H1 Hreach) as [H2 H2'].
  split; [exact H2|]. split; [exact H2'|]. split; [|split].
  - intros t. by apply delete_subdomain_keyboard.
  - intros who. by apply confirm_delete_underscore.
  - intros callback.
    apply (preserves_confirm_delete I I_delete I_commit callback w2). by split.
Qed.

Lemma underscore_claim_never_released_witness :
  let w1 := (create_subdomain (Msg 7 (Some " My_Site ")) world0).2 in
  SubdomainRow "my_site" "example.com" 7 ∈ subdomains (durable w1) ∧
  confirm_delete (Callback 7 "delete_my_site_example.com") w1
    = (Raise (ValueError "too many values to unpack (expected 3)"), w1).
Proof.
  destruct (underscore_claim_never_released ADMINS (Msg 7 (Some " My_Site ")) world0
              " My_Site " "example.com" "z1") as (_ & Hdur & Hall).
  - reflexivity.
  - reflexivity.
  - reflexivity.
  - reflexivity.
  - intros r Hr [Hs _]. apply list_elem_of_singleton in Hr. subst r. discriminate.
  - reflexivity.
  - split; [exact Hdur|].
    destruct (Hall _ (rtc_refl _ _)) as (_ & _ & _ & Hraise & _).
    apply (Hraise 7).
Defined.

(** ** The claim flow, end to end *)

Lemma calls_succeed_S (n : nat) (fl : list (option string)) :
  calls_succeed (S n) fl → hd None fl = None ∧ calls_succeed n (tail fl).
Proof.
  unfold calls_succeed. destruct fl as [|f fl]; simpl.
  - intros _. split; [done|]. by rewrite take_nil.
  - intros H. apply Forall_cons in H as [-> H]. done.
Qed.

(** [/new] raises at its first line, whoever sends it and whatever the
    state: no keyboard is sent and the conversation does not move. *)
Lemma select_domain_raises (message : Message) (w : world) :
  select_domain message w
    = (Raise (AttributeError "module 'cloudflare' has no attribute 'zones'"), w).
Proof. reflexivity. Qed.

Lemma domain_data_split (zid : string) :
  py_contains "_" zid = false →
  py_split "_" ("domain_" +:+ zid) !! 1%nat = Some zid.
Proof.
  intros H. change ("domain_" +:+ zid) with ("domain" +:+ String "_" zid).
  rewrite py_split_app, (py_split_free _ _ H). reflexivity.
Qed.

Lemma enter_subdomain_run (callback : CallbackQuery) (w : world) (zid dom : string) :
  hd None (faults w) = None →
  py_split "_" (q_data callback) !! 1%nat = Some zid →
  head (z_name <$> filter (λ z, z_id z = zid) (zones (cf w))) = Some dom →
  let uid := q_from_user callback in
  let w' := (enter_subdomain callback w).2 in
  (enter_subdomain callback w).1 = Ok () ∧
  session_of uid w' =
    Session (Some SubdomainForm.enter_subdomain)
            (<["domain" := dom]> (<["zone_id" := zid]> (fsm_data (session_of uid w)))) ∧
  live w' = live w ∧ durable w' = durable w ∧ cf w' = cf w ∧
  faults w' = tail (faults w) ∧ clock w' = clock w ∧
  out w' = out w ++ [Cf ZonesGet;
                     Answer uid "Enter your desired subdomain name (e.g., 'blog'):"].
Proof.
  intros Hfl Hsplit Hzone uid w'. subst w'. unfold enter_subdomain. fold uid. run.
  rewrite Hsplit. simpl.
  destruct (faults w) as [|[msg|] fl] eqn:E; [|discriminate|]; simpl;
    rewrite Hzone; simpl; unfold session_of; simpl;
    rewrite !lookup_insert_eq, <- !app_assoc, ?E; simpl; done.
Qed.

(** What the two handlers behind [/new] do when they are reached, for a
    zone whose identifier has no underscore.  With the provider answering
    its two calls, a zone [zid] named [dom] and a name that is free under
    [dom]: the keyboard built for the zones has the button of the zone; its
    selection leaves the conversation waiting for a name; the name entered
    makes one call on the provider, a CNAME record [sub.dom] to the fixed
    target with TTL 300, which the provider now holds; the row
    (sub, dom, user) is inserted and committed; the log gets
    "Created sub.dom"; and the last message to the user is the success text
    ending in [sub.dom]. *)
Lemma claim_flow_from_selection (uid : Z) (name_text : string) (w : world)
    (zid dom : string) :
  calls_succeed 2 (faults w) →
  py_contains "_" zid = false →
  head (z_name <$> filter (λ z, z_id z = zid) (zones (cf w))) = Some dom →
  let sub := py_lower (py_strip name_text) in
  (∀ r, r ∈ subdomains (live w) → ¬ (s_subdomain r = sub ∧ s_domain r = dom)) →
  let w2 := (enter_subdomain (Callback uid ("domain_" +:+ zid)) w).2 in
  let w3 := (create_subdomain (Msg uid (Some name_text)) w2).2 in
  let full_domain := full_name sub dom in
  Button dom ("domain_" +:+ zid) ∈ domain_keyboard (zones (cf w)) ∧
  fsm_state (session_of uid w2) = Some SubdomainForm.enter_subdomain ∧
  out w3 = out w2 ++
             [Cf (RecordsPost zid "CNAME" full_domain TARGET TTL);
              Answer uid ("✅ Success! Your subdomain is ready:" +:+ nl +:+ full_domain)] ∧
  records (cf w3) = records (cf w) ++
    [DnsRecord (next_record_id (cf w)) zid "CNAME" full_domain TARGET TTL] ∧
  subdomains (live w3) = subdomains (live w) ++ [SubdomainRow sub dom uid] ∧
  logs (live w3) = logs (live w) ++
    [LogRow (logs_seq (live w) + 1) uid ("Created " +:+ full_domain) (clock w)] ∧
  users (live w3) = users (live w) ∧
  durable w3 = live w3.
Proof.
  intros Hcalls Hzid Hzone sub Hfree w2 w3 full_domain.
  apply calls_succeed_S in Hcalls as [Hf1 Hcalls].
  apply calls_succeed_S in Hcalls as [Hf2 _].
  destruct (enter_subdomain_run (Callback uid ("domain_" +:+ zid)) w zid dom)
    as (_ & Hsess & Hlive & Hdur & Hcf & Hfl & Hclock & Hout);
    [done | by apply domain_data_split | done |].
  simpl in Hsess, Hlive, Hdur, Hcf, Hfl, Hclock, Hout.
  fold w2 in Hsess, Hlive, Hdur, Hcf, Hfl, Hclock, Hout.
  assert (w3 = (create_subdomain (Msg uid (Some name_text)) w2).2) as E3 by done.
  rewrite (create_subdomain_created_run (Msg uid (Some name_text)) name_text eq_refl
             w2 dom zid) in E3; simpl.
  2:{ rewrite Hsess. simpl. by rewrite lookup_insert_eq. }
  2:{ rewrite Hsess. simpl. rewrite lookup_insert_ne by done.
      by rewrite lookup_insert_eq. }
  2:{ rewrite Hlive. by apply select_subdomain_free. }
  2:{ by rewrite Hfl. }
  simpl in E3. fold sub full_domain in E3.
  split.
  { unfold domain_keyboard.
    assert (dom ∈ z_name <$> filter (λ z, z_id z = zid) (zones (cf w))) as Hin.
    { destruct (z_name <$> filter _ _) as [|d ds]; [done|].
      simpl in Hzone. injection Hzone as ->. left. }
    apply list_elem_of_fmap in Hin as (z & -> & Hz).
    apply list_elem_of_filter in Hz as [<- Hz].
    by apply (list_elem_of_fmap_2
                (λ domain, Button (z_name domain) ("domain_" +:+ z_id domain))). }
  split; [by rewrite Hsess|].
  rewrite E3. simpl. rewrite Hlive, Hcf, Hclock.
  repeat split; reflexivity.
Qed.

(** C2, at the input where it fails: approved user 7, a provider that lists
    the zones [z] (other.org) and [z_1] (example.com).  [/new] raises at its
    first line, the call of [zones.get()] on the imported module, and sends
    no keyboard: the flow does not start, here and for every message and
    state.  And the selection does not carry the zone through: the button of
    example.com has the data [domain_z_1], of which the handler reads the
    field [z]; the name [shop] then creates the record [shop.other.org] in
    zone [z] and the claim (shop, other.org, 7), not the record and the claim
    under example.com that the user selected. *)
Theorem claim_flow_fails :
  (∀ message w,
     select_domain message w
       = (Raise (AttributeError "module 'cloudflare' has no attribute 'zones'"), w)) ∧
  let w1 := (select_domain (Msg 7 (Some "/new")) world2).2 in
  let w2 := (enter_subdomain (Callback 7 "domain_z_1") w1).2 in
  let w3 := (create_subdomain (Msg 7 (Some "shop")) w2).2 in
  select_status 7 (live world2) = Some "approved" ∧
  w1 = world2 ∧
  Button "example.com" "domain_z_1" ∈ domain_keyboard (zones (cf world2)) ∧
  py_split "_" "domain_z_1" !! 1%nat = Some "z" ∧
  fsm_data (session_of 7 w2) !! "domain" = Some "other.org" ∧
  fsm_data (session_of 7 w2) !! "zone_id" = Some "z" ∧
  records (cf w3) = [DnsRecord 1 "z" "CNAME" "shop.other.org" TARGET TTL] ∧
  subdomains (live w3) = subdomains db0 ++ [SubdomainRow "shop" "other.org" 7] ∧
  last (out w3) = Some (Answer 7 ("✅ Success! Your subdomain is ready:" +:+ nl
                                 +:+ "shop.other.org")) ∧
  (SubdomainRow "shop" "example.com" 7 ∉ subdomains (live w3)).
Proof.
  split; [intros message w; apply select_domain_raises|].
  repeat split; try reflexivity.
  - apply list_elem_of_further, list_elem_of_here.
  - intros H.
    repeat (apply elem_of_cons in H as [H|H]; [discriminate|]).
    by apply elem_of_nil in H.
Qed.

(** * Further properties of the handlers *)

(** ** The configured admins *)

(** X1: whenever the module loads, [ADMIN_IDS] has a first element.  A
    split on the comma never gives an empty list and every field must be
    read as an integer, whatever literals [int] accepts: the list has as
    many entries as the variable has fields.  So [ADMIN_IDS[0]] at line 60
    does not raise: the gate, called with a message or a callback query of
    an unknown user, ends without exception and without running the
    handler. *)
Theorem load_admin_ids_first {A} (int : string → option Z) (env : option string)
    (ids : list Z) (handler : event → M A) (ev : event) (w : world) :
  load_ids int env = Some ids →
  (∃ s, env = Some s ∧ length ids = length (py_split "," s)) ∧
  is_Some (ids !! 0%nat) ∧
  ((∀ u, u ∈ users (live w) → u_user_id u ≠ from_user ev) →
     (auth_middleware ids handler ev w).1 = Ok None).
Proof.
  unfold load_ids. destruct env as [s|]; [|done]. intros Hload.
  pose proof (length_mapM _ _ _ Hload) as Hlen.
  pose proof (py_split_nonempty "," s) as Hne.
  assert (is_Some (ids !! 0%nat)) as [admin Hadmin].
  { apply lookup_lt_is_Some. rewrite <- Hlen.
    destruct (py_split "," s); [done | simpl; lia]. }
  split; [by exists s|]. split; [by exists admin|].
  intros Hnew. pose proof (select_status_unknown _ _ Hnew) as Hfind.
  rewrite (auth_middleware_unknown_run ids handler ev w admin Hadmin); [done|].
  unfold select_status. by rewrite Hfind.
Qed.

Lemma load_admin_ids_first_witness :
  load_admin_ids (Some "1, 42") = Some [1; 42] ∧
  (auth_middleware [1; 42] (λ _, start (Msg 5 (Some "hi")))
     (OnMessage (Msg 5 (Some "hi"))) world0).1 = Ok None.
Proof.
  split; [reflexivity|].
  destruct (load_admin_ids_first py_int (Some "1, 42") [1; 42]
              (λ _, start (Msg 5 (Some "hi"))) (OnMessage (Msg 5 (Some "hi")))
              world0 eq_refl)
    as (_ & _ & H).
  apply H. apply Forall_forall. repeat constructor; discriminate.
Defined.

(** ** Callback data, written and read back *)

Lemma py_split_one (sep : ascii) (s : string) :
  length (py_split sep s) = 1%nat ↔ py_contains sep s = false.
Proof.
  split.
  - intros Hlen. destruct (py_contains sep s) eqn:E; [|done].
    apply py_split_two in E. lia.
  - intros H. by rewrite py_split_free.
Qed.

(** X2: the selection of the delete keyboard reads back as the claim it was
    written for exactly when neither the subdomain nor the domain contains
    an underscore; in every other case the unpacking raises ValueError. *)
Theorem delete_data_round_trip (sub dom : string) (w : world) :
  let data := "delete_" +:+ sub +:+ "_" +:+ dom in
  (unpack3 (py_split "_" data) w = (Ok (sub, dom), w) ↔
     py_contains "_" sub = false ∧ py_contains "_" dom = false) ∧
  (py_contains "_" sub = true ∨ py_contains "_" dom = true →
     unpack3 (py_split "_" data) w
       = (Raise (ValueError "too many values to unpack (expected 3)"), w)).
Proof.
  intros data. subst data. rewrite delete_data_split.
  pose proof (py_split_one "_" sub) as Hs. pose proof (py_split_one "_" dom) as Hd.
  pose proof (py_split_nonempty "_" sub) as Hns.
  pose proof (py_split_nonempty "_" dom) as Hnd.
  assert (py_contains "_" sub = true ∨ py_contains "_" dom = true →
          unpack3 ("delete" :: py_split "_" sub ++ py_split "_" dom) w
            = (Raise (ValueError "too many values to unpack (expected 3)"), w)) as Hbad.
  { intros Hor.
    destruct (py_split "_" sub) as [|a [|b l]] eqn:Es; [done| |].
    - destruct Hor as [Hc|Hc].
      + assert (py_contains "_" sub = false) by (by apply Hs). congruence.
      + apply py_split_two in Hc.
        destruct (py_split "_" dom) as [|c [|d l]]; simpl in Hc; try lia.
        reflexivity.
    - destruct (py_split "_" dom) as [|c l']; [done|]. by destruct l. }
  split; [|exact Hbad]. split.
  - intros Hok.
    destruct (py_contains "_" sub) eqn:Ec; [rewrite Hbad in Hok by auto; done|].
    destruct (py_contains "_" dom) eqn:Ec'; [rewrite Hbad in Hok by auto; done|].
    done.
  - intros [H1 H2]. by rewrite (py_split_free _ _ H1), (py_split_free _ _ H2).
Qed.

Lemma delete_data_round_trip_witness :
  unpack3 (py_split "_" "delete_my_site_example.com") world0
    = (Raise (ValueError "too many values to unpack (expected 3)"), world0).
Proof.
  destruct (delete_data_round_trip "my_site" "example.com" world0) as [_ H].
  apply H. left. reflexivity.
Defined.

(** X3: the zone identifier read back from the data of the domain keyboard
    ([split('_')[1]]) is the identifier written exactly when it contains no
    underscore; the read never fails, and what it returns never contains an
    underscore. *)
Theorem domain_data_round_trip (zid : string) :
  (py_split "_" ("domain_" +:+ zid) !! 1%nat = Some zid ↔ py_contains "_" zid = false) ∧
  (∃ z, py_split "_" ("domain_" +:+ zid) !! 1%nat = Some z ∧ py_contains "_" z = false).
Proof.
  change ("domain_" +:+ zid) with ("domain" +:+ String "_" zid).
  rewrite py_split_app. change (py_split "_" "domain") with ["domain"]. simpl.
  pose proof (py_split_nonempty "_" zid) as Hne.
  pose proof (py_split_fields "_" zid) as Hf.
  destruct (py_split "_" zid) as [|z l] eqn:E; [done|]. simpl.
  assert (py_contains "_" z = false) as Hz by (apply Hf; left).
  split; [|by exists z]. split.
  - intros [= ->]. exact Hz.
  - intros H. rewrite (py_split_free _ _ H) in E. by injection E as ->.
Qed.

(** ** Invariants of the whole state

    A property [P] of the world that does not depend on the trace, the
    provider, the fault schedule or the clock, and that survives each
    statement the handlers run on the database, a commit, a restart and
    the storing of a session that, when it waits for a name, has its zone
    and domain, holds in every state the system reaches. *)

Section Stable.

Variable ADMIN_IDS : list Z.
Variable P : world → Prop.

Hypothesis P_env : ∀ w p fl t o,
  P w → P (World (live w) (durable w) (storage w) p fl t o).
Hypothesis P_session : ∀ w uid s,
  P w → session_ok s → P (with_storage (<[uid := s]> (storage w)) w).
Hypothesis P_insert_user : ∀ w uid,
  P w → find (user_is uid) (users (live w)) = None →
  P (with_live (Db (users (live w) ++ [UserRow uid "pending"])
                   (subdomains (live w)) (logs (live w)) (logs_seq (live w))) w).
Hypothesis P_update_approved : ∀ w uid,
  P w → P (with_live (update_approved uid (live w)) w).
Hypothesis P_insert_subdomain : ∀ w sub dom uid,
  P w → find (key_is sub dom) (subdomains (live w)) = None →
  P (with_live (Db (users (live w)) (subdomains (live w) ++ [SubdomainRow sub dom uid])
                   (logs (live w)) (logs_seq (live w))) w).
Hypothesis P_delete_claim : ∀ w sub dom uid,
  P w → P (with_live (delete_claim sub dom uid (live w)).1 w).
Hypothesis P_insert_log : ∀ w uid activity,
  P w → P (with_live (insert_log uid activity (clock w) (live w)) w).
Hypothesis P_commit : ∀ w, P w → P (with_durable (live w) w).
Hypothesis P_restart : ∀ w, P w → P (restart w).

Definition stable {A} (m : M A) : Prop := ∀ w, P w → P (m w).2.

Lemma stable_ret {A} (a : A) : stable (mret a).
Proof. intros w H. exact H. Qed.

Lemma stable_raise {A} (e : exn) : stable (@raise A e).
Proof. intros w H. exact H. Qed.

Lemma stable_bind {A B} (m : M A) (f : A → M B) :
  stable m → (∀ a, stable (f a)) → stable (m ≫= f).
Proof.
  intros Hm Hf w H. rewrite run_bind. specialize (Hm w H).
  destruct (m w) as [[a|e] w']; simpl in *; [by apply Hf | done].
Qed.

Lemma stable_try {A} (body : M A) (handler : exn → M A) :
  stable body → (∀ e, stable (handler e)) → stable (try_except body handler).
Proof.
  intros Hb Hh w H. unfold try_except. specialize (Hb w H).
  destruct (body w) as [[a|e] w']; simpl in *; [done | by apply Hh].
Qed.

Lemma stable_of_option {A} (o : option A) (e : exn) : stable (of_option o e).
Proof. destruct o; [apply stable_ret | apply stable_raise]. Qed.

Lemma stable_emit (o : output) : stable (emit o).
Proof. intros w H. by apply (P_env w). Qed.

Lemma stable_commit : stable commit.
Proof. intros w H. by apply P_commit. Qed.

Lemma stable_sql_insert_log (uid : Z) (activity : string) :
  stable (sql_insert_log uid activity).
Proof. intros w H. by apply P_insert_log. Qed.

Lemma stable_log_activity (uid : Z) (action : string) : stable (log_activity uid action).
Proof.
  apply stable_bind; [apply stable_sql_insert_log | intros _; apply stable_commit].
Qed.

Lemma stable_select_status (uid : Z) : stable (sql_select_status uid).
Proof. intros w H. exact H. Qed.

Lemma stable_insert_user (uid : Z) : stable (sql_insert_user uid).
Proof.
  intros w H. unfold sql_insert_user. run. unfold insert_user.
  destruct (find (user_is uid) (users (live w))) eqn:E; [exact H|].
  by apply (P_insert_user w uid).
Qed.

Lemma stable_update_approved (uid : Z) : stable (sql_update_approved uid).
Proof.
  unfold sql_update_approved.
  destruct (decide (int64 uid)); [|apply stable_raise].
  intros w H. by apply P_update_approved.
Qed.

Lemma stable_select_subdomain (sub dom : string) : stable (sql_select_subdomain sub dom).
Proof. intros w H. exact H. Qed.

Lemma stable_select_owned (uid : Z) : stable (sql_select_owned uid).
Proof. intros w H. exact H. Qed.

Lemma stable_insert_subdomain (sub dom : string) (uid : Z) :
  stable (sql_insert_subdomain sub dom uid).
Proof.
  intros w H. unfold sql_insert_subdomain. run. unfold insert_subdomain.
  destruct (find (key_is sub dom) (subdomains (live w))) eqn:E; [exact H|].
  by apply (P_insert_subdomain w sub dom uid).
Qed.

Lemma stable_delete_claim (sub dom : string) (uid : Z) :
  stable (sql_delete_claim sub dom uid).
Proof. intros w H. by apply (P_delete_claim w sub dom uid). Qed.

Lemma stable_state_get_data (uid : Z) : stable (state_get_data uid).
Proof. intros w H. exact H. Qed.

Lemma stable_set_session (uid : Z) (s : session) :
  session_ok s → stable (set_session uid s).
Proof. intros Hs w H. by apply P_session. Qed.

Lemma stable_state_clear (uid : Z) : stable (state_clear uid).
Proof. by apply stable_set_session. Qed.

Lemma stable_set_state_select (uid : Z) :
  stable (state_set_state uid SubdomainForm.select_domain).
Proof. intros w H. by apply P_session. Qed.

Lemma stable_set_state_confirm (uid : Z) :
  stable (state_set_state uid SubdomainForm.confirm_delete).
Proof. intros w H. by apply P_session. Qed.

(** The two writes of [enter_subdomain]: the data first, then the state. *)
Lemma stable_enter_writes (uid : Z) (zone_id domain text : string) :
  stable (state_update_data uid [("zone_id", zone_id); ("domain", domain)];;
          emit (Answer uid text);;
          state_set_state uid SubdomainForm.enter_subdomain).
Proof.
  intros w H. run.
  set (s1 := Session (fsm_state (session_of uid w))
               (<["domain" := domain]> (<["zone_id" := zone_id]>
                  (fsm_data (session_of uid w))))).
  assert (is_Some (fsm_data s1 !! "domain") ∧ is_Some (fsm_data s1 !! "zone_id"))
    as Hkeys.
  { simpl. split; [by rewrite lookup_insert_eq|].
    rewrite lookup_insert_ne by done. by rewrite lookup_insert_eq. }
  pose proof (P_session w uid s1 H (λ _, Hkeys)) as H1.
  pose proof (P_env _ (cf w) (faults w) (clock w) (out w ++ [Answer uid text]) H1) as H2.
  unfold session_of. simpl. rewrite lookup_insert_eq. simpl.
  exact (P_session _ uid (Session (Some SubdomainForm.enter_subdomain) (fsm_data s1))
           H2 (λ _, Hkeys)).
Qed.


Lemma stable_cf_call_begin (call : cf_call) : stable (cf_call_begin call).
Proof.
  intros w H. apply (wp_cf_call_begin call (λ _ w', P w')).
  destruct (faults w) as [|[msg|] fl]; by apply (P_env w).
Qed.

Lemma stable_zones_get : stable zones_get.
Proof.
  apply stable_bind; [apply stable_cf_call_begin|]. intros _ w H. exact H.
Qed.

Lemma stable_dns_records_post zid ty name content ttl :
  stable (dns_records_post zid ty name content ttl).
Proof.
  apply stable_bind; [apply stable_cf_call_begin|].
  intros _ w H. by apply (P_env w).
Qed.

Lemma stable_dns_records_get zid name : stable (dns_records_get zid name).
Proof.
  apply stable_bind; [apply stable_cf_call_begin|]. intros _ w H. exact H.
Qed.

Lemma stable_dns_records_delete zid rid : stable (dns_records_delete zid rid).
Proof.
  apply stable_bind; [apply stable_cf_call_begin|].
  intros _ w H. by apply (P_env w).
Qed.

Lemma stable_unpack3 (fields : list string) : stable (unpack3 fields).
Proof.
  destruct fields as [|x [|sub [|dom [|y l]]]]; intros w H; exact H.
Qed.

Create HintDb stable.

Hint Resolve stable_ret stable_raise stable_of_option stable_emit stable_commit
  stable_log_activity stable_select_status stable_insert_user stable_update_approved
  stable_select_subdomain stable_select_owned stable_insert_subdomain
  stable_delete_claim stable_state_get_data stable_state_clear
  stable_set_state_select stable_set_state_confirm stable_zones_get
  stable_dns_records_post stable_dns_records_get stable_dns_records_delete
  stable_unpack3 : stable.

Ltac stabilize :=
  repeat first
    [ solve [auto with stable]
    | apply stable_bind; [|intros ?]
    | apply stable_try; [|intros ?]
    | progress cbv zeta
    | match goal with
      | |- stable (match ?x with _ => _ end) => destruct x
      end ].

Lemma stable_enter_subdomain q : stable (enter_subdomain q).
Proof.
  unfold enter_subdomain, py_next.
  apply stable_bind; [auto with stable|]. intros zone_id.
  apply stable_bind; [auto with stable|]. intros zs.
  apply stable_bind; [auto with stable|]. intros domain.
  apply stable_enter_writes.
Qed.

Lemma stable_start m : stable (start m).
Proof. apply stable_emit. Qed.

Lemma stable_select_domain m : stable (select_domain m).
Proof. unfold select_domain, cloudflare_zones_get. stabilize. Qed.

Lemma stable_create_subdomain m : stable (create_subdomain m).
Proof. unfold create_subdomain, dict_get. stabilize. Qed.

Lemma stable_delete_subdomain m : stable (delete_subdomain m).
Proof. unfold delete_subdomain. stabilize. Qed.

Lemma stable_confirm_delete q : stable (confirm_delete q).
Proof. unfold confirm_delete, py_next. stabilize. Qed.

Lemma stable_approve_user m : stable (approve_user ADMIN_IDS m).
Proof. unfold approve_user. stabilize. Qed.

Lemma stable_dispatch c : stable (dispatch ADMIN_IDS c).
Proof.
  destruct c; simpl;
    auto using stable_start, stable_select_domain, stable_enter_subdomain,
      stable_create_subdomain, stable_delete_subdomain, stable_confirm_delete,
      stable_approve_user.
Qed.

Lemma stable_from_user_id (ev : event) : stable (from_user_id ev).
Proof. apply stable_ret. Qed.

Lemma stable_answer (ev : event) (text : string) : stable (answer ev text).
Proof. apply stable_emit. Qed.

Hint Resolve stable_from_user_id stable_answer : stable.

Lemma stable_process c : stable (process ADMIN_IDS c).
Proof.
  pose proof (stable_dispatch c) as Hd.
  unfold process, auth_middleware. stabilize.
Qed.

Lemma stable_feed_update u c : stable (feed_update ADMIN_IDS u c).
Proof. intros w H. exact H. Qed.

Lemma stable_step (w w' : world) : step ADMIN_IDS w w' → P w → P w'.
Proof.
  intros Hstep H. destruct Hstep as [u c w|c w|p fl t w|w].
  - by apply stable_feed_update.
  - by apply stable_process.
  - by apply (P_env w).
  - by apply P_restart.
Qed.

Lemma stable_reachable (w0 w : world) :
  P w0 → reachable_from ADMIN_IDS w0 w → P w.
Proof.
  intros H Hreach. induction Hreach as [|w0 w1 w Hstep _ IH]; [done|].
  apply IH. by eapply stable_step.
Qed.

End Stable.

(** ** The users table *)

Lemma find_app_some {A} (f : A → bool) (l k : list A) (y : A) :
  find f l = Some y → find f (l ++ k) = Some y.
Proof.
  induction l as [|a l IH]; simpl; [done|]. destruct (f a); auto.
Qed.

Lemma find_user_id (uid : Z) (l : list user_row) (u : user_row) :
  find (user_is uid) l = Some u → u ∈ l ∧ u_user_id u = uid.
Proof.
  intros H. apply find_some in H as [Hin Hu]. split.
  - by apply list_elem_of_In.
  - by apply bool_decide_eq_true in Hu.
Qed.

Lemma approve_row_id (uid : Z) (u : user_row) :
  u_user_id (approve_row uid u) = u_user_id u.
Proof. unfold approve_row. by destruct (user_is uid u). Qed.

Lemma select_status_update (uid uid' : Z) (d : db) :
  select_status uid (update_approved uid' d)
  = if bool_decide (uid = uid')
    then (λ _, "approved") <$> select_status uid d
    else select_status uid d.
Proof.
  unfold select_status, update_approved. simpl.
  induction (users d) as [|a l IH]; simpl; [by destruct (bool_decide _)|].
  assert (user_is uid (approve_row uid' a) = user_is uid a) as ->
    by (unfold user_is; by rewrite approve_row_id).
  destruct (user_is uid a) eqn:E; [|exact IH].
  unfold approve_row, user_is in *. apply bool_decide_eq_true in E.
  destruct (bool_decide (uid = uid')) eqn:E'.
  - apply bool_decide_eq_true in E'. subst uid'.
    by rewrite bool_decide_eq_true_2.
  - apply bool_decide_eq_false in E'. rewrite bool_decide_eq_false_2; [done|].
    congruence.
Qed.

Lemma select_status_insert (uid uid' : Z) (d : db) (s : string) subs lgs seq :
  select_status uid d = Some s →
  select_status uid (Db (users d ++ [UserRow uid' "pending"]) subs lgs seq) = Some s.
Proof.
  unfold select_status. simpl. intros H.
  destruct (find (user_is uid) (users d)) as [u|] eqn:E; [|done].
  by rewrite (find_app_some _ _ _ _ E).
Qed.

(** X4: the users table has at most one row per user id, in the
    connection's view and in the file, in every state the system reaches from
    a database that meets the primary key. *)
Theorem user_row_unique (ADMIN_IDS : list Z) (w0 w : world) :
  user_ids_unique (live w0) →
  user_ids_unique (durable w0) →
  reachable_from ADMIN_IDS w0 w →
  user_ids_unique (live w) ∧ user_ids_unique (durable w) ∧
  ∀ uid, (length (filter (λ u, u_user_id u = uid) (users (live w))) ≤ 1)%nat.
Proof.
  intros Hl Hd Hreach.
  assert (user_ids_unique (live w) ∧ user_ids_unique (durable w)) as [Hl' Hd'].
  { refine (stable_reachable ADMIN_IDS
              (λ w, user_ids_unique (live w) ∧ user_ids_unique (durable w))
              _ _ _ _ _ _ _ _ _ w0 w (conj Hl Hd) Hreach);
      unfold user_ids_unique; simpl; try done.
    - intros w1 uid [H1 H2] Hfind. split; [|done].
      rewrite fmap_app. apply NoDup_app. split; [done|]. split; [|apply NoDup_singleton].
      intros k Hk Hk'. apply list_elem_of_singleton in Hk'. simpl in Hk'. subst k.
      apply list_elem_of_fmap in Hk as (u & Hu & Hin).
      apply list_elem_of_In in Hin.
      pose proof (find_none _ _ Hfind u Hin) as Hf.
      apply bool_decide_eq_false in Hf. congruence.
    - intros w1 uid [H1 H2]. split; [|done].
      rewrite <- list_fmap_compose.
      erewrite list_fmap_ext; [exact H1|]. intros _ u _. apply approve_row_id.
    - by intros w1 [H1 _].
    - by intros w1 [_ H2]. }
  split; [done|]. split; [done|]. intros uid.
  unfold user_ids_unique in Hl'. clear -Hl'.
  induction (users (live w)) as [|a l IH]; simpl; [lia|].
  apply NoDup_cons in Hl' as [Ha Hl]. specialize (IH Hl).
  destruct (decide (u_user_id a = uid)) as [E|E].
  - rewrite filter_cons_True by done. simpl.
    rewrite filter_user_unknown; [simpl; lia|].
    intros u Hu Heq. apply Ha. apply list_elem_of_fmap. exists u. split; [congruence|done].
  - rewrite filter_cons_False by done. exact IH.
Qed.

Lemma user_row_unique_witness :
  let w := (process ADMINS (CallStart (Msg 5 (Some "/start")))
              (process ADMINS (CallStart (Msg 5 (Some "/start"))) world0).2).2 in
  (length (filter (λ u, u_user_id u = 5%Z) (users (live w))) ≤ 1)%nat.
Proof.
  assert (user_ids_unique db0) as H0.
  { unfold user_ids_unique. apply (bool_decide_unpack _). reflexivity. }
  destruct (user_row_unique ADMINS world0
              (process ADMINS (CallStart (Msg 5 (Some "/start")))
                 (process ADMINS (CallStart (Msg 5 (Some "/start"))) world0).2).2 H0 H0)
    as (_ & _ & H).
  - eapply rtc_l; [apply (step_update ADMINS (CallStart (Msg 5 (Some "/start"))))|].
    apply rtc_once, (step_update ADMINS (CallStart (Msg 5 (Some "/start")))).
  - apply H.
Defined.

(** X5: a users row is never deleted and an approval is never taken back.
    A user who has a row (in the connection's view and in the file) has one
    in every state reached later, and a user who is approved stays approved. *)
Theorem user_status_kept (ADMIN_IDS : list Z) (w0 w : world) (uid : Z) :
  reachable_from ADMIN_IDS w0 w →
  (is_Some (select_status uid (live w0)) → is_Some (select_status uid (durable w0)) →
     is_Some (select_status uid (live w)) ∧ is_Some (select_status uid (durable w))) ∧
  (select_status uid (live w0) = Some "approved" →
   select_status uid (durable w0) = Some "approved" →
     select_status uid (live w) = Some "approved" ∧
     select_status uid (durable w) = Some "approved").
Proof.
  intros Hreach. split.
  - intros Hl Hd.
    refine (stable_reachable ADMIN_IDS
              (λ w, is_Some (select_status uid (live w)) ∧
                    is_Some (select_status uid (durable w)))
              _ _ _ _ _ _ _ _ _ w0 w (conj Hl Hd) Hreach); simpl; try done.
    + intros w1 uid' [[s H1] H2] _. split; [|done].
      exists s. by apply select_status_insert.
    + intros w1 uid' [[s H1] H2]. split; [|done].
      rewrite select_status_update, H1. by destruct (bool_decide _).
    + by intros w1 [H1 _].
    + by intros w1 [_ H2].
  - intros Hl Hd.
    refine (stable_reachable ADMIN_IDS
              (λ w, select_status uid (live w) = Some "approved" ∧
                    select_status uid (durable w) = Some "approved")
              _ _ _ _ _ _ _ _ _ w0 w (conj Hl Hd) Hreach); simpl; try done.
    + intros w1 uid' [H1 H2] _. split; [|done]. by apply select_status_insert.
    + intros w1 uid' [H1 H2]. split; [|done].
      rewrite select_status_update, H1. by destruct (bool_decide _).
    + by intros w1 [H1 _].
    + by intros w1 [_ H2].
Qed.

Lemma user_status_kept_witness :
  select_status 7 (live (process ADMINS (CallApprove (Msg 1 (Some "/approve 7"))) world0).2)
    = Some "approved".
Proof.
  destruct (user_status_kept ADMINS world0
              (process ADMINS (CallApprove (Msg 1 (Some "/approve 7"))) world0).2 7)
    as [_ H].
  - apply rtc_once, (step_update ADMINS (CallApprove (Msg 1 (Some "/approve 7")))).
  - apply H; reflexivity.
Defined.

(** ** The activity log *)

(** X6: the activity log is append-only.  In every state the system
    reaches, the log in the database file starts with the log the file had
    before, entry for entry, and the connection's view starts with the
    file's: no entry is ever changed, reordered or removed. *)
Theorem activity_log_append_only (ADMIN_IDS : list Z) (w0 w : world) :
  logs (durable w0) `prefix_of` logs (live w0) →
  reachable_from ADMIN_IDS w0 w →
  logs (durable w0) `prefix_of` logs (durable w) ∧
  logs (durable w) `prefix_of` logs (live w).
Proof.
  intros H0 Hreach.
  refine (stable_reachable ADMIN_IDS
            (λ w, logs (durable w0) `prefix_of` logs (durable w) ∧
                  logs (durable w) `prefix_of` logs (live w))
            _ _ _ _ _ _ _ _ _ w0 w (conj (reflexivity _) H0) Hreach); simpl; try done.
  - intros w1 uid activity [H1 H2]. split; [done|].
    etrans; [exact H2|]. by apply prefix_app_r.
  - intros w1 [H1 H2]. split; [by etrans|done].
  - intros w1 [H1 H2]. split; [done|reflexivity].
Qed.

Lemma activity_log_append_only_witness :
  logs (durable world1)
    `prefix_of` logs (durable (process ADMINS (CallName (Msg 7 (Some "shop")))
                                 (with_storage (<[7 := naming]> ∅) world1)).2).
Proof.
  destruct (activity_log_append_only ADMINS
              (with_storage (<[7 := naming]> ∅) world1)
              (process ADMINS (CallName (Msg 7 (Some "shop")))
                 (with_storage (<[7 := naming]> ∅) world1)).2) as [H _].
  - reflexivity.
  - apply rtc_once, (step_update ADMINS (CallName (Msg 7 (Some "shop")))).
  - exact H.
Defined.

(** ** Sessions *)

Lemma create_subdomain_ready (message : Message) (w : world) (text : string) :
  m_text message = Some text →
  is_Some (fsm_data (session_of (m_from_user message) w) !! "domain") →
  is_Some (fsm_data (session_of (m_from_user message) w) !! "zone_id") →
  (create_subdomain message w).1 = Ok ().
Proof.
  intros Htext [dom Hdom] [zid Hzid].
  destruct (select_subdomain (py_lower (py_strip text)) dom (live w))
    as [r|] eqn:Esel.
  - unfold select_subdomain in Esel. pose proof Esel as Hfind.
    apply find_some in Esel as [Hin Hkey]. apply list_elem_of_In in Hin.
    apply key_is_spec in Hkey as [Hs Hd].
    by rewrite (create_subdomain_taken_run message text Htext w dom r Hdom Hin Hs Hd).
  - destruct (faults w) as [|[msg|] fl] eqn:Efl.
    + rewrite (create_subdomain_created_run message text Htext w dom zid Hdom Hzid Esel);
        [done|]. by rewrite Efl.
    + by rewrite (create_subdomain_refused_run message text Htext w dom zid msg fl
                    Hdom Hzid Esel Efl).
    + rewrite (create_subdomain_created_run message text Htext w dom zid Hdom Hzid Esel);
        [done|]. by rewrite Efl.
Qed.

(** X7: a conversation that waits for the subdomain name always has the
    zone and the domain in its data.  So in every state the system reaches,
    the handler of that state, [create_subdomain], finds both keys and ends
    without exception, whatever text it is given and whatever the provider
    does. *)
Theorem session_ready (ADMIN_IDS : list Z) (w0 w : world) :
  (∀ uid, session_ok (session_of uid w0)) →
  reachable_from ADMIN_IDS w0 w →
  (∀ uid, session_ok (session_of uid w)) ∧
  (∀ uid text,
     fsm_state (session_of uid w) = Some SubdomainForm.enter_subdomain →
     (create_subdomain (Msg uid (Some text)) w).1 = Ok ()).
Proof.
  intros H0 Hreach.
  assert (∀ uid, session_ok (session_of uid w)) as Hw.
  { refine (stable_reachable ADMIN_IDS (λ w, ∀ uid, session_ok (session_of uid w))
              _ _ _ _ _ _ _ _ _ w0 w H0 Hreach); simpl; try done.
    - intros w1 uid s H Hs uid'. unfold session_of. simpl.
      destruct (decide (uid = uid')) as [->|Hne].
      + by rewrite lookup_insert_eq.
      + rewrite lookup_insert_ne by done. apply H. }
  split; [exact Hw|]. intros uid text Hst.
  destruct (Hw uid Hst) as [Hdom Hzid].
  by apply (create_subdomain_ready _ _ text).
Qed.

Lemma session_ready_witness :
  let w := (process ADMINS (CallDomain (Callback 8 "domain_z1")) world0).2 in
  fsm_state (session_of 8 w) = Some SubdomainForm.enter_subdomain ∧
  (create_subdomain (Msg 8 (Some "shop")) w).1 = Ok ().
Proof.
  split; [reflexivity|].
  destruct (session_ready ADMINS world0
              (process ADMINS (CallDomain (Callback 8 "domain_z1")) world0).2)
    as [_ H].
  - intros uid Hst. unfold session_of, world0 in *. simpl in *.
    destruct (decide (uid = 7)) as [->|Hne].
    + rewrite lookup_insert_eq. simpl. split; eexists; reflexivity.
    + rewrite lookup_insert_ne, lookup_empty in Hst by done. discriminate.
  - apply rtc_once, (step_update ADMINS (CallDomain (Callback 8 "domain_z1"))).
  - by apply H.
Defined.

(** ** Who gets past the gate *)

(** What an update of a sender who is not approved does, whatever handler it
    was meant for: at most the sender's pending row is added and committed,
    and only chat messages are sent. *)
Lemma process_blocked (ADMIN_IDS : list Z) (c : call) (w : world) :
  select_status (from_user (call_event c)) (live w) ≠ Some "approved" →
  ∃ o, (∀ call, Cf call ∉ o) ∧
    ((process ADMIN_IDS c w).2
       = World (live w) (durable w) (storage w) (cf w) (faults w) (clock w) (out w ++ o) ∨
     (select_status (from_user (call_event c)) (live w) = None ∧
      let d := Db (users (live w) ++ [UserRow (from_user (call_event c)) "pending"])
                  (subdomains (live w)) (logs (live w)) (logs_seq (live w)) in
      (process ADMIN_IDS c w).2
        = World d d (storage w) (cf w) (faults w) (clock w) (out w ++ o))).
Proof.
  intros Hst.
  destruct (select_status (from_user (call_event c)) (live w)) as [s|] eqn:E.
  - exists [answer_of (call_event c) "🔒 Your account is not approved yet."].
    split.
    + intros call Hc. apply list_elem_of_singleton in Hc.
      by destruct (call_event c).
    + left. unfold process.
      by rewrite (auth_middleware_refused_run ADMIN_IDS _ _ _ s E) by congruence.
  - pose proof E as Efind. unfold select_status in Efind. apply fmap_None in Efind.
    destruct (ADMIN_IDS !! 0%nat) as [admin|] eqn:Ea.
    + exists [SendMessage admin
                ("New user request:" +:+ nl +:+ "User ID: "
                 +:+ py_str_int (from_user (call_event c)));
              answer_of (call_event c)
                "⏳ Your account is pending approval. Admins have been notified."].
      split.
      * intros call Hc. apply elem_of_cons in Hc as [Hc|Hc]; [discriminate|].
        apply list_elem_of_singleton in Hc. by destruct (call_event c).
      * right. split; [done|]. unfold process.
        by rewrite (auth_middleware_unknown_run ADMIN_IDS _ _ _ admin Ea E).
    + exists []. split.
      * intros call Hc. by apply elem_of_nil in Hc.
      * right. split; [done|]. unfold process, auth_middleware. run. rewrite E.
        unfold insert_user. simpl. rewrite Efind. simpl. rewrite Ea. simpl.
        rewrite app_nil_r. reflexivity.
Qed.

Lemma select_status_elem (uid : Z) (d : db) (s : string) :
  select_status uid d = Some s → ∃ u, u ∈ users d ∧ u_user_id u = uid ∧ u_status u = s.
Proof.
  unfold select_status. intros H. apply fmap_Some in H as (u & Hfind & ->).
  apply find_user_id in Hfind as [Hin Hid]. eauto.
Qed.

(** X8: the approval gate cannot be opened from inside.  [/approve] is a
    handler behind the gate, so from a database in which no user is approved
    (a fresh one in particular) no sequence of updates, by admins or anyone,
    ever approves a user; no handler ever runs: the provider is never called
    and no claim row is ever added. *)
Theorem nobody_approved_forever (ADMIN_IDS : list Z) (w0 w : world) :
  (∀ u, u ∈ users (live w0) → u_status u ≠ "approved") →
  (∀ u, u ∈ users (durable w0) → u_status u ≠ "approved") →
  reachable_from ADMIN_IDS w0 w →
  (∀ u, u ∈ users (live w) → u_status u ≠ "approved") ∧
  (∀ u, u ∈ users (durable w) → u_status u ≠ "approved") ∧
  (∀ call, Cf call ∈ out w → Cf call ∈ out w0) ∧
  (∀ r, r ∈ subdomains (live w) →
        r ∈ subdomains (live w0) ∨ r ∈ subdomains (durable w0)) ∧
  (∀ r, r ∈ subdomains (durable w) →
        r ∈ subdomains (live w0) ∨ r ∈ subdomains (durable w0)).
Proof.
  intros Hl Hd Hreach.
  revert w Hreach. unfold reachable_from. apply rtc_ind_r.
  { repeat split; auto. }
  intros w1 w Hreach Hstep IH.
  destruct IH as (Il & Id & Icf & Isl & Isd).
  destruct Hstep as [u c w1|c w1|p fl t w1|w1]; simpl.
  - repeat split; auto.
  - destruct (process_blocked ADMIN_IDS c w1) as (o & Ho & [->|[Hnone ->]]); simpl.
    + intros Happ. apply select_status_elem in Happ as (u & Hu & _ & Hs).
      by apply (Il u).
    + repeat split; auto.
      intros call Hc. apply elem_of_app in Hc as [Hc|Hc]; [auto | by apply Ho in Hc].
    + assert (∀ u, u ∈ users (live w1) ++ [UserRow (from_user (call_event c)) "pending"]
                   → u_status u ≠ "approved") as Hnew.
      { intros u Hu. apply elem_of_app in Hu as [Hu|Hu]; [auto|].
        apply list_elem_of_singleton in Hu. by subst u. }
      repeat split; auto.
      intros call Hc. apply elem_of_app in Hc as [Hc|Hc]; [auto | by apply Ho in Hc].
  - repeat split; auto.
  - repeat split; auto.
Qed.

Lemma nobody_approved_forever_witness :
  let fresh := World (Db [] [] [] 0) (Db [] [] [] 0) ∅ provider0 [] 0 [] in
  let w1 := (process ADMINS (CallStart (Msg 1 (Some "/start"))) fresh).2 in
  let w2 := (process ADMINS (CallApprove (Msg 1 (Some "/approve 1"))) w1).2 in
  select_status 1 (live w2) = Some "pending" ∧
  ∀ u, u ∈ users (live w2) → u_status u ≠ "approved".
Proof.
  split; [reflexivity|].
  destruct (nobody_approved_forever ADMINS
              (World (Db [] [] [] 0) (Db [] [] [] 0) ∅ provider0 [] 0 [])
              (process ADMINS (CallApprove (Msg 1 (Some "/approve 1")))
                 (process ADMINS (CallStart (Msg 1 (Some "/start")))
                    (World (Db [] [] [] 0) (Db [] [] [] 0) ∅ provider0 [] 0 [])).2).2)
    as (H & _).
  - intros u Hu. by apply elem_of_nil in Hu.
  - intros u Hu. by apply elem_of_nil in Hu.
  - eapply rtc_l; [apply (step_update ADMINS (CallStart (Msg 1 (Some "/start"))))|].
    apply rtc_once, (step_update ADMINS (CallApprove (Msg 1 (Some "/approve 1")))).
  - exact H.
Defined.

(** ** Who changes a status *)

(** Every handler but [approve_user] leaves the users table as it is. *)
Lemma dispatch_users_frame (ADMIN_IDS : list Z) (c : call) (w : world) :
  (∀ m, c ≠ CallApprove m) →
  users (live (dispatch ADMIN_IDS c w).2) = users (live w).
Proof.
  intros Hc.
  set (P := λ w' : world, users (live w') = users (live w)).
  assert (∀ w1 p fl t o, P w1 → P (World (live w1) (durable w1) (storage w1) p fl t o))
    as P_env by done.
  assert (∀ w1 uid s, P w1 → session_ok s →
            P (with_storage (<[uid := s]> (storage w1)) w1)) as P_session by done.
  assert (∀ w1 sub dom uid, P w1 →
            find (key_is sub dom) (subdomains (live w1)) = None →
            P (with_live (Db (users (live w1))
                            (subdomains (live w1) ++ [SubdomainRow sub dom uid])
                            (logs (live w1)) (logs_seq (live w1))) w1))
    as P_insert by done.
  assert (∀ w1 sub dom uid, P w1 → P (with_live (delete_claim sub dom uid (live w1)).1 w1))
    as P_delete by done.
  assert (∀ w1 uid activity, P w1 →
            P (with_live (insert_log uid activity (clock w1) (live w1)) w1))
    as P_log by done.
  assert (∀ w1, P w1 → P (with_durable (live w1) w1)) as P_commit by done.
  assert (P w) as Hw by done.
  destruct c as [m|m|q|m|m|q|m]; cbn [dispatch].
  - exact (stable_start P P_env m w Hw).
  - exact (stable_select_domain P P_env P_session m w Hw).
  - exact (stable_enter_subdomain P P_env P_session q w Hw).
  - exact (stable_create_subdomain P P_env P_session P_insert P_log P_commit m w Hw).
  - exact (stable_delete_subdomain P P_env P_session m w Hw).
  - exact (stable_confirm_delete P P_env P_delete P_log P_commit q w Hw).
  - by destruct (Hc m).
Qed.

Lemma approve_user_not_admin (ADMIN_IDS : list Z) (message : Message) (w : world) :
  m_from_user message ∉ ADMIN_IDS → approve_user ADMIN_IDS message w = (Ok (), w).
Proof.
  intros H. unfold approve_user. by rewrite bool_decide_eq_false_2.
Qed.

(** X9: only [/approve] sent by a configured admin changes a status.  For
    every other update (any other command or selection, and [/approve] from
    someone who is not in [ADMIN_IDS], which is ignored without an answer)
    every user who has a status keeps exactly that status. *)
Theorem status_changed_only_by_admin (ADMIN_IDS : list Z) (c : call) (w : world)
    (uid : Z) (s : string) :
  (∀ m, c = CallApprove m → m_from_user m ∉ ADMIN_IDS) →
  select_status uid (live w) = Some s →
  select_status uid (live (process ADMIN_IDS c w).2) = Some s.
Proof.
  intros Hc Hs.
  assert (users (live (dispatch ADMIN_IDS c w).2) = users (live w)) as Hframe.
  { destruct c as [m|m|q|m|m|q|m];
      try (by apply dispatch_users_frame).
    simpl. by rewrite approve_user_not_admin by eauto. }
  destruct (decide (select_status (from_user (call_event c)) (live w) = Some "approved"))
    as [Happ|Hnot].
  - rewrite process_approved by done. unfold select_status in *. by rewrite Hframe.
  - destruct (process_blocked ADMIN_IDS c w Hnot) as (o & _ & [->|[_ ->]]); simpl.
    + done.
    + by apply select_status_insert.
Qed.

Lemma status_changed_only_by_admin_witness :
  select_status 9 (live (process ADMINS (CallApprove (Msg 7 (Some "/approve 9"))) world0).2)
    = Some "pending".
Proof.
  apply (status_changed_only_by_admin ADMINS (CallApprove (Msg 7 (Some "/approve 9"))) world0 9).
  - intros m [= <-]. simpl. intros H. apply list_elem_of_singleton in H. discriminate.
  - reflexivity.
Defined.

(** X10: [/approve] that cannot be read.  For an admin's message without
    text, or with an ASCII text (on which [py_split_ws] and [py_int] are
    [split()] and [int()]) whose second field is missing, is not an integer
    literal, or is an integer outside the range of an SQLite INTEGER, the
    answer is the usage text and nothing else changes: no status, nothing
    committed, no message to any user. *)
Theorem approve_user_malformed (ADMIN_IDS : list Z) (message : Message) (w : world) :
  m_from_user message ∈ ADMIN_IDS →
  (∀ text, m_text message = Some text →
     is_ascii text = true ∧
     ∀ n, py_split_ws text !! 1%nat ≫= py_int = Some n → ¬ int64 n) →
  approve_user ADMIN_IDS message w =
    (Ok (),
     World (live w) (durable w) (storage w) (cf w) (faults w) (clock w)
       (out w ++ [Answer (m_from_user message) "Invalid format. Use /approve USER_ID"])).
Proof.
  intros Hadm Hbad. unfold approve_user. rewrite bool_decide_eq_true_2 by done.
  destruct (m_text message) as [text|]; run; [|done].
  destruct (Hbad text eq_refl) as [_ Hn].
  destruct (py_split_ws text !! 1%nat) as [token|]; simpl; [|done].
  simpl in Hn. destruct (py_int token) as [n|]; simpl; [|done].
  destruct (decide (int64 n)) as [Hr|Hr]; [|done].
  by destruct (Hn n).
Qed.

Lemma approve_user_malformed_witness :
  (approve_user ADMINS (Msg 1 None) world0).2
    = with_out [Answer 1 "Invalid format. Use /approve USER_ID"] world0 ∧
  (approve_user ADMINS (Msg 1 (Some "/approve")) world0).2
    = with_out [Answer 1 "Invalid format. Use /approve USER_ID"] world0 ∧
  (approve_user ADMINS (Msg 1 (Some "/approve seven")) world0).2
    = with_out [Answer 1 "Invalid format. Use /approve USER_ID"] world0 ∧
  (approve_user ADMINS (Msg 1 (Some "/approve 9223372036854775808")) world0).2
    = with_out [Answer 1 "Invalid format. Use /approve USER_ID"] world0.
Proof.
  assert (1 ∈ ADMINS) as Hadm by apply list_elem_of_here.
  split; [|split; [|split]].
  - rewrite (approve_user_malformed ADMINS (Msg 1 None) world0 Hadm); [done|].
    intros text [=].
  - rewrite (approve_user_malformed ADMINS (Msg 1 (Some "/approve")) world0 Hadm); [done|].
    intros text [= <-]. split; [reflexivity|]. intros n [=].
  - rewrite (approve_user_malformed ADMINS (Msg 1 (Some "/approve seven")) world0 Hadm);
      [done|].
    intros text [= <-]. split; [reflexivity|]. intros n [=].
  - rewrite (approve_user_malformed ADMINS (Msg 1 (Some "/approve 9223372036854775808"))
               world0 Hadm); [done|].
    intros text [= <-]. split; [reflexivity|]. intros n [= <-]. unfold int64. lia.
Defined.

(** ** The gate and the approval, composed *)

(** X11: a user is registered once.  With the gate called with the message
    or the callback query itself: two calls in a row for an identity that
    had no row leave exactly one new row, pending.  The first call notifies
    the first admin and tells the user to wait, the second is answered "not
    approved" and notifies nobody; neither runs its handler, and claims,
    log, sessions and provider are as before. *)
Theorem unknown_user_registered_once {A B} (ADMIN_IDS : list Z)
    (h1 : event → M A) (h2 : event → M B) (ev1 ev2 : event) (w : world) (admin : Z) :
  ADMIN_IDS !! 0%nat = Some admin →
  from_user ev2 = from_user ev1 →
  select_status (from_user ev1) (live w) = None →
  let uid := from_user ev1 in
  let d := Db (users (live w) ++ [UserRow uid "pending"])
              (subdomains (live w)) (logs (live w)) (logs_seq (live w)) in
  let r1 := auth_middleware ADMIN_IDS h1 ev1 w in
  let r2 := auth_middleware ADMIN_IDS h2 ev2 r1.2 in
  r1.1 = Ok None ∧ r2.1 = Ok None ∧
  r2.2 =
    World d d (storage w) (cf w) (faults w) (clock w)
      (out w ++
         [SendMessage admin
            ("New user request:" +:+ nl +:+ "User ID: " +:+ py_str_int uid);
          answer_of ev1 "⏳ Your account is pending approval. Admins have been notified.";
          answer_of ev2 "🔒 Your account is not approved yet."]).
Proof.
  intros Hadmin Hsame Hnew uid d r1 r2. subst r2 r1.
  rewrite (auth_middleware_unknown_run ADMIN_IDS h1 ev1 w admin Hadmin Hnew).
  simpl. fold uid d.
  rewrite (auth_middleware_refused_run ADMIN_IDS h2 ev2 _ "pending").
  - simpl. by rewrite <- app_assoc.
  - simpl. rewrite Hsame. by apply select_status_new.
  - discriminate.
Qed.

Lemma unknown_user_registered_once_witness :
  let r1 := auth_middleware ADMINS (λ _, start (Msg 5 (Some "/start")))
              (OnMessage (Msg 5 (Some "/start"))) world0 in
  let r2 := auth_middleware ADMINS (λ _, confirm_delete (Callback 5 "delete_blog_example.com"))
              (OnCallback (Callback 5 "delete_blog_example.com")) r1.2 in
  users (live r2.2) = users db0 ++ [UserRow 5 "pending"] ∧
  subdomains (live r2.2) = subdomains db0 ∧
  last (out r2.2) = Some (CallbackAnswer 5 "🔒 Your account is not approved yet.").
Proof.
  destruct (unknown_user_registered_once ADMINS
              (λ _, start (Msg 5 (Some "/start")))
              (λ _, confirm_delete (Callback 5 "delete_blog_example.com"))
              (OnMessage (Msg 5 (Some "/start")))
              (OnCallback (Callback 5 "delete_blog_example.com")) world0 1)
    as (_ & _ & H); [reflexivity..|].
  cbv zeta. rewrite H. repeat split; reflexivity.
Defined.

(** X12: approval opens the gate.  With the gate called with the message
    or the callback query itself: when an approved admin sends
    [/approve <id>] for a user who has a row, that user is
    approved in the connection's view and in the file and is notified; from
    then on the gate passes whatever that user sends to its handler, and the
    outcome of the gate is the outcome of the handler. *)
Theorem approval_opens_gate {A} (ADMIN_IDS : list Z) (message : Message)
    (handler : event → M A) (ev : event) (w : world) (text token : string) (uid : Z) :
  m_from_user message ∈ ADMIN_IDS →
  select_status (m_from_user message) (live w) = Some "approved" →
  m_text message = Some text →
  py_split_ws text !! 1%nat = Some token →
  py_int token = Some uid →
  int64 uid →
  select_status uid (live w) ≠ None →
  from_user ev = uid →
  let w1 := (auth_middleware ADMIN_IDS (λ _, approve_user ADMIN_IDS message)
               (OnMessage message) w).2 in
  select_status uid (live w1) = Some "approved" ∧
  select_status uid (durable w1) = Some "approved" ∧
  last (out w1) = Some (SendMessage uid "🎉 Your account has been approved!") ∧
  auth_middleware ADMIN_IDS handler ev w1 =
    match handler ev w1 with
    | (Ok a, w') => (Ok (Some a), w')
    | (Raise e, w') => (Raise e, w')
    end.
Proof.
  intros Hadm Happ Htext Htok Hint Hrange Hknown Hev w1.
  assert (w1 = (approve_user ADMIN_IDS message w).2) as E.
  { subst w1. rewrite auth_middleware_approved by done.
    by destruct (approve_user ADMIN_IDS message w) as [[a|e] w']. }
  rewrite (approve_user_run ADMIN_IDS message w text token uid Hadm Htext Htok Hint Hrange)
    in E.
  simpl in E.
  assert (select_status uid (live w1) = Some "approved") as H1.
  { rewrite E. simpl. by apply select_status_approved. }
  split; [exact H1|]. split; [|split].
  - rewrite E. simpl. by apply select_status_approved.
  - rewrite E. simpl. by rewrite last_app.
  - apply auth_middleware_approved. by rewrite Hev.
Qed.

Lemma approval_opens_gate_witness :
  let w1 := (auth_middleware ADMINS (λ _, approve_user ADMINS (Msg 1 (Some "/approve 9")))
               (OnMessage (Msg 1 (Some "/approve 9"))) world0).2 in
  select_status 9 (live world0) = Some "pending" ∧
  auth_middleware ADMINS (λ _, delete_subdomain (Msg 9 (Some "/delete")))
    (OnMessage (Msg 9 (Some "/delete"))) w1
  = (Ok (Some ()),
     with_out (out w1 ++ [Answer 9 "ℹ️ You don't have any active subdomains"]) w1).
Proof.
  split; [reflexivity|].
  destruct (approval_opens_gate ADMINS (Msg 1 (Some "/approve 9"))
              (λ _, delete_subdomain (Msg 9 (Some "/delete")))
              (OnMessage (Msg 9 (Some "/delete")))
              world0 "/approve 9" "9" 9) as (_ & _ & _ & H).
  - apply list_elem_of_here.
  - reflexivity.
  - reflexivity.
  - reflexivity.
  - reflexivity.
  - unfold int64. lia.
  - discriminate.
  - reflexivity.
  - rewrite H. reflexivity.
Defined.

(** ** The delete keyboard *)

Lemma select_owned_spec (uid : Z) (d : db) (sub dom : string) :
  (sub, dom) ∈ select_owned uid d ↔ SubdomainRow sub dom uid ∈ subdomains d.
Proof.
  unfold select_owned. rewrite list_elem_of_fmap. split.
  - intros ([s' d' u'] & [= -> ->] & Hin). apply list_elem_of_filter in Hin as [Ho Hin].
    unfold owned_by in Ho. simpl in Ho. apply bool_decide_eq_true in Ho. by subst u'.
  - intros Hin. exists (SubdomainRow sub dom uid). split; [done|].
    apply list_elem_of_filter. split; [|done].
    unfold owned_by. simpl. by apply bool_decide_eq_true.
Qed.

(** X13: [/delete] offers the sender's claims and nothing else.  Without a
    claim of the sender the answer is the information text and the session is
    untouched; otherwise one keyboard is sent, every button of it belongs to
    a row of the sender, every row of the sender has its button, and the
    conversation moves to the confirmation state.  The database is never
    changed. *)
Theorem delete_subdomain_offers_own (message : Message) (w : world) :
  let uid := m_from_user message in
  let w' := (delete_subdomain message w).2 in
  (delete_subdomain message w).1 = Ok () ∧
  live w' = live w ∧ durable w' = durable w ∧ cf w' = cf w ∧
  ((∀ r, r ∈ subdomains (live w) → s_user_id r ≠ uid) →
     out w' = out w ++ [Answer uid "ℹ️ You don't have any active subdomains"] ∧
     storage w' = storage w) ∧
  ((∃ r, r ∈ subdomains (live w) ∧ s_user_id r = uid) →
     ∃ keyboard,
       out w' = out w ++ [AnswerMarkup uid "Select subdomain to delete:" keyboard] ∧
       fsm_state (session_of uid w') = Some SubdomainForm.confirm_delete ∧
       (∀ b, b ∈ keyboard →
          ∃ sub dom, SubdomainRow sub dom uid ∈ subdomains (live w) ∧
                     b = Button (full_name sub dom)
                           ("delete_" +:+ sub +:+ "_" +:+ dom)) ∧
       (∀ sub dom, SubdomainRow sub dom uid ∈ subdomains (live w) →
          Button (full_name sub dom) ("delete_" +:+ sub +:+ "_" +:+ dom) ∈ keyboard)).
Proof.
  intros uid w'. subst w'. unfold delete_subdomain. fold uid. run.
  pose proof (select_owned_spec uid (live w)) as Hspec.
  destruct (select_owned uid (live w)) as [|sd subs] eqn:E; simpl.
  - split; [done|]. split; [done|]. split; [done|]. split; [done|]. split; [done|].
    intros ([s d u] & Hin & Hu). simpl in Hu. subst u.
    apply Hspec in Hin. by apply elem_of_nil in Hin.
  - split; [done|]. split; [done|]. split; [done|]. split; [done|]. split.
    + intros Hnone. destruct sd as [s d].
      assert (SubdomainRow s d uid ∈ subdomains (live w)) as Hin by (apply Hspec; left).
      by destruct (Hnone _ Hin).
    + intros _. exists (delete_keyboard (sd :: subs)). split; [done|]. split.
      { unfold session_of. simpl. by rewrite lookup_insert_eq. }
      split.
      * intros b Hb. apply list_elem_of_fmap in Hb as ([s d] & -> & Hin).
        exists s, d. split; [by apply Hspec | done].
      * intros s d Hin. apply Hspec in Hin.
        by apply (list_elem_of_fmap_2
                    (λ sd : string * string,
                       Button (full_name sd.1 sd.2)
                         ("delete_" +:+ sd.1 +:+ "_" +:+ sd.2))) in Hin.
Qed.

(** ** The release flow *)

Lemma calls_succeed_3_cases (fl : list (option string)) :
  calls_succeed 3 fl →
  fl = [] ∨ fl = [None] ∨ fl = [None; None] ∨ ∃ fl', fl = None :: None :: None :: fl'.
Proof.
  unfold calls_succeed. intros H.
  destruct fl as [|f1 [|f2 [|f3 fl']]]; simpl in H; auto.
  - apply Forall_cons in H as [-> _]. auto.
  - apply Forall_cons in H as [-> H]. apply Forall_cons in H as [-> _]. auto.
  - apply Forall_cons in H as [-> H]. apply Forall_cons in H as [-> H].
    apply Forall_cons in H as [-> _]. eauto 6.
Qed.

Lemma confirm_delete_released_run (callback : CallbackQuery) (w : world)
    (x sub dom zid : string) :
  py_split "_" (q_data callback) = [x; sub; dom] →
  SubdomainRow sub dom (q_from_user callback) ∈ subdomains (live w) →
  calls_succeed 3 (faults w) →
  head (z_id <$> filter (λ z, z_name z = dom) (zones (cf w))) = Some zid →
  let uid := q_from_user callback in
  let name := full_name sub dom in
  let found := filter (λ r, record_matches zid name r = true) (records (cf w)) in
  let d := insert_log uid ("Deleted " +:+ name) (clock w)
             (delete_claim sub dom uid (live w)).1 in
  let w' := (confirm_delete callback w).2 in
  (confirm_delete callback w).1 = Ok () ∧
  live w' = d ∧ durable w' = d ∧ storage w' = storage w ∧
  zones (cf w') = zones (cf w) ∧
  records (cf w') = match found with
                    | r :: _ => filter (λ r', record_is zid (r_id r) r' = false)
                                  (records (cf w))
                    | [] => records (cf w)
                    end ∧
  out w' = out w ++ [Cf ZonesGet; Cf (RecordsGet zid name)]
             ++ match found with
                | r :: _ => [Cf (RecordsDelete zid (r_id r))]
                | [] => []
                end
             ++ [Answer uid ("🗑️ Successfully deleted: " +:+ name)].
Proof.
  intros Hsplit Hrow Hcalls Hzone uid name found d w'. subst w' d found.
  pose proof (filter_claim_some sub dom uid _ Hrow) as Hsome.
  unfold confirm_delete. run. rewrite Hsplit. simpl. fold uid name.
  rewrite bool_decide_eq_false_2.
  2:{ intros Hlen. by apply nil_length_inv in Hlen. }
  apply calls_succeed_3_cases in Hcalls as [E|[E|[E|[fl' E]]]]; rewrite E; simpl;
    rewrite Hzone; simpl;
    destruct (filter (λ r, record_matches zid name r = true) (records (cf w)))
      as [|r rs]; simpl;
    rewrite <- ?app_assoc; simpl; repeat split; reflexivity.
Qed.

(** X14: a release that goes through.  For a selection that unpacks to a
    claim of the sender, with the provider answering and listing a zone of
    that name: the row is deleted and the deletion committed together with
    the log entry "Deleted sub.dom"; the provider is asked for the zones and
    for the records named [sub.dom]; the first record found is deleted by
    its id, and when none is found no delete call is made and the release
    succeeds all the same; the last message is the success text. *)
Theorem release_flow (callback : CallbackQuery) (w : world) (x sub dom zid : string) :
  py_split "_" (q_data callback) = [x; sub; dom] →
  SubdomainRow sub dom (q_from_user callback) ∈ subdomains (live w) →
  calls_succeed 3 (faults w) →
  head (z_id <$> filter (λ z, z_name z = dom) (zones (cf w))) = Some zid →
  let uid := q_from_user callback in
  let name := full_name sub dom in
  let found := filter (λ r, record_matches zid name r = true) (records (cf w)) in
  let w' := (confirm_delete callback w).2 in
  (confirm_delete callback w).1 = Ok () ∧
  (SubdomainRow sub dom uid ∉ subdomains (live w')) ∧
  durable w' = live w' ∧
  logs (live w') = logs (live w) ++
    [LogRow (logs_seq (live w) + 1) uid ("Deleted " +:+ name) (clock w)] ∧
  (∀ r, head found = Some r →
     (r ∉ records (cf w')) ∧ Cf (RecordsDelete zid (r_id r)) ∈ out w') ∧
  (found = [] →
     records (cf w') = records (cf w) ∧
     ∀ z rid, Cf (RecordsDelete z rid) ∉ drop (length (out w)) (out w')) ∧
  last (out w') = Some (Answer uid ("🗑️ Successfully deleted: " +:+ name)).
Proof.
  intros Hsplit Hrow Hcalls Hzone uid name found w'.
  destruct (confirm_delete_released_run callback w x sub dom zid Hsplit Hrow Hcalls Hzone)
    as (Hok & Hlive & Hdur & _ & _ & Hrec & Hout).
  fold uid name found w' in Hok, Hlive, Hdur, Hrec, Hout.
  split; [exact Hok|]. split; [|split; [|split; [|split; [|split]]]].
  - rewrite Hlive. simpl. intros Hin. apply filter_claim_rest in Hin as [_ Hne]. done.
  - by rewrite Hlive, Hdur.
  - by rewrite Hlive.
  - intros r Hr. destruct found as [|r' rs] eqn:Ef; [done|]. simpl in Hr.
    injection Hr as ->. split.
    + rewrite Hrec. intros Hin. apply list_elem_of_filter in Hin as [Hno Hin].
      assert (r ∈ found) as Hf by (rewrite Ef; left).
      subst found. apply list_elem_of_filter in Hf as [Hm _].
      unfold record_matches, record_is in *.
      apply andb_true_iff in Hm as [Hz _]. rewrite Hz in Hno. simpl in Hno.
      by rewrite bool_decide_eq_true_2 in Hno.
    + rewrite Hout. rewrite !elem_of_app. right. right. left. left.
  - intros Hnil. rewrite Hnil in Hrec, Hout. split; [exact Hrec|].
    intros z rid Hin. rewrite Hout, drop_app_length in Hin. simpl in Hin.
    repeat (apply elem_of_cons in Hin as [Hin|Hin]; [discriminate|]).
    by apply elem_of_nil in Hin.
  - rewrite Hout, !app_assoc. apply last_snoc.
Qed.

Lemma release_flow_witness :
  let w' := (confirm_delete (Callback 8 "delete_blog_example.com") world0).2 in
  subdomains (live w') = [] ∧ records (cf w') = [] ∧ durable w' = live w'.
Proof.
  destruct (release_flow (Callback 8 "delete_blog_example.com") world0
              "delete" "blog" "example.com" "z1") as (_ & _ & Hdur & _).
  - reflexivity.
  - apply list_elem_of_here.
  - apply Forall_nil_2.
  - reflexivity.
  - split; [reflexivity|]. split; [reflexivity | exact Hdur].
Defined.

Lemma filter_all {A} (P : A → Prop) `{!∀ x, Decision (P x)} (l : list A) :
  (∀ x, x ∈ l → P x) → filter P l = l.
Proof.
  induction l as [|a l IH]; [done|]. intros Hall.
  rewrite filter_cons_True by (apply Hall; left).
  rewrite IH; [done|]. intros x Hx. apply Hall. by right.
Qed.

Lemma filter_nothing {A} (P : A → Prop) `{!∀ x, Decision (P x)} (l : list A) :
  (∀ x, x ∈ l → ¬ P x) → filter P l = [].
Proof.
  induction l as [|a l IH]; [done|]. intros Hall.
  rewrite filter_cons_False by (apply Hall; left).
  apply IH. intros x Hx. apply Hall. by right.
Qed.

(** X15: claim and release, a round trip.  A claim made and then released
    by its owner, with the provider answering, names without underscore and
    no older record of that name or identifier in the zone, leaves the
    claims, the users and the provider's records exactly as they were; what
    remains is the two log entries, committed. *)
Theorem claim_then_release (message : Message) (w : world) (text dom zid : string) :
  let uid := m_from_user message in
  let sub := py_lower (py_strip text) in
  let name := full_name sub dom in
  m_text message = Some text →
  fsm_data (session_of uid w) !! "domain" = Some dom →
  fsm_data (session_of uid w) !! "zone_id" = Some zid →
  (∀ r, r ∈ subdomains (live w) → ¬ (s_subdomain r = sub ∧ s_domain r = dom)) →
  py_contains "_" sub = false →
  py_contains "_" dom = false →
  calls_succeed 4 (faults w) →
  head (z_id <$> filter (λ z, z_name z = dom) (zones (cf w))) = Some zid →
  (∀ r, r ∈ records (cf w) →
        r_zone r = zid → r_name r ≠ name ∧ r_id r ≠ next_record_id (cf w)) →
  let w1 := (create_subdomain message w).2 in
  let w2 := (confirm_delete (Callback uid ("delete_" +:+ sub +:+ "_" +:+ dom)) w1).2 in
  SubdomainRow sub dom uid ∈ subdomains (live w1) ∧
  subdomains (live w2) = subdomains (live w) ∧
  users (live w2) = users (live w) ∧
  records (cf w2) = records (cf w) ∧
  zones (cf w2) = zones (cf w) ∧
  logs (live w2) = logs (live w) ++
    [LogRow (logs_seq (live w) + 1) uid ("Created " +:+ name) (clock w);
     LogRow (logs_seq (live w) + 2) uid ("Deleted " +:+ name) (clock w)] ∧
  durable w2 = live w2.
Proof.
  intros uid sub name Htext Hdom Hzid Hfree Hsub Hdomu Hcalls Hzone Hrec w1 w2.
  pose proof (select_subdomain_free _ _ _ Hfree) as Hsel.
  apply calls_succeed_S in Hcalls as [Hf1 Hcalls].
  assert (w1 = (create_subdomain message w).2) as E1 by done.
  rewrite (create_subdomain_created_run message text Htext w dom zid Hdom Hzid Hsel Hf1)
    in E1.
  simpl in E1. fold uid sub name in E1.
  assert (SubdomainRow sub dom uid ∈ subdomains (live w1)) as Hrow.
  { rewrite E1. simpl. apply elem_of_app. right. left. }
  destruct (confirm_delete_released_run
              (Callback uid ("delete_" +:+ sub +:+ "_" +:+ dom)) w1
              "delete" sub dom zid)
    as (_ & Hlive & Hdur & _ & Hzones & Hrecs & _).
  { cbn [q_data]. rewrite delete_data_split.
    by rewrite (py_split_free _ _ Hsub), (py_split_free _ _ Hdomu). }
  { exact Hrow. }
  { by rewrite E1. }
  { by rewrite E1. }
  simpl in Hlive, Hdur, Hzones, Hrecs. fold w2 name in Hlive, Hdur, Hzones, Hrecs.
  set (new := DnsRecord (next_record_id (cf w)) zid "CNAME" name TARGET TTL).
  assert (filter (λ r, record_matches zid name r = true) (records (cf w1)) = [new]) as Hfound.
  { rewrite E1. simpl. rewrite filter_app, filter_nothing.
    - rewrite filter_cons_True; [done|].
      unfold record_matches. simpl. by rewrite !bool_decide_eq_true_2.
    - intros r Hr Hm. unfold record_matches in Hm.
      apply andb_true_iff in Hm as [Hz Hn].
      apply bool_decide_eq_true in Hz, Hn. by destruct (Hrec r Hr Hz). }
  rewrite Hfound in Hrecs.
  split; [exact Hrow|]. split; [|split; [|split; [|split; [|split]]]].
  - rewrite Hlive, E1. simpl. rewrite filter_app, filter_all.
    + rewrite filter_cons_False; [by rewrite app_nil_r|].
      assert (claim_is sub dom uid (SubdomainRow sub dom uid) = true)
        by (by apply claim_is_spec). congruence.
    + intros r Hr. destruct (claim_is sub dom uid r) eqn:Ec; [|done].
      apply claim_is_spec in Ec. subst r. by destruct (Hfree _ Hr).
  - by rewrite Hlive, E1.
  - rewrite Hrecs, E1. simpl. rewrite filter_app, filter_all.
    + rewrite filter_cons_False; [by rewrite app_nil_r|].
      unfold record_is. simpl. by rewrite !bool_decide_eq_true_2.
    + intros r Hr. unfold record_is.
      destruct (bool_decide (r_zone r = zid)) eqn:Ez; [|done]. simpl.
      apply bool_decide_eq_true in Ez. destruct (Hrec r Hr Ez) as [_ Hid].
      by rewrite bool_decide_eq_false_2.
  - by rewrite Hzones, E1.
  - rewrite Hlive, E1. simpl. rewrite <- app_assoc. simpl.
    by replace (logs_seq (live w) + 1 + 1) with (logs_seq (live w) + 2) by lia.
  - by rewrite Hlive, Hdur.
Qed.

Lemma claim_then_release_witness :
  let w1 := (create_subdomain (Msg 7 (Some "shop")) world0).2 in
  let w2 := (confirm_delete (Callback 7 "delete_shop_example.com") w1).2 in
  subdomains (live w2) = subdomains db0 ∧ records (cf w2) = records provider0.
Proof.
  destruct (claim_then_release (Msg 7 (Some "shop")) world0 "shop" "example.com" "z1")
    as (_ & Hsub & _ & Hrec & _).
  - reflexivity.
  - reflexivity.
  - reflexivity.
  - intros r Hr [Hs _]. apply list_elem_of_singleton in Hr. subst r. discriminate.
  - reflexivity.
  - reflexivity.
  - apply Forall_nil_2.
  - reflexivity.
  - intros r Hr _. apply list_elem_of_singleton in Hr. subst r. split; discriminate.
  - split; [exact Hsub | exact Hrec].
Defined.

(** ** Whose claims an update can touch *)

Lemma dispatch_subdomains_frame (ADMIN_IDS : list Z) (c : call) (w : world) :
  (∀ m, c ≠ CallName m) → (∀ q, c ≠ CallConfirm q) →
  subdomains (live (dispatch ADMIN_IDS c w).2) = subdomains (live w).
Proof.
  intros Hn Hc.
  set (P := λ w' : world, subdomains (live w') = subdomains (live w)).
  assert (∀ w1 p fl t o, P w1 → P (World (live w1) (durable w1) (storage w1) p fl t o))
    as P_env by done.
  assert (∀ w1 uid s, P w1 → session_ok s →
            P (with_storage (<[uid := s]> (storage w1)) w1)) as P_session by done.
  assert (∀ w1 uid, P w1 → P (with_live (update_approved uid (live w1)) w1))
    as P_update by done.
  assert (∀ w1, P w1 → P (with_durable (live w1) w1)) as P_commit by done.
  assert (P w) as Hw by done.
  destruct c as [m|m|q|m|m|q|m]; cbn [dispatch].
  - exact (stable_start P P_env m w Hw).
  - exact (stable_select_domain P P_env P_session m w Hw).
  - exact (stable_enter_subdomain P P_env P_session q w Hw).
  - by destruct (Hn m).
  - exact (stable_delete_subdomain P P_env P_session m w Hw).
  - by destruct (Hc q).
  - exact (stable_approve_user ADMIN_IDS P P_env P_update P_commit m w Hw).
Qed.

Lemma create_subdomain_subdomains (message : Message) (w : world) :
  let w' := (create_subdomain message w).2 in
  subdomains (live w') = subdomains (live w) ∨
  ∃ sub dom, subdomains (live w')
             = subdomains (live w) ++ [SubdomainRow sub dom (m_from_user message)].
Proof.
  set (uid := m_from_user message).
  destruct (m_text message) as [text|] eqn:Htext.
  2:{ left. unfold create_subdomain. by rewrite Htext. }
  destruct (fsm_data (session_of uid w) !! "domain") as [dom|] eqn:Hdom.
  2:{ left. unfold create_subdomain. rewrite Htext. fold uid. run. by rewrite Hdom. }
  destruct (select_subdomain (py_lower (py_strip text)) dom (live w))
    as [r|] eqn:Esel.
  { left. unfold create_subdomain. rewrite Htext. fold uid. run. rewrite Hdom. simpl. by rewrite Esel. }
  destruct (fsm_data (session_of uid w) !! "zone_id") as [zid|] eqn:Hzid.
  2:{ left. unfold create_subdomain. rewrite Htext. fold uid. run. rewrite Hdom. simpl.
      by rewrite Esel, Hzid. }
  destruct (faults w) as [|[msg|] fl] eqn:Efl.
  - right. eexists _, dom.
    rewrite (create_subdomain_created_run message text Htext w dom zid Hdom Hzid Esel);
      [done|]. by rewrite Efl.
  - left. by rewrite (create_subdomain_refused_run message text Htext w dom zid msg fl
                        Hdom Hzid Esel Efl).
  - right. eexists _, dom.
    rewrite (create_subdomain_created_run message text Htext w dom zid Hdom Hzid Esel);
      [done|]. by rewrite Efl.
Qed.

Lemma confirm_delete_subdomains (callback : CallbackQuery) (w : world) :
  let w' := (confirm_delete callback w).2 in
  subdomains (live w') = subdomains (live w) ∨
  ∃ sub dom, ∀ r, r ∈ subdomains (live w') ↔
       (r ∈ subdomains (live w) ∧ r ≠ SubdomainRow sub dom (q_from_user callback)).
Proof.
  destruct (py_split "_" (q_data callback)) as [|x [|sub [|dom [|y l]]]] eqn:E.
  5:{ left. unfold confirm_delete. by rewrite E. }
  4:{ right. exists sub, dom.
      by destruct (confirm_delete_owner_only callback w x sub dom E). }
  all: left; unfold confirm_delete; by rewrite E.
Qed.

(** X16: an update touches only claims of its sender.  Whatever update is
    processed, a row that appears in the claims table is owned by the sender
    of the update, and so is a row that disappears from it; the claims of
    all other users are exactly as before. *)
Theorem update_touches_own_claims (ADMIN_IDS : list Z) (c : call) (w : world)
    (r : subdomain_row) :
  let w' := (process ADMIN_IDS c w).2 in
  s_user_id r ≠ from_user (call_event c) →
  (r ∈ subdomains (live w') ↔ r ∈ subdomains (live w)).
Proof.
  intros w' Hother. subst w'.
  destruct (decide (select_status (from_user (call_event c)) (live w) = Some "approved"))
    as [Happ|Hnot].
  2:{ by destruct (process_blocked ADMIN_IDS c w Hnot) as (o & _ & [->|[_ ->]]). }
  rewrite process_approved by done.
  destruct c as [m|m|q|m|m|q|m];
    try (by rewrite dispatch_subdomains_frame).
  - cbn [dispatch]. simpl in Hother.
    destruct (create_subdomain_subdomains m w) as [->|(sub & dom & ->)]; [done|].
    rewrite elem_of_app, list_elem_of_singleton. split; [|auto].
    intros [H| ->]; [done|]. by destruct Hother.
  - cbn [dispatch]. simpl in Hother.
    destruct (confirm_delete_subdomains q w) as [->|(sub & dom & H)]; [done|].
    rewrite H. split; [by intros [? _]|]. intros Hin. split; [done|].
    intros ->. by destruct Hother.
Qed.

Lemma update_touches_own_claims_witness :
  SubdomainRow "blog" "example.com" 8
    ∈ subdomains (live (process ADMINS (CallConfirm (Callback 7 "delete_blog_example.com"))
                          world0).2).
Proof.
  apply (update_touches_own_claims ADMINS
           (CallConfirm (Callback 7 "delete_blog_example.com")) world0
           (SubdomainRow "blog" "example.com" 8)).
  - discriminate.
  - apply list_elem_of_here.
Defined.

(** ** A selection that cannot be served *)

(** X17: when the zone list cannot be fetched, or does not list the zone
    identifier of the selection, [enter_subdomain] raises before it writes
    anything: the conversation and the database stay as they were, and the
    user gets no message. *)
Theorem enter_subdomain_unserved (callback : CallbackQuery) (w : world) (zid : string) :
  py_split "_" (q_data callback) !! 1%nat = Some zid →
  (∃ msg fl, faults w = Some msg :: fl) ∨
  (∀ z, z ∈ zones (cf w) → z_id z ≠ zid) →
  let w' := (enter_subdomain callback w).2 in
  (∃ e, (enter_subdomain callback w).1 = Raise e) ∧
  storage w' = storage w ∧ live w' = live w ∧ durable w' = durable w ∧
  out w' = out w ++ [Cf ZonesGet].
Proof.
  intros Hsplit Hcase w'. subst w'. unfold enter_subdomain. run. rewrite Hsplit. simpl.
  destruct Hcase as [(msg & fl & Efl)|Hzone].
  - rewrite Efl. simpl. eauto 10.
  - assert (filter (λ z, z_id z = zid) (zones (cf w)) = []) as Hnone.
    { apply filter_nothing. intros z Hz. by apply Hzone. }
    destruct (faults w) as [|[msg|] fl] eqn:Efl; simpl; rewrite ?Hnone; simpl; eauto 10.
Qed.

Lemma enter_subdomain_unserved_witness :
  let r := enter_subdomain (Callback 8 "domain_z9") world0 in
  r.1 = Raise StopIteration ∧ storage r.2 = storage world0.
Proof.
  split; [reflexivity|].
  destruct (enter_subdomain_unserved (Callback 8 "domain_z9") world0 "z9")
    as (_ & H & _).
  - reflexivity.
  - right. intros z Hz. apply list_elem_of_singleton in Hz. subst z. discriminate.
  - exact H.
Defined.

(** ** The provider and the log, seen from outside *)

(** X18: the provider is called only for approved users.  If processing
    an update makes any call on the provider, the sender of the update was
    approved when it arrived. *)
Theorem provider_called_for_approved_only (ADMIN_IDS : list Z) (c : call) (w : world)
    (call : cf_call) :
  Cf call ∈ drop (length (out w)) (out (process ADMIN_IDS c w).2) →
  select_status (from_user (call_event c)) (live w) = Some "approved".
Proof.
  intros Hin.
  destruct (decide (select_status (from_user (call_event c)) (live w) = Some "approved"))
    as [Happ|Hnot]; [done|].
  destruct (process_blocked ADMIN_IDS c w Hnot) as (o & Ho & [E|[_ E]]);
    rewrite E in Hin; simpl in Hin; rewrite drop_app_length in Hin;
    by apply Ho in Hin.
Qed.

Lemma provider_called_for_approved_only_witness :
  select_status 7 (live world0) = Some "approved".
Proof.
  apply (provider_called_for_approved_only ADMINS
           (CallDomain (Callback 7 "domain_z1")) world0 ZonesGet).
  apply list_elem_of_here.
Defined.

Lemma dispatch_logs_frame (ADMIN_IDS : list Z) (c : call) (w : world) :
  (∀ m, c ≠ CallName m) → (∀ q, c ≠ CallConfirm q) →
  logs (live (dispatch ADMIN_IDS c w).2) = logs (live w).
Proof.
  intros Hn Hc.
  set (P := λ w' : world, logs (live w') = logs (live w)).
  assert (∀ w1 p fl t o, P w1 → P (World (live w1) (durable w1) (storage w1) p fl t o))
    as P_env by done.
  assert (∀ w1 uid s, P w1 → session_ok s →
            P (with_storage (<[uid := s]> (storage w1)) w1)) as P_session by done.
  assert (∀ w1 uid, P w1 → P (with_live (update_approved uid (live w1)) w1))
    as P_update by done.
  assert (∀ w1, P w1 → P (with_durable (live w1) w1)) as P_commit by done.
  assert (P w) as Hw by done.
  destruct c as [m|m|q|m|m|q|m]; cbn [dispatch].
  - exact (stable_start P P_env m w Hw).
  - exact (stable_select_domain P P_env P_session m w Hw).
  - exact (stable_enter_subdomain P P_env P_session q w Hw).
  - by destruct (Hn m).
  - exact (stable_delete_subdomain P P_env P_session m w Hw).
  - by destruct (Hc q).
  - exact (stable_approve_user ADMIN_IDS P P_env P_update P_commit m w Hw).
Qed.

Lemma create_subdomain_logs (message : Message) (w : world) :
  let uid := m_from_user message in
  let w' := (create_subdomain message w).2 in
  logs (live w') = logs (live w) ∨
  ∃ sub dom,
    logs (live w') = logs (live w)
                       ++ [log_entry w uid ("Created " +:+ full_name sub dom)] ∧
    (SubdomainRow sub dom uid ∉ subdomains (live w)) ∧
    SubdomainRow sub dom uid ∈ subdomains (live w').
Proof.
  set (uid := m_from_user message).
  destruct (m_text message) as [text|] eqn:Htext.
  2:{ left. unfold create_subdomain. by rewrite Htext. }
  destruct (fsm_data (session_of uid w) !! "domain") as [dom|] eqn:Hdom.
  2:{ left. unfold create_subdomain. rewrite Htext. fold uid. run. by rewrite Hdom. }
  destruct (select_subdomain (py_lower (py_strip text)) dom (live w))
    as [r|] eqn:Esel.
  { left. unfold create_subdomain. rewrite Htext. fold uid. run. rewrite Hdom. simpl. by rewrite Esel. }
  destruct (fsm_data (session_of uid w) !! "zone_id") as [zid|] eqn:Hzid.
  2:{ left. unfold create_subdomain. rewrite Htext. fold uid. run. rewrite Hdom. simpl.
      by rewrite Esel, Hzid. }
  assert (SubdomainRow (py_lower (py_strip text)) dom uid
            ∉ subdomains (live w)) as Hfresh.
  { intros Hin. unfold select_subdomain in Esel. apply list_elem_of_In in Hin.
    pose proof (find_none _ _ Esel _ Hin) as Hk.
    assert (key_is (py_lower (py_strip text)) dom
              (SubdomainRow (py_lower (py_strip text)) dom uid) = true)
      by (by apply key_is_spec). congruence. }
  assert (hd None (faults w) = None →
          ∃ sub dom0,
            logs (live (create_subdomain message w).2) = logs (live w)
               ++ [log_entry w uid ("Created " +:+ full_name sub dom0)] ∧
            (SubdomainRow sub dom0 uid ∉ subdomains (live w)) ∧
            SubdomainRow sub dom0 uid ∈ subdomains (live (create_subdomain message w).2))
    as Hcreated.
  { intros Hfl. exists (py_lower (py_strip text)), dom.
    rewrite (create_subdomain_created_run message text Htext w dom zid Hdom Hzid Esel Hfl).
    simpl. split; [done|]. split; [exact Hfresh|].
    apply elem_of_app. right. left. }
  destruct (faults w) as [|[msg|] fl] eqn:Efl.
  - right. by apply Hcreated.
  - left. by rewrite (create_subdomain_refused_run message text Htext w dom zid msg fl
                        Hdom Hzid Esel Efl).
  - right. by apply Hcreated.
Qed.

Lemma confirm_delete_logs (callback : CallbackQuery) (w : world) :
  let uid := q_from_user callback in
  let w' := (confirm_delete callback w).2 in
  logs (live w') = logs (live w) ∨
  ∃ sub dom,
    logs (live w') = logs (live w)
                       ++ [log_entry w uid ("Deleted " +:+ full_name sub dom)] ∧
    SubdomainRow sub dom uid ∈ subdomains (live w) ∧
    (SubdomainRow sub dom uid ∉ subdomains (live w')).
Proof.
  destruct (py_split "_" (q_data callback)) as [|x [|sub [|dom [|y l]]]] eqn:E.
  5:{ left. unfold confirm_delete. by rewrite E. }
  4:{ pose proof (wp_confirm_delete callback w x sub dom E) as H.
      destruct (confirm_delete_owner_only callback w x sub dom E) as [Hrest _].
      unfold wp in H. simpl in H, Hrest.
      destruct (bool_decide _) eqn:En in H.
      - left. by destruct H as [_ ->].
      - destruct ((confirm_delete callback w).1) as [[]|e].
        + right. exists sub, dom. destruct H as (-> & _ & _). simpl.
          split; [done|]. split.
          * apply bool_decide_eq_false in En.
            destruct (filter (λ r, claim_is sub dom (q_from_user callback) r = true)
                        (subdomains (live w))) as [|r0 rs] eqn:Ef; [done|].
            assert (r0 ∈ filter (λ r, claim_is sub dom (q_from_user callback) r = true)
                           (subdomains (live w))) as Hin by (rewrite Ef; left).
            apply list_elem_of_filter in Hin as [Hc Hin].
            apply claim_is_spec in Hc. by subst r0.
          * intros Hin. apply filter_claim_rest in Hin as [_ Hne]. done.
        + left. by destruct H as (-> & _). }
  all: left; unfold confirm_delete; by rewrite E.
Qed.

(** X19: the log tells the truth.  An update adds at most one log entry,
    in the name of its sender; "Created sub.dom" is added only when the
    update inserted the sender's claim (sub, dom), which was not there
    before, and "Deleted sub.dom" only when it deleted that claim of the
    sender.  Refusals at the gate, name conflicts and provider errors are not
    logged. *)
Theorem log_entry_records_change (ADMIN_IDS : list Z) (c : call) (w : world) :
  let uid := from_user (call_event c) in
  let w' := (process ADMIN_IDS c w).2 in
  logs (live w') = logs (live w) ∨
  ∃ sub dom,
    (logs (live w') = logs (live w)
                        ++ [log_entry w uid ("Created " +:+ full_name sub dom)] ∧
     (SubdomainRow sub dom uid ∉ subdomains (live w)) ∧
     SubdomainRow sub dom uid ∈ subdomains (live w')) ∨
    (logs (live w') = logs (live w)
                        ++ [log_entry w uid ("Deleted " +:+ full_name sub dom)] ∧
     SubdomainRow sub dom uid ∈ subdomains (live w) ∧
     (SubdomainRow sub dom uid ∉ subdomains (live w'))).
Proof.
  intros uid w'. subst uid w'.
  destruct (decide (select_status (from_user (call_event c)) (live w) = Some "approved"))
    as [Happ|Hnot].
  2:{ left. by destruct (process_blocked ADMIN_IDS c w Hnot) as (o & _ & [->|[_ ->]]). }
  rewrite process_approved by done.
  destruct c as [m|m|q|m|m|q|m];
    try (left; by rewrite dispatch_logs_frame).
  - cbn [dispatch call_event from_user].
    destruct (create_subdomain_logs m w) as [H|(sub & dom & H)]; [by left|].
    right. exists sub, dom. by left.
  - cbn [dispatch call_event from_user].
    destruct (confirm_delete_logs q w) as [H|(sub & dom & H)]; [by left|].
    right. exists sub, dom. by right.
Qed.

(** X20: a release cannot be repeated.  After a release that went
    through, selecting the same button again is answered "not found"; the
    provider is not called, and nothing in the database or at the provider
    changes. *)
Theorem release_twice (callback : CallbackQuery) (w : world) (x sub dom zid : string) :
  py_split "_" (q_data callback) = [x; sub; dom] →
  SubdomainRow sub dom (q_from_user callback) ∈ subdomains (live w) →
  calls_succeed 3 (faults w) →
  head (z_id <$> filter (λ z, z_name z = dom) (zones (cf w))) = Some zid →
  let w1 := (confirm_delete callback w).2 in
  let w2 := (confirm_delete callback w1).2 in
  (confirm_delete callback w1).1 = Ok () ∧
  out w2 = out w1 ++ [CallbackAnswer (q_from_user callback) "🚫 Subdomain not found!"] ∧
  subdomains (live w2) = subdomains (live w1) ∧
  users (live w2) = users (live w1) ∧ logs (live w2) = logs (live w1) ∧
  durable w2 = durable w1 ∧ cf w2 = cf w1.
Proof.
  intros Hsplit Hrow Hcalls Hzone w1 w2.
  assert (SubdomainRow sub dom (q_from_user callback) ∉ subdomains (live w1)) as Hgone.
  { destruct (confirm_delete_owner_only callback w x sub dom Hsplit) as [Hrest _].
    intros Hin. apply Hrest in Hin as [_ Hne]. done. }
  pose proof (wp_confirm_delete callback w1 x sub dom Hsplit) as H.
  unfold wp in H. simpl in H.
  destruct (filter_claim_none sub dom _ _ Hgone) as [Hnil Hsame].
  rewrite Hnil in H. simpl in H. destruct H as [Hok Hw2].
  fold w2 in Hw2. split; [exact Hok|]. rewrite Hw2. simpl.
  by rewrite Hsame.
Qed.

Lemma release_twice_witness :
  let w1 := (confirm_delete (Callback 8 "delete_blog_example.com") world0).2 in
  out (confirm_delete (Callback 8 "delete_blog_example.com") w1).2
    = out w1 ++ [CallbackAnswer 8 "🚫 Subdomain not found!"].
Proof.
  destruct (release_twice (Callback 8 "delete_blog_example.com") world0
              "delete" "blog" "example.com" "z1") as (_ & H & _).
  - reflexivity.
  - apply list_elem_of_here.
  - apply Forall_nil_2.
  - reflexivity.
  - exact H.
Defined.

(** ** The name as it is stored *)

Lemma lower_ascii_idemp (ch : ascii) : lower_ascii (lower_ascii ch) = lower_ascii ch.
Proof. destruct ch as [[] [] [] [] [] [] [] []]; reflexivity. Qed.

Lemma lower_ascii_isspace (ch : ascii) : py_isspace (lower_ascii ch) = py_isspace ch.
Proof. destruct ch as [[] [] [] [] [] [] [] []]; reflexivity. Qed.

Lemma py_lower_idemp (s : string) : py_lower (py_lower s) = py_lower s.
Proof.
  induction s as [|ch r IH]; simpl; [done|]. by rewrite lower_ascii_idemp, IH.
Qed.

Lemma py_lower_lstrip (s : string) :
  lstrip py_isspace (py_lower s) = py_lower (lstrip py_isspace s).
Proof.
  induction s as [|ch r IH]; simpl; [done|]. rewrite lower_ascii_isspace.
  by destruct (py_isspace ch).
Qed.

Lemma py_lower_rstrip (s : string) :
  rstrip py_isspace (py_lower s) = py_lower (rstrip py_isspace s).
Proof.
  induction s as [|ch r IH]; simpl; [done|]. rewrite IH, lower_ascii_isspace.
  destruct (rstrip py_isspace r) as [|c' r']; simpl; [|done].
  by destruct (py_isspace ch).
Qed.

Lemma rstrip_idemp (p : ascii → bool) (s : string) : rstrip p (rstrip p s) = rstrip p s.
Proof.
  induction s as [|ch r IH]; simpl; [done|].
  destruct (rstrip p r) as [|c' r'] eqn:E.
  - destruct (p ch) eqn:Es; simpl; [done|]. by rewrite Es.
  - simpl in *. by rewrite IH.
Qed.

Lemma lstrip_rstrip (p : ascii → bool) (s : string) :
  lstrip p s = s → lstrip p (rstrip p s) = rstrip p s.
Proof.
  destruct s as [|ch r]; simpl; [done|].
  destruct (p ch) eqn:Es.
  - intros H. exfalso.
    assert (String.length (lstrip p r) ≤ String.length r)%nat as Hle.
    { clear. induction r as [|c r IH]; simpl; [lia|].
      destruct (p c); simpl; lia. }
    rewrite H in Hle. simpl in Hle. lia.
  - intros _. destruct (rstrip p r); simpl; by rewrite Es.
Qed.

Lemma lstrip_idemp (p : ascii → bool) (s : string) : lstrip p (lstrip p s) = lstrip p s.
Proof.
  induction s as [|ch r IH]; simpl; [done|].
  destruct (p ch) eqn:Es; [exact IH|]. simpl. by rewrite Es.
Qed.

(** Normalizing an ASCII text gives an ASCII text. *)
Lemma lower_ascii_range (ch : ascii) :
  (nat_of_ascii (lower_ascii ch) <? 128)%nat = (nat_of_ascii ch <? 128)%nat.
Proof. destruct ch as [[] [] [] [] [] [] [] []]; reflexivity. Qed.

Lemma is_ascii_lower (s : string) : is_ascii (py_lower s) = is_ascii s.
Proof.
  induction s as [|ch r IH]; simpl; [done|]. by rewrite lower_ascii_range, IH.
Qed.

Lemma is_ascii_lstrip (p : ascii → bool) (s : string) :
  is_ascii s = true → is_ascii (lstrip p s) = true.
Proof.
  induction s as [|ch r IH]; simpl; [done|]. intros H.
  destruct (p ch); [|exact H]. apply andb_true_iff in H as [_ H]. auto.
Qed.

Lemma is_ascii_rstrip (p : ascii → bool) (s : string) :
  is_ascii s = true → is_ascii (rstrip p s) = true.
Proof.
  induction s as [|ch r IH]; simpl; [done|]. intros H.
  apply andb_true_iff in H as [Hch H]. specialize (IH H).
  destruct (rstrip p r) as [|c' r'].
  - destruct (p ch); simpl; [done|]. by rewrite Hch.
  - change (is_ascii (String ch (String c' r')))
      with ((nat_of_ascii ch <? 128)%nat && is_ascii (String c' r')).
    by rewrite Hch, IH.
Qed.

(** On ASCII text the blanks are the ASCII blanks. *)
Lemma ascii_no_lead (ch : ascii) :
  (nat_of_ascii ch <? 128)%nat = true →
  byte_is 194 ch = false ∧ byte_is 225 ch = false ∧
  byte_is 226 ch = false ∧ byte_is 227 ch = false.
Proof.
  destruct ch as [[] [] [] [] [] [] [] []]; intros H; try discriminate H;
    repeat split; reflexivity.
Qed.

Lemma blank_at_ascii (s : string) :
  is_ascii s = true →
  blank_at s = match s with
               | String ch r => if py_isspace ch then Some r else None
               | "" => None
               end.
Proof.
  destruct s as [|c1 r1]; [done|]. cbn [is_ascii]. intros H.
  apply andb_true_iff in H as [H1 _].
  destruct (ascii_no_lead c1 H1) as (E1 & E2 & E3 & E4).
  unfold blank_at. destruct (py_isspace c1); [done|].
  destruct r1 as [|c2 [|c3 r3]]; [done| |]; rewrite ?E1, ?E2, ?E3, ?E4; done.
Qed.

Lemma py_lstrip_go_ascii (n : nat) (s : string) :
  (String.length s ≤ n)%nat → is_ascii s = true →
  py_lstrip_go n s = lstrip py_isspace s.
Proof.
  revert s. induction n as [|n IH]; intros s Hlen Ha.
  - destruct s; [done | simpl in Hlen; lia].
  - cbn [py_lstrip_go]. rewrite blank_at_ascii by done.
    destruct s as [|ch r]; [done|]. cbn [lstrip].
    destruct (py_isspace ch); [|done].
    cbn [is_ascii] in Ha. apply andb_true_iff in Ha as [_ Ha].
    apply IH; [simpl in Hlen; lia | done].
Qed.

Lemma blanks_only_ascii (n : nat) (s : string) :
  (String.length s ≤ n)%nat → is_ascii s = true →
  blanks_only n s = match rstrip py_isspace s with "" => true | _ => false end.
Proof.
  revert s. induction n as [|n IH]; intros s Hlen Ha.
  - destruct s; [done | simpl in Hlen; lia].
  - destruct s as [|ch r]; [done|].
    cbn [blanks_only]. rewrite blank_at_ascii by done.
    cbn [is_ascii] in Ha. apply andb_true_iff in Ha as [_ Ha].
    cbn [rstrip].
    destruct (py_isspace ch).
    + rewrite IH by (simpl in Hlen; lia || done).
      by destruct (rstrip py_isspace r).
    + by destruct (rstrip py_isspace r).
Qed.

Lemma py_rstrip_ascii (s : string) :
  is_ascii s = true → py_rstrip s = rstrip py_isspace s.
Proof.
  induction s as [|ch r IH]; [done|]. intros Ha.
  cbn [py_rstrip]. rewrite blanks_only_ascii by (done || lia).
  cbn [is_ascii] in Ha. apply andb_true_iff in Ha as [_ Ha].
  rewrite IH by done. cbn [rstrip].
  destruct (rstrip py_isspace r); [|done].
  by destruct (py_isspace ch).
Qed.

Lemma py_strip_ascii (s : string) :
  is_ascii s = true → py_strip s = rstrip py_isspace (lstrip py_isspace s).
Proof.
  intros Ha. unfold py_strip, py_lstrip.
  rewrite py_lstrip_go_ascii by (done || lia).
  by apply py_rstrip_ascii, is_ascii_lstrip.
Qed.

Lemma is_ascii_normalize (text : string) :
  is_ascii text = true → is_ascii (py_lower (py_strip text)) = true.
Proof.
  intros H. rewrite is_ascii_lower, py_strip_ascii by done.
  by apply is_ascii_rstrip, is_ascii_lstrip.
Qed.

Lemma normalize_idemp (text : string) :
  is_ascii text = true →
  py_lower (py_strip (py_lower (py_strip text))) = py_lower (py_strip text).
Proof.
  intros Ha. rewrite (py_strip_ascii (py_lower _)) by (by apply is_ascii_normalize).
  rewrite (py_strip_ascii text) by done.
  rewrite py_lower_lstrip, py_lower_rstrip, py_lower_idemp.
  rewrite (lstrip_rstrip _ (lstrip py_isspace text)) by apply lstrip_idemp.
  by rewrite rstrip_idemp.
Qed.

(** X21: the name is stored as it is shown, and who types it again finds
    it taken.  For ASCII texts (on which [py_strip] and [py_lower] are
    [strip()] and [lower()]): the stored subdomain is an ASCII text and a
    fixed point of [strip().lower()]; after a claim that went through, any
    other user who has selected the same domain and enters the stored name,
    or any text that normalizes to it (other case, blanks around it), is
    answered "already taken", with no call on the provider and no change of
    the database. *)
Theorem stored_name_is_taken (message : Message) (w : world) (first dom zid : string)
    (other : Z) (text : string) :
  let uid := m_from_user message in
  let sub := py_lower (py_strip first) in
  m_text message = Some first →
  is_ascii first = true →
  is_ascii text = true →
  fsm_data (session_of uid w) !! "domain" = Some dom →
  fsm_data (session_of uid w) !! "zone_id" = Some zid →
  (∀ r, r ∈ subdomains (live w) → ¬ (s_subdomain r = sub ∧ s_domain r = dom)) →
  hd None (faults w) = None →
  other ≠ uid →
  fsm_data (session_of other w) !! "domain" = Some dom →
  py_lower (py_strip text) = sub →
  let w1 := (create_subdomain message w).2 in
  is_ascii sub = true ∧
  py_lower (py_strip sub) = sub ∧
  create_subdomain (Msg other (Some text)) w1 =
    (Ok (),
     World (live w1) (durable w1) (storage w1) (cf w1) (faults w1) (clock w1)
       (out w1 ++ [Answer other "❌ This subdomain is already taken!"])) ∧
  create_subdomain (Msg other (Some sub)) w1 =
    (Ok (),
     World (live w1) (durable w1) (storage w1) (cf w1) (faults w1) (clock w1)
       (out w1 ++ [Answer other "❌ This subdomain is already taken!"])).
Proof.
  intros uid sub Hfirst Hascii _ Hdom Hzid Hfree Hfl Hother Hdom2 Htext w1.
  pose proof (select_subdomain_free _ _ _ Hfree) as Hsel.
  assert (w1 = (create_subdomain message w).2) as E1 by done.
  rewrite (create_subdomain_created_run message first Hfirst w dom zid Hdom Hzid Hsel Hfl)
    in E1.
  simpl in E1. fold uid sub in E1.
  assert (fsm_data (session_of other w1) !! "domain" = Some dom) as Hd1.
  { rewrite E1. unfold session_of in *. simpl. by rewrite lookup_insert_ne. }
  assert (SubdomainRow sub dom uid ∈ subdomains (live w1)) as Hrow.
  { rewrite E1. simpl. apply elem_of_app. right. left. }
  assert (py_lower (py_strip sub) = sub) as Hidem by (by apply normalize_idemp).
  split; [by apply is_ascii_normalize|]. split; [exact Hidem|]. split.
  - by apply (create_subdomain_taken_run (Msg other (Some text)) text eq_refl w1 dom
                (SubdomainRow sub dom uid)).
  - by apply (create_subdomain_taken_run (Msg other (Some sub)) sub eq_refl w1 dom
                (SubdomainRow sub dom uid)).
Qed.

Lemma stored_name_is_taken_witness :
  let w := with_storage (<[9 := naming]> (storage world0)) world0 in
  let w1 := (create_subdomain (Msg 7 (Some "  Shop ")) w).2 in
  out (create_subdomain (Msg 9 (Some "SHOP")) w1).2
    = out w1 ++ [Answer 9 "❌ This subdomain is already taken!"].
Proof.
  cbv zeta.
  destruct (stored_name_is_taken (Msg 7 (Some "  Shop "))
              (with_storage (<[9 := naming]> (storage world0)) world0)
              "  Shop " "example.com" "z1" 9 "SHOP") as (_ & _ & H & _).
  - reflexivity.
  - reflexivity.
  - reflexivity.
  - reflexivity.
  - reflexivity.
  - intros r Hr [Hs _]. apply list_elem_of_singleton in Hr. subst r. discriminate.
  - reflexivity.
  - discriminate.
  - reflexivity.
  - reflexivity.
  - by rewrite H.
Defined.
